(** * BMS Adobe Analytics transformation scripts: period validator,
      marker location, table extraction and driver control flow.

    Shallow embedding of [BMS_Indication_Transformation.py],
    [BMS_Monthly+LastTouch_Transformation.py] and
    [BMS_Scroll_Transformation.py].  The three scripts share
    [is_leap_year], [days_in_month], [check_full_period] and the marker
    searches verbatim; line numbers below refer to the file named in each
    comment. *)

From Stdlib Require Import ZArith QArith List String Ascii Bool Lia Permutation.
Import ListNotations.
Open Scope string_scope.
Open Scope list_scope.
Open Scope Z_scope.


(* ================================================================= *)
(** ** Python outcomes *)

(** The exceptions the scripts can see.  [SystemExit] is raised by
    [sys.exit]; it is not a [ValueError], so no handler of the scripts
    catches it. *)
Inductive exn : Type :=
| ValueError (msg : string)
| OverflowError (msg : string)
| IndexError (msg : string)
| KeyError (msg : string)
| OSError (msg : string).

(** Result of running a piece of Python.  [OutOfFuel] is an artefact of the
    embedding of [while] loops by bounded recursion; the totality lemmas
    below show the embedded functions never produce it. *)
Inductive outcome (A : Type) : Type :=
| Return (a : A)
| Raise (e : exn)
| OutOfFuel.
Arguments Return {A} a.
Arguments Raise {A} e.
Arguments OutOfFuel {A}.

Definition bind {A B : Type} (m : outcome A) (k : A -> outcome B) : outcome B :=
  match m with
  | Return a => k a
  | Raise e => Raise e
  | OutOfFuel => OutOfFuel
  end.

Notation "x <- m ;; k" := (bind m (fun x => k))
  (at level 61, m at next level, right associativity).

(* ================================================================= *)
(** ** Calendar utility *)

Module Calendar.

(** [is_leap_year], lines 8-10.  Python's [%] with a positive divisor is
    the floor remainder, which is [Z.modulo]. *)
Definition is_leap_year (year : Z) : bool :=
  (year mod 4 =? 0) && (negb (year mod 100 =? 0) || (year mod 400 =? 0)).

(** [calendar.mdays]: index 0 is a placeholder. *)
Definition mdays : list Z := [0; 31; 28; 31; 30; 31; 30; 31; 31; 30; 31; 30; 31].

(** [days_in_month], lines 12-14: [calendar.monthrange(year, month)[1]].
    The library raises [IllegalMonthError], a [ValueError], outside 1..12
    and otherwise returns [mdays[month] + (month == 2 and isleap(year))]. *)
Definition days_in_month (year month : Z) : outcome Z :=
  if (1 <=? month) && (month <=? 12) then
    Return (nth (Z.to_nat month) mdays 0
            + (if (month =? 2) && is_leap_year year then 1 else 0))
  else Raise (ValueError "bad month number; must be 1-12").

End Calendar.
Import Calendar.

(* ================================================================= *)
(** ** The [datetime] values the validator works on *)

Module Datetime.

(** [strptime] with the format [%m%d%Y] yields midnight, and [replace(day=_)]
    and [+ timedelta(days=1)] keep the time of day, so a value is determined
    by its calendar date. *)
Record datetime : Type := mkdate { year : Z; month : Z; day : Z }.

Definition MINYEAR : Z := 1.
Definition MAXYEAR : Z := 9999.

(** The constructor check of [datetime]: [_check_date_fields]. *)
Definition check_date_fields (y m d : Z) : outcome datetime :=
  if negb ((MINYEAR <=? y) && (y <=? MAXYEAR)) then
    Raise (ValueError "year is out of range")
  else if negb ((1 <=? m) && (m <=? 12)) then
    Raise (ValueError "month must be in 1..12")
  else
    dim <- days_in_month y m ;;
    if negb ((1 <=? d) && (d <=? dim)) then
      Raise (ValueError "day is out of range for month")
    else Return (mkdate y m d).

Definition valid (dt : datetime) : Prop :=
  check_date_fields (year dt) (month dt) (day dt) = Return dt.

(** [dt.replace(day=d)]. *)
Definition replace_day (dt : datetime) (d : Z) : outcome datetime :=
  check_date_fields (year dt) (month dt) d.

(** Rich comparison of two [datetime]s: lexicographic on the fields. *)
Definition cmp (a b : datetime) : comparison :=
  match year a ?= year b with
  | Eq => match month a ?= month b with
          | Eq => day a ?= day b
          | c => c
          end
  | c => c
  end.

Definition leb (a b : datetime) : bool :=
  match cmp a b with Gt => false | _ => true end.
Definition gtb (a b : datetime) : bool := negb (leb a b).

(** The comparison, as arithmetic. *)
Definition lex_le (a b : datetime) : Prop :=
  year a < year b \/
  (year a = year b /\ (month a < month b \/ (month a = month b /\ day a <= day b))).

(** [date.toordinal]: [_ymd2ord], with [_days_before_year] and
    [_days_before_month]. *)
Definition days_before_year (y : Z) : Z :=
  let y1 := y - 1 in y1 * 365 + y1 / 4 - y1 / 100 + y1 / 400.

Definition DAYS_BEFORE_MONTH : list Z :=
  [-1; 0; 31; 59; 90; 120; 151; 181; 212; 243; 273; 304; 334].

Definition days_before_month (y m : Z) : Z :=
  nth (Z.to_nat m) DAYS_BEFORE_MONTH 0
  + (if (2 <? m) && is_leap_year y then 1 else 0).

Definition toordinal (dt : datetime) : Z :=
  days_before_year (year dt) + days_before_month (year dt) (month dt) + day dt.

(** [(a - b).days] for two midnight values. *)
Definition sub_days (a b : datetime) : Z := toordinal a - toordinal b.

(** [dt + timedelta(days=1)]: the next calendar day; the library raises
    [OverflowError] past 9999-12-31. *)
Definition add_one_day (dt : datetime) : outcome datetime :=
  dim <- days_in_month (year dt) (month dt) ;;
  if day dt <? dim then Return (mkdate (year dt) (month dt) (day dt + 1))
  else if month dt <? 12 then Return (mkdate (year dt) (month dt + 1) 1)
  else if year dt <? MAXYEAR then Return (mkdate (year dt + 1) 1 1)
  else Raise (OverflowError "date value out of range").

(** *** [datetime.strptime(s, '%m%d%Y')]

    [_strptime] compiles the format to the regular expression
    [(?P<m>1[0-2]|0[1-9]|[1-9])(?P<d>3[01]|[12]\d|0[1-9]|[1-9]| [1-9])(?P<Y>\d\d\d\d)],
    takes the first match in backtracking order (alternatives left to
    right), refuses a match that leaves input unconsumed, and builds the
    date.  Characters are bytes here, so [\d] is an ASCII digit. *)

Definition digit (c : ascii) : option Z :=
  let n := Z.of_nat (nat_of_ascii c) in
  if (48 <=? n) && (n <=? 57) then Some (n - 48) else None.

Definition in_range (lo hi : Z) (c : ascii) : option Z :=
  match digit c with
  | Some v => if (lo <=? v) && (v <=? hi) then Some v else None
  | None => None
  end.

(** One alternative made of two characters, the first a fixed set. *)
Definition two (lo1 hi1 lo2 hi2 : Z) (s : string) : list (Z * string) :=
  match s with
  | String c1 (String c2 r) =>
      match in_range lo1 hi1 c1, in_range lo2 hi2 c2 with
      | Some a, Some b => [(10 * a + b, r)]
      | _, _ => []
      end
  | _ => []
  end.

Definition one (lo hi : Z) (s : string) : list (Z * string) :=
  match s with
  | String c r => match in_range lo hi c with Some a => [(a, r)] | None => [] end
  | _ => []
  end.

Definition space_one (s : string) : list (Z * string) :=
  match s with
  | String c r => if Ascii.eqb c " "%char then one 1 9 r else []
  | _ => []
  end.

(** [%m]: [1[0-2]|0[1-9]|[1-9]]. *)
Definition alt_m (s : string) : list (Z * string) :=
  two 1 1 0 2 s ++ two 0 0 1 9 s ++ one 1 9 s.

(** [%d]: [3[01]|[12]\d|0[1-9]|[1-9]| [1-9]]. *)
Definition alt_d (s : string) : list (Z * string) :=
  two 3 3 0 1 s ++ two 1 2 0 9 s ++ two 0 0 1 9 s ++ one 1 9 s ++ space_one s.

(** [%Y]: [\d\d\d\d]. *)
Definition alt_Y (s : string) : list (Z * string) :=
  match s with
  | String c1 (String c2 (String c3 (String c4 r))) =>
      match digit c1, digit c2, digit c3, digit c4 with
      | Some a, Some b, Some c, Some d => [(1000 * a + 100 * b + 10 * c + d, r)]
      | _, _, _, _ => []
      end
  | _ => []
  end.

Definition match_mdY (s : string) : option (Z * Z * Z * string) :=
  hd_error
    (flat_map (fun mr =>
       flat_map (fun dr =>
         map (fun yr => (fst mr, fst dr, fst yr, snd yr)) (alt_Y (snd dr)))
         (alt_d (snd mr)))
       (alt_m s)).

Definition strptime_mdY (s : string) : outcome datetime :=
  match match_mdY s with
  | None =>
      Raise (ValueError
        ("time data '" ++ s ++ "' does not match format '%m%d%Y'")%string)
  | Some (m, d, y, rest) =>
      match rest with
      | EmptyString => check_date_fields y m d
      | _ => Raise (ValueError ("unconverted data remains: " ++ rest)%string)
      end
  end.

End Datetime.
Import Datetime.

(* ================================================================= *)
(** ** Period validator *)

Module Period.

(** The [while current <= end] loop of [check_full_period], lines 29-39,
    started at [(current, full_months_count)]; it yields the two variables
    as they stand when the loop is left.  One unit of [fuel] is one test of
    the loop condition. *)
Fixpoint walk (fuel : nat) (current end_ : datetime) (full_months_count : Z)
  : outcome (datetime * Z) :=
  match fuel with
  | O => OutOfFuel
  | S fuel' =>
      if leb current end_ then
        month_days <- days_in_month (year current) (month current) ;;
        month_end <- replace_day current month_days ;;
        if leb month_end end_ then
          next <- add_one_day month_end ;;
          walk fuel' next end_ (full_months_count + 1)
        else Return (current, full_months_count)
      else Return (current, full_months_count)
  end.

(** Position of a month on the time line; the walk advances it by one per
    iteration. *)
Definition month_index (dt : datetime) : Z := 12 * year dt + month dt.

(** Enough fuel for any walk from [start] to [end_]: one loop test per
    month of the span, and the test that leaves the loop. *)
Definition walk_fuel (start end_ : datetime) : nat :=
  S (Z.to_nat (month_index end_ - month_index start + 1)).

(** Lines 28-42: the month walk and the final test. *)
Definition full_months (start end_ : datetime) : outcome bool :=
  r <- walk (walk_fuel start end_) start end_ 0 ;;
  Return (gtb (fst r) end_ && (0 <? snd r)).

(** Whether [dt] is the first, respectively the last, day of its month. *)
Definition is_first_day (dt : datetime) : Prop := day dt = 1.
Definition is_last_day (dt : datetime) : Prop :=
  days_in_month (year dt) (month dt) = Return (day dt).

(** The threshold of line 25. *)
Definition year_length (start : datetime) : Z :=
  if negb (is_leap_year (year start)) then 365 else 366.

(** [check_full_period] after both arguments are parsed, lines 21-42. *)
Definition check_full_period_dt (start end_ : datetime) : outcome bool :=
  if negb (year start =? year end_) then
    if (month start =? 1) && (day start =? 1)
       && (month end_ =? 12) && (day end_ =? 31) then Return true
    else if year_length start <=? sub_days end_ start then Return true
    else full_months start end_
  else full_months start end_.

(** [check_full_period], lines 16-42. *)
Definition check_full_period (start_date end_date : string) : outcome bool :=
  start <- strptime_mdY start_date ;;
  end_ <- strptime_mdY end_date ;;
  check_full_period_dt start end_.

(** *** Vocabulary of the statements below *)

(** The last day of the month of [dt]. *)
Definition month_end_of (dt : datetime) (dim : Z) : datetime :=
  mkdate (year dt) (month dt) dim.

(** The first day of the month after the month of [dt]. *)
Definition next_month_start (dt : datetime) : outcome datetime :=
  if month dt <? 12 then Return (mkdate (year dt) (month dt + 1) 1)
  else if year dt <? MAXYEAR then Return (mkdate (year dt + 1) 1 1)
  else Raise (OverflowError "date value out of range").

(** The day-count branch of line 25 is taken: the years differ and
    [(end - start).days] reaches the length of the start year. *)
Definition day_count_branch (start end_ : datetime) : Prop :=
  year start <> year end_ /\ year_length start <= sub_days end_ start.

(** The range is one calendar year, 1 January to 31 December. *)
Definition full_calendar_year (start end_ : datetime) : Prop :=
  year start = year end_ /\ month start = 1 /\ day start = 1 /\
  month end_ = 12 /\ day end_ = 31.

(** Number of days of the range, both end points counted. *)
Definition inclusive_span (start end_ : datetime) : Z := sub_days end_ start + 1.

End Period.
Import Period.



(* ================================================================= *)
(** ** Python string methods used by the scripts *)

Module Str.

(** [sub in s]. *)
Fixpoint contains (sub s : string) : bool :=
  prefix sub s ||
  match s with
  | EmptyString => false
  | String _ r => contains sub r
  end.

(** [s.replace(old, new)] for a one-character [old]. *)
Fixpoint replace (old : ascii) (new : string) (s : string) : string :=
  match s with
  | EmptyString => EmptyString
  | String c r =>
      if Ascii.eqb c old then (new ++ replace old new r)%string
      else String c (replace old new r)
  end.

(** Whitespace of [str.strip()] and of [\s] in the ASCII range: tab to
    carriage return, the separators 28 to 31, and the space. *)
Definition is_space (c : ascii) : bool :=
  let n := nat_of_ascii c in
  ((9 <=? n) && (n <=? 13) || (28 <=? n) && (n <=? 32))%nat.

Fixpoint lstrip (s : string) : string :=
  match s with
  | String c r => if is_space c then lstrip r else s
  | EmptyString => EmptyString
  end.

Fixpoint rstrip (s : string) : string :=
  match s with
  | EmptyString => EmptyString
  | String c r =>
      match rstrip r with
      | EmptyString => if is_space c then EmptyString else String c EmptyString
      | r' => String c r'
      end
  end.

Definition strip (s : string) : string := rstrip (lstrip s).

(** [s.split(sep)] for a non-empty [sep]: [skip] characters of a separator
    found earlier are still to be passed over, [cur] is the piece being
    collected. *)
Fixpoint split_from (sep : string) (skip : nat) (cur : string) (s : string)
  : list string :=
  match s with
  | EmptyString => [cur]
  | String c r =>
      match skip with
      | S k => split_from sep k cur r
      | O =>
          if prefix sep s then cur :: split_from sep (String.length sep - 1) EmptyString r
          else split_from sep O (cur ++ String c EmptyString)%string r
      end
  end.

Definition split (sep s : string) : list string := split_from sep O EmptyString s.

End Str.

(* ================================================================= *)
(** ** The sheet and the table extractors *)

Module Sheet.

(** A cell of a frame: text, a number, a time stamp (always at midnight
    in these scripts), or the missing value (an empty cell of the workbook
    is read as NaN). *)
Inductive cell : Type :=
| Str (s : string)
| Num (v : Q)
| Stamp (dt : datetime)
| NaN.

Definition row : Type := list cell.

(** The frame, row by row. *)
Definition DataFrame : Type := list row.

(** A frame read from a sheet is rectangular and a frame with rows has
    columns; the searches only need column 0 of every row. *)
Definition has_column0 (df : DataFrame) : Prop :=
  Forall (fun r : row => r <> []) df.

Definition isna (c : cell) : bool :=
  match c with NaN => true | _ => false end.

(** [df.iloc[i, j]]. *)
Definition iloc (df : DataFrame) (i j : nat) : outcome cell :=
  match nth_error df i with
  | None => Raise (IndexError "single positional indexer is out-of-bounds")
  | Some r =>
      match nth_error r j with
      | None => Raise (IndexError "single positional indexer is out-of-bounds")
      | Some c => Return c
      end
  end.

(** [isinstance(c, str) and sub in c]. *)
Definition str_contains (sub : string) (c : cell) : bool :=
  match c with
  | Str s => Str.contains sub s
  | _ => false
  end.

(** [isinstance(c, str) and c.startswith(p)]. *)
Definition str_startswith (p : string) (c : cell) : bool :=
  match c with
  | Str s => prefix p s
  | _ => false
  end.

(** A Python slice bound, clipped to the frame. *)
Definition slice_index (len i : Z) : Z :=
  if i <? 0 then Z.max 0 (len + i) else Z.min i len.

(** [df.iloc[a:b]]. *)
Definition iloc_slice (df : DataFrame) (a b : Z) : DataFrame :=
  let len := Z.of_nat (List.length df) in
  let a' := slice_index len a in
  let b' := slice_index len b in
  firstn (Z.to_nat (b' - a')) (skipn (Z.to_nat a') df).

(** The 46-character banner. *)
Definition BANNER : string :=
  "##############################################".

(** The loop of lines 131-134 of [BMS_Indication_Transformation.py],
    [for i in range(len(df) - 1, -1, -1)], with [n] indices left to visit:
    the value of [freeform_start_idx] after the loop. *)
Fixpoint freeform_start_idx (df : DataFrame) (n : nat) : outcome (option nat) :=
  match n with
  | O => Return None
  | S i =>
      c <- iloc df i 0 ;;
      if str_contains BANNER c then Return (Some i)
      else freeform_start_idx df i
  end.

(** [extract_indication_from_excel], lines 121-147, on the frame read from
    the file; it yields the path of the temporary workbook and the table
    written to it.  [extract_lasttouch_from_excel] and
    [extract_scroll_from_excel] are the same function. *)
Definition extract_indication_from_excel (df : DataFrame)
  : outcome (string * DataFrame) :=
  idx <- freeform_start_idx df (List.length df) ;;
  match idx with
  | None =>
      Raise (ValueError "Could not locate the Freeform table (2) in the Excel file.")
  | Some i =>
      Return ("temp_extracted_table.xlsx",
              iloc_slice df (Z.of_nat i + 1) (Z.of_nat (List.length df)))
  end.

Definition extract_lasttouch_from_excel := extract_indication_from_excel.
Definition extract_scroll_from_excel := extract_indication_from_excel.

(** The test of line 143 of [BMS_Monthly+LastTouch_Transformation.py]. *)
Definition is_table_marker (table_marker : string) (c : cell) : bool :=
  str_contains ("# " ++ Str.replace " " EmptyString table_marker)%string c
  || str_contains ("# " ++ table_marker)%string c.

(** The loop of lines 141-148, [while i < len(df)] with its [else]:
    [rows] is [df[i:]]; the result is [start_idx]. *)
Fixpoint find_start_idx (table_marker : string) (rows : list row) (i : nat)
  : outcome nat :=
  match rows with
  | [] =>
      Raise (ValueError
        ("Could not find the start marker '# " ++ table_marker ++ "' or '# "
         ++ Str.replace " " EmptyString table_marker
         ++ "' in column A of the Excel file.")%string)
  | r :: rest =>
      match nth_error r 0 with
      | None => Raise (IndexError "single positional indexer is out-of-bounds")
      | Some c =>
          if is_table_marker table_marker c then Return (i + 2)%nat
          else find_start_idx table_marker rest (S i)
      end
  end.

(** [row.isna().all()]. *)
Definition all_na (r : row) : bool := forallb isna r.

(** The loop of lines 151-155, [while end_idx < len(df)]: [rows] is
    [df[end_idx:]]; the result is [end_idx] when the loop is left. *)
Fixpoint find_end_idx (rows : list row) (end_idx : nat) : nat :=
  match rows with
  | [] => end_idx
  | r :: rest => if all_na r then end_idx else find_end_idx rest (S end_idx)
  end.

(** Lines 150-164: the block from [start_idx] up to the first blank row. *)
Definition extract_until_blank (table_marker : string) (df : DataFrame)
  (start_idx : nat) : outcome DataFrame :=
  let end_idx := find_end_idx (skipn start_idx df) start_idx in
  if (end_idx =? List.length df)%nat then
    Raise (ValueError
      ("Could not find the end of the table for " ++ table_marker
       ++ ". No blank row found after the start.")%string)
  else
    let end_idx := Z.of_nat end_idx - 1 in
    Return (iloc_slice df (Z.of_nat start_idx) (end_idx + 1)).

(** [extract_monthly_from_excel], lines 132-170. *)
Definition extract_monthly_from_excel (df : DataFrame) (table_marker : string)
  : outcome (string * DataFrame) :=
  start_idx <- find_start_idx table_marker df O ;;
  df_table <- extract_until_blank table_marker df start_idx ;;
  Return (("temp_extracted_" ++ Str.replace " " "_" table_marker
           ++ "_table.xlsx")%string, df_table).

(** *** Vocabulary of the statements below *)

(** Column 0 of the row is text that contains the banner. *)
Definition banner_row (r : row) : bool :=
  match r with
  | c :: _ => str_contains BANNER c
  | [] => false
  end.

(** The row is not blank. *)
Definition not_blank (r : row) : bool := negb (all_na r).

(** *** Example sheets *)

(** Two banner rows, at indices 1 and 3. *)
Definition sheet_two_banners : DataFrame :=
  [ [Str "# Report suite: www.sotyktu.com_US_US"];
    [Str BANNER];
    [Str "# Freeform table"];
    [Str ("# " ++ BANNER)%string];
    [Str "Channel"];
    [Num 1] ].

(** The table marker is in the last row. *)
Definition sheet_marker_last : DataFrame :=
  [ [Str "# Report suite: www.sotyktu.com_US_US"];
    [Str "# Date: Jan 1, 2024 - Jan 31, 2024"];
    [Str "# Freeform table"] ].

End Sheet.
Import Sheet.

(* ================================================================= *)
(** ** Metadata markers: report suite and date range *)

Module Markers.

(** The loop of [find_brand_and_indication] (lines 83-86 of
    [BMS_Monthly+LastTouch_Transformation.py]) and of
    [find_report_date_range] (lines 107-110), [for i, row in df.iterrows()]:
    the text after the marker in the first row whose column 0 starts with
    it, [row[0].split(marker)[1].strip()]. *)
Fixpoint find_marker_text (marker : string) (rows : list row)
  : outcome (option string) :=
  match rows with
  | [] => Return None
  | r :: rest =>
      match nth_error r 0 with
      | None => Raise (KeyError "0")
      | Some (Str s) =>
          if prefix marker s then
            match nth_error (Str.split marker s) 1 with
            | Some t => Return (Some (Str.strip t))
            | None => Raise (IndexError "list index out of range")
            end
          else find_marker_text marker rest
      | Some _ => find_marker_text marker rest
      end
  end.

(** The mapping table of lines 61-79. *)
Definition mapping : list (string * (string * string)) :=
  [ ("www.sotyktu.com_US_US", ("Sotyktu", "psoriasis"));
    ("www.opdivo.com_US_US", ("Opdivo", "cross indication"));
    ("www.augtyro.com_US_US", ("Augtyro", "cross indication"));
    ("www.opdualag.com_US_US", ("Opdualag", "cross indication"));
    ("www.breyanzi.com_US_US", ("Breyanzi", "cross indication"));
    ("www.reblozyl.com_US_US", ("Reblozyl", "cross indication"));
    ("www.onureg.com_US_US", ("Onureg", "cross indication"));
    ("www.abecma.com_US_US", ("Abecma", "cross indication"));
    ("www.krazati.com_Global_AA", ("Krazati", "cross indication"));
    ("www.sprycel.com_US_US", ("Sprycel", "cross indication"));
    ("www.orencia.com_US_US", ("Orencia", "cross indication"));
    ("www.camzyos.com_US_US", ("Camzyos Branded", "cross indication"));
    ("www.hcmrealtalk.com_US_US", ("Camzyos Non-branded", "cross indication"));
    ("www.coulditbehcm.com_US_US", ("Camzyos ME", "cross indication"));
    ("www.zeposia.com_US_US", ("Zeposia", "cross indication"));
    ("cartautoimmune.com_US_AA", ("CarT", "cross indication"));
    ("www.cobenfy.com_US_US", ("Cobenfy", "cross indication")) ].

Definition mapping_get (k : string) : option (string * string) :=
  option_map snd (find (fun kv => String.eqb (fst kv) k) mapping).

(** *** [datetime.strptime(s, '%b %d, %Y')]

    The format compiles to
    [(?P<b>jan|...|dec)\s+(?P<d>...),\s+(?P<Y>\d\d\d\d)], matched without
    regard to case; the month names are those of the C locale.  As for
    [%m%d%Y] the first match in backtracking order is taken and it has to
    consume the whole text. *)

Definition lower (c : ascii) : ascii :=
  let n := nat_of_ascii c in
  if ((65 <=? n) && (n <=? 90))%nat then ascii_of_nat (n + 32) else c.

Definition month_abbr : list string :=
  ["jan"; "feb"; "mar"; "apr"; "may"; "jun";
   "jul"; "aug"; "sep"; "oct"; "nov"; "dec"].

Fixpoint index_of (x : string) (l : list string) (i : Z) : option Z :=
  match l with
  | [] => None
  | y :: r => if String.eqb x y then Some i else index_of x r (i + 1)
  end.

(** [%b]. *)
Definition alt_b (s : string) : list (Z * string) :=
  match s with
  | String c1 (String c2 (String c3 r)) =>
      match index_of (String (lower c1) (String (lower c2)
                        (String (lower c3) EmptyString))) month_abbr 1 with
      | Some m => [(m, r)]
      | None => []
      end
  | _ => []
  end.

(** [\s+], greedy: what is left after the longest run first. *)
Fixpoint ws_plus (s : string) : list string :=
  match s with
  | String c r => if Str.is_space c then ws_plus r ++ [r] else []
  | EmptyString => []
  end.

Definition lit (c : ascii) (s : string) : list string :=
  match s with
  | String c' r => if Ascii.eqb c c' then [r] else []
  | EmptyString => []
  end.

Definition match_bdY (s : string) : option (Z * Z * Z * string) :=
  hd_error
    (flat_map (fun br =>
       flat_map (fun s1 =>
         flat_map (fun dr =>
           flat_map (fun s2 =>
             flat_map (fun s3 =>
               map (fun yr => (fst br, fst dr, fst yr, snd yr)) (alt_Y s3))
               (ws_plus s2))
             (lit "," (snd dr)))
           (alt_d s1))
         (ws_plus (snd br)))
       (alt_b s)).

Definition strptime_bdY (s : string) : outcome datetime :=
  match match_bdY s with
  | None =>
      Raise (ValueError
        ("time data '" ++ s ++ "' does not match format '%b %d, %Y'")%string)
  | Some (m, d, y, rest) =>
      match rest with
      | EmptyString => check_date_fields y m d
      | _ => Raise (ValueError ("unconverted data remains: " ++ rest)%string)
      end
  end.

(** *** [dt.strftime('%m%d%Y')]: two digits, two digits, four digits. *)

Definition digit_char (n : Z) : ascii := ascii_of_nat (Z.to_nat (48 + n mod 10)).

Definition pad2 (n : Z) : string :=
  String (digit_char (n / 10)) (String (digit_char n) EmptyString).

Definition pad4 (n : Z) : string :=
  String (digit_char (n / 1000)) (String (digit_char (n / 100))
    (String (digit_char (n / 10)) (String (digit_char n) EmptyString))).

Definition strftime_mdY (dt : datetime) : string :=
  (pad2 (month dt) ++ pad2 (day dt) ++ pad4 (year dt))%string.

(** *** [re.match(r'^\d{8}-\d{8}$', s)] *)

Fixpoint digits (n : nat) (s : string) : option string :=
  match n with
  | O => Some s
  | S n' =>
      match s with
      | String c r => match digit c with Some _ => digits n' r | None => None end
      | EmptyString => None
      end
  end.

Definition is_date_range (s : string) : bool :=
  match digits 8 s with
  | Some (String "-" r) =>
      match digits 8 r with
      | Some EmptyString => true
      | Some (String c EmptyString) => Ascii.eqb c "010"%char
      | _ => false
      end
  | _ => false
  end.

End Markers.
Import Markers.

(* ================================================================= *)
(** ** The driver of [BMS_Monthly+LastTouch_Transformation.py] *)

Module Driver.

(** What the script asks of its collaborators: writing the temporary
    workbook, the two pandas transformations (each reads the temporary
    workbook and writes the result workbook), and deleting a file. *)
Inductive call : Type :=
| ToExcel (path : string) (table : DataFrame)
| TransformLastTouch (file_path brand indication date_range : string)
| TransformMonthly (file_path brand indication date_range : string)
| OsRemove (path : string).

(** A collaborator returns or raises. *)
Inductive reply : Type :=
| Done
| Raised (e : exn).

(** A run of a piece of the script: it ends by returning, by an exception
    that propagates, or by [sys.exit(code)]; before that it prints lines
    and calls collaborators.  [NoFuel] carries [OutOfFuel], which the
    validator never produces (see [check_full_period_total]). *)
Inductive proc (A : Type) : Type :=
| Ret (a : A)
| Throw (e : exn)
| SysExit (code : Z)
| NoFuel
| Print (line : string) (k : proc A)
| Call (c : call) (k : reply -> proc A).
Arguments Ret {A} a.
Arguments Throw {A} e.
Arguments SysExit {A} code.
Arguments NoFuel {A}.
Arguments Print {A} line k.
Arguments Call {A} c k.

(** [try: p; k  except ValueError as e: h e], where only [p] is shown to
    raise: the rest of the [try] body, [k], carries its own handler. *)
Fixpoint try_with {A B : Type} (p : proc A) (k : A -> proc B)
  (h : string -> proc B) : proc B :=
  match p with
  | Ret a => k a
  | Throw (ValueError msg) => h msg
  | Throw e => Throw e
  | SysExit code => SysExit code
  | NoFuel => NoFuel
  | Print line p' => Print line (try_with p' k h)
  | Call c f => Call c (fun r => try_with (f r) k h)
  end.

(** Sequencing outside any handler. *)
Fixpoint seq {A B : Type} (p : proc A) (k : A -> proc B) : proc B :=
  match p with
  | Ret a => k a
  | Throw e => Throw e
  | SysExit code => SysExit code
  | NoFuel => NoFuel
  | Print line p' => Print line (seq p' k)
  | Call c f => Call c (fun r => seq (f r) k)
  end.

Definition lift {A : Type} (o : outcome A) : proc A :=
  match o with
  | Return a => Ret a
  | Raise e => Throw e
  | OutOfFuel => NoFuel
  end.

Definition call_ (c : call) : proc unit :=
  Call c (fun r => match r with Done => Ret tt | Raised e => Throw e end).

Definition prints {A : Type} (lines : list string) (p : proc A) : proc A :=
  fold_right Print p lines.

(** [find_brand_and_indication], lines 55-98. *)
Definition find_brand_and_indication (df : DataFrame) : proc (string * string) :=
  seq (lift (find_marker_text "# Report suite: " df)) (fun adobe_suite =>
  match adobe_suite with
  | None =>
      Throw (ValueError
        "Could not find the Adobe Analytics suite marker in the Excel file.")
  | Some suite =>
      Print ("Found Adobe Analytics suite: " ++ suite)%string
        match mapping_get suite with
        | None =>
            Throw (ValueError
              ("No mapping found for Adobe Analytics suite: " ++ suite)%string)
        | Some bi => Ret bi
        end
  end).

(** The [try] body of [find_report_date_range], lines 116-128. *)
Definition format_date_range (date_range : string) : proc string :=
  match Str.split " - " date_range with
  | [start_date; end_date] =>
      seq (lift (strptime_bdY start_date)) (fun start_dt =>
      seq (lift (strptime_bdY end_date)) (fun end_dt =>
      let formatted_date_range :=
        (strftime_mdY start_dt ++ "-" ++ strftime_mdY end_dt)%string in
      Print ("Found Adobe Analytics suite date range: "
             ++ formatted_date_range)%string
        (Ret formatted_date_range)))
  | _ => Throw (ValueError "wrong number of values to unpack")
  end.

(** [find_report_date_range], lines 100-130. *)
Definition find_report_date_range (df : DataFrame) : proc string :=
  seq (lift (find_marker_text "# Date: " df)) (fun found =>
  match found with
  | None =>
      Throw (ValueError
        "Could not find the report date range marker in the Excel file.")
  | Some date_range =>
      try_with (format_date_range date_range) Ret
        (fun _ => Throw (ValueError
           ("Unexpected date format in the Excel file: " ++ date_range)%string))
  end).

(** Step 1 of [__main__], lines 318-337: brand, indication and the
    validated date range. *)
Definition step1 (df : DataFrame) : proc (string * string * string) :=
  try_with
    (seq (find_brand_and_indication df) (fun bi =>
     seq (find_report_date_range df) (fun date_range =>
     if negb (is_date_range date_range) then
       Print "Script unable to run due to only 1 day present in the report or incorrect date format."
         (SysExit 1)
     else
       match Str.split "-" date_range with
       | [start_date; end_date] =>
           seq (lift (check_full_period start_date end_date)) (fun ok =>
           if negb ok then
             Print "The date range does not include full months or a full year."
               (SysExit 1)
           else
             Print ("Report Date Range: " ++ date_range ++ ", Brand: "
                    ++ fst bi ++ ", Indication: " ++ snd bi)%string
               (Ret (fst bi, snd bi, date_range)))
       | _ => Throw (ValueError "wrong number of values to unpack")
       end)))
    Ret
    (fun msg => Print msg (SysExit 1)).

(** An extraction function seen from the driver: the search, then the
    temporary workbook is written. *)
Definition extracted (o : outcome (string * DataFrame)) : proc string :=
  seq (lift o) (fun pt =>
  seq (call_ (ToExcel (fst pt) (snd pt))) (fun _ => Ret (fst pt))).

(** Step 2, lines 339-345; the result is [temp_files]. *)
Definition step2 (df : DataFrame) (brand indication date_range : string)
  (temp_files : list string) : proc (list string) :=
  let handler (temp_files : list string) (msg : string) :=
    Print ("Error processing LASTTOUCH table: " ++ msg)%string (Ret temp_files) in
  try_with (extracted (extract_lasttouch_from_excel df))
    (fun path =>
       let temp_files := temp_files ++ [path] in
       try_with (call_ (TransformLastTouch path brand indication date_range))
         (fun _ => Ret temp_files) (handler temp_files))
    (handler temp_files).

(** Step 3, lines 347-353. *)
Definition step3 (df : DataFrame) (brand indication date_range : string)
  (temp_files : list string) : proc (list string) :=
  let handler (temp_files : list string) (msg : string) :=
    Print ("Error processing MONTHLY table: " ++ msg)%string (Ret temp_files) in
  try_with (extracted (extract_monthly_from_excel df "Freeform table"))
    (fun path =>
       let temp_files := temp_files ++ [path] in
       try_with (call_ (TransformMonthly path brand indication date_range))
         (fun _ => Ret temp_files) (handler temp_files))
    (handler temp_files).

(** Step 4, lines 355-361. *)
Fixpoint cleanup (temp_files : list string) : proc unit :=
  match temp_files with
  | [] => Ret tt
  | temp_file :: rest =>
      Call (OsRemove temp_file) (fun r =>
        match r with
        | Done =>
            Print ("Deleted temporary file: " ++ temp_file)%string (cleanup rest)
        | Raised (OSError msg) =>
            Print ("Error deleting " ++ temp_file ++ ": " ++ msg)%string
              (cleanup rest)
        | Raised e => Throw e
        end)
  end.

(** [__main__], lines 309-361, run on the first sheet [df] of the workbook
    named on the command line. *)
Definition main (df : DataFrame) : proc unit :=
  seq (step1 df) (fun bid =>
  let '(brand, indication, date_range) := bid in
  seq (step2 df brand indication date_range []) (fun temp_files =>
  seq (step3 df brand indication date_range temp_files) cleanup)).

(** *** Vocabulary of the statements below *)

(** Column 0 of the row is text that starts with [marker]. *)
Definition marker_row (marker : string) (r : row) : bool :=
  match r with
  | c :: _ => str_startswith marker c
  | [] => false
  end.

(** Column 0 of the row is text that names the table. *)
Definition table_marker_row (table_marker : string) (r : row) : bool :=
  match r with
  | c :: _ => is_table_marker table_marker c
  | [] => false
  end.

Definition absent (p : row -> bool) (df : DataFrame) : Prop :=
  forall r, In r df -> p r = false.

(** A required marker is missing from the sheet. *)
Definition marker_missing (df : DataFrame) : Prop :=
  absent (marker_row "# Report suite: ") df \/
  absent (marker_row "# Date: ") df \/
  absent banner_row df \/
  absent (table_marker_row "Freeform table") df.

(** The run prints at least one line, calls no collaborator and ends in
    [sys.exit(1)]. *)
Definition aborts (p : proc unit) : Prop :=
  exists lines, lines <> [] /\ p = prints lines (SysExit 1).

(** The first collaborator called by a run that does not depend on a
    reply before. *)
Fixpoint first_call {A : Type} (p : proc A) : option call :=
  match p with
  | Print _ k => first_call k
  | Call c _ => Some c
  | _ => None
  end.

(** *** Example sheets *)

(** A sheet with both metadata rows and a monthly table, and no banner. *)
Definition sheet_without_banner : DataFrame :=
  [ [Str "# Report suite: www.sotyktu.com_US_US"; NaN];
    [Str "# Date: Jan 1, 2024 - Jan 31, 2024"; NaN];
    [Str "# Freeform table"; NaN];
    [Str "#"; NaN];
    [Str "Month"; Str "Visits"];
    [NaN; Num 10];
    [Str "2024-01-01 00:00:00"; Num 10];
    [NaN; NaN] ].

(** A sheet with no marker at all. *)
Definition sheet_without_markers : DataFrame :=
  [ [Str "Month"; Str "Visits"];
    [Str "2024-01-01 00:00:00"; Num 10] ].

(** A sheet with both metadata rows and no table. *)
Definition sheet_metadata_only : DataFrame :=
  [ [Str "# Report suite: www.sotyktu.com_US_US"; NaN];
    [Str "# Date: Jan 1, 2024 - Jan 31, 2024"; NaN] ].

End Driver.
Import Driver.

(* ================================================================= *)
(** ** The end of the reshape pipelines: rename, reorder, sort, fill *)

Module Reshape.

(** A frame with named columns. *)
Record Frame : Type := mkFrame { columns : list string; rows : list (list cell) }.

(** Every row has one cell per column. *)
Definition well_shaped (f : Frame) : Prop :=
  Forall (fun r => List.length r = List.length (columns f)) (rows f).

(** No two columns carry the same label, as in the frames that [pivot] and
    [pivot_table] return; the operations below are modelled for such
    frames (a label then names one column). *)
Definition distinct_labels (f : Frame) : Prop := NoDup (columns f).

(** Position of the column named [c]. *)
Fixpoint get_loc (c : string) (names : list string) : option nat :=
  match names with
  | [] => None
  | x :: r => if String.eqb x c then Some O else option_map S (get_loc c r)
  end.

(** The cell of row [r] in the column named [c]. *)
Definition at_ (names : list string) (r : list cell) (c : string) : option cell :=
  match get_loc c names with
  | Some i => nth_error r i
  | None => None
  end.

(** [df.rename(columns=d)]. *)
Definition rename (d : list (string * string)) (f : Frame) : Frame :=
  mkFrame
    (map (fun c =>
            match find (fun kv => String.eqb (fst kv) c) d with
            | Some kv => snd kv
            | None => c
            end) (columns f))
    (rows f).

(** Positions of the columns [cols]; a name that is not a column is a
    [KeyError]. *)
Fixpoint locs (cols names : list string) : outcome (list nat) :=
  match cols with
  | [] => Return []
  | c :: r =>
      match get_loc c names with
      | None => Raise (KeyError c)
      | Some i => l <- locs r names ;; Return (i :: l)
      end
  end.

(** [df[cols]]. *)
Definition select (cols : list string) (f : Frame) : outcome Frame :=
  l <- locs cols (columns f) ;;
  Return (mkFrame cols (map (fun r => map (fun i => nth i r NaN) l) (rows f))).

(** [fillna(0)] on one cell. *)
Definition fill0 (v : cell) : cell := if isna v then Num 0 else v.

Definition mem (c : string) (l : list string) : bool := existsb (String.eqb c) l.

Fixpoint fill_row (numeric names : list string) (r : list cell) : list cell :=
  match names, r with
  | n :: names', v :: r' =>
      (if mem n numeric then fill0 v else v) :: fill_row numeric names' r'
  | _, _ => r
  end.

(** [df[numeric] = df[numeric].fillna(0)]. *)
Definition fillna_columns (numeric : list string) (f : Frame) : outcome Frame :=
  _ <- locs numeric (columns f) ;;
  Return (mkFrame (columns f) (map (fill_row numeric (columns f)) (rows f))).

Fixpoint set_nth (i : nat) (v : cell) (r : list cell) : list cell :=
  match r, i with
  | [], _ => []
  | _ :: r', O => v :: r'
  | x :: r', S i' => x :: set_nth i' v r'
  end.

(** [df[name] = v] for a scalar [v]: the column is overwritten, or added
    as the last column. *)
Definition assign (name : string) (v : cell) (f : Frame) : Frame :=
  match get_loc name (columns f) with
  | Some i => mkFrame (columns f) (map (set_nth i v) (rows f))
  | None => mkFrame (columns f ++ [name]) (map (fun r => r ++ [v]) (rows f))
  end.

Section Pandas.

(** [df.sort_values(by=keys)] and [pd.to_datetime(series)] are taken
    through their contracts, stated where they are used: the first
    permutes the rows, the second returns as many values as it is given. *)
Variable sort_values : list string -> Frame -> outcome Frame.
Variable to_datetime : list cell -> outcome (list cell).

(** [df[name] = pd.to_datetime(df[name])]. *)
Definition convert_column (name : string) (f : Frame) : outcome Frame :=
  match get_loc name (columns f) with
  | None => Raise (KeyError name)
  | Some i =>
      new <- to_datetime (map (fun r => nth i r NaN) (rows f)) ;;
      Return (mkFrame (columns f)
                (map (fun rv => set_nth i (snd rv) (fst rv))
                     (combine (rows f) new)))
  end.

Definition scroll_names : list (string * string) :=
  [ ("PageScroll100%", "PAGE SCROLL 100");
    ("PageScroll25%", "PAGE SCROLL 25");
    ("PageScroll50%", "PAGE SCROLL 50");
    ("PageScroll75%", "PAGE SCROLL 75");
    ("PageViews", "PAGE VIEWS");
    ("ACTIVITY_MONTH", "ACTIVITY MONTH") ].

Definition scroll_order : list string :=
  ["PAGE"; "ACTIVITY MONTH"; "PAGE VIEWS"; "PAGE SCROLL 25"; "PAGE SCROLL 50";
   "PAGE SCROLL 75"; "PAGE SCROLL 100"].

Definition scroll_numeric : list string :=
  ["PAGE VIEWS"; "PAGE SCROLL 25"; "PAGE SCROLL 50"; "PAGE SCROLL 75";
   "PAGE SCROLL 100"].

(** [transform_scroll_excel], lines 202-227 of
    [BMS_Scroll_Transformation.py], from the frame [pivoted] that
    [df_melted.pivot(...).reset_index()] yields to the frame written to
    the result workbook. *)
Definition transform_scroll_final (pivoted : Frame) (brand indication : string)
  : outcome Frame :=
  let df_final := rename scroll_names pivoted in
  df_final <- select scroll_order df_final ;;
  df_final <- sort_values ["PAGE"; "ACTIVITY MONTH"] df_final ;;
  df_final <- fillna_columns scroll_numeric df_final ;;
  df_final <- convert_column "ACTIVITY MONTH" df_final ;;
  let df_final := assign "BRAND" (Str brand) df_final in
  let df_final := assign "INDICATION" (Str indication) df_final in
  Return df_final.

Definition lasttouch_names : list (string * string) :=
  [ ("Unique", "UNIQUE VISITORS");
    ("Visits", "VISITS");
    ("Unbounced", "UNBOUNCED VISIT");
    ("Bounce", "BOUNCE RATE");
    ("Page", "PAGE VIEWS PER VISITS");
    ("Average", "AVERAGE TIME ON SITE");
    ("ACTIVITY_MONTH", "ACTIVITY MONTH");
    ("LAST_TOUCH_CHANNEL", "LAST TOUCH CHANNEL") ].

Definition lasttouch_order : list string :=
  ["ACTIVITY MONTH"; "LAST TOUCH CHANNEL"; "UNIQUE VISITORS"; "VISITS";
   "UNBOUNCED VISIT"; "BOUNCE RATE"; "PAGE VIEWS PER VISITS";
   "AVERAGE TIME ON SITE"].

Definition lasttouch_numeric : list string :=
  ["UNIQUE VISITORS"; "VISITS"; "UNBOUNCED VISIT"; "BOUNCE RATE";
   "PAGE VIEWS PER VISITS"; "AVERAGE TIME ON SITE"].

(** [transform_lasttouch_excel], lines 235-262 of
    [BMS_Monthly+LastTouch_Transformation.py], from the frame [pivoted]
    that [df_melted.pivot(...).reset_index()] yields to the frame written
    to the result workbook. *)
Definition transform_lasttouch_final (pivoted : Frame)
  (brand indication : string) : outcome Frame :=
  let df_final := rename lasttouch_names pivoted in
  df_final <- select lasttouch_order df_final ;;
  df_final <- sort_values ["LAST TOUCH CHANNEL"; "ACTIVITY MONTH"] df_final ;;
  df_final <- fillna_columns lasttouch_numeric df_final ;;
  df_final <- convert_column "ACTIVITY MONTH" df_final ;;
  let df_final := assign "BRAND" (Str brand) df_final in
  let df_final := assign "INDICATION" (Str indication) df_final in
  Return df_final.

Definition indication_names : list (string * string) :=
  [ ("Visits", "VISITS"); ("Unbouncedvisit", "UNBOUNCED VISIT") ].

Definition indication_order : list string :=
  ["INDICATION"; "CHANNEL"; "VISITS"; "UNBOUNCED VISIT"].

Definition indication_numeric : list string := ["VISITS"; "UNBOUNCED VISIT"].

(** [transform_indication_excel], lines 182-210 of
    [BMS_Indication_Transformation.py], from the frame [pivoted] that
    [df_melted.pivot_table(...).reset_index()] yields to the frame written
    to the result workbook. *)
Definition transform_indication_final (pivoted : Frame)
  (brand date_range : string) : outcome Frame :=
  let df_final := rename indication_names pivoted in
  df_final <- select indication_order df_final ;;
  df_final <- sort_values ["CHANNEL"] df_final ;;
  match Str.split "-" date_range with
  | [start_date_str; end_date_str] =>
      start_date <- strptime_mdY start_date_str ;;
      end_date <- strptime_mdY end_date_str ;;
      let df_final := assign "BRAND" (Str brand) df_final in
      let df_final := assign "ACTIVITY START MONTH" (Stamp start_date) df_final in
      let df_final := assign "ACTIVITY END MONTH" (Stamp end_date) df_final in
      fillna_columns indication_numeric df_final
  | _ => Raise (ValueError "wrong number of values to unpack")
  end.

End Pandas.

(** *** Vocabulary of the statements below *)

(** [g] has the rows of [f], in some order, and in each column of
    [numeric] the cell of [f] with every missing value replaced by 0. *)
Definition filled (numeric : list string) (f g : Frame) : Prop :=
  List.length (rows g) = List.length (rows f) /\
  forall r, In r (rows g) ->
    exists r0, In r0 (rows f) /\
      forall c, In c numeric ->
        exists v0, at_ (columns f) r0 c = Some v0 /\
                   at_ (columns g) r c = Some (fill0 v0) /\
                   isna (fill0 v0) = false.

(** [g] has the rows of [f], in some order, with the cells of the columns
    [numeric] unchanged. *)
Definition keeps (numeric : list string) (f g : Frame) : Prop :=
  List.length (rows g) = List.length (rows f) /\
  forall r, In r (rows g) ->
    exists r0, In r0 (rows f) /\
      forall c v0, In c numeric -> at_ (columns f) r0 c = Some v0 ->
                   at_ (columns g) r c = Some v0.

(** The same with every missing value of these columns replaced by 0. *)
Definition fills (numeric : list string) (f g : Frame) : Prop :=
  List.length (rows g) = List.length (rows f) /\
  forall r, In r (rows g) ->
    exists r0, In r0 (rows f) /\
      forall c v0, In c numeric -> at_ (columns f) r0 c = Some v0 ->
                   at_ (columns g) r c = Some (fill0 v0).

(** *** Example frames *)

(** A pivoted scroll frame in which page /b has no 50% and no 100% value. *)
Definition pivoted_scroll : Frame :=
  mkFrame
    ["ACTIVITY_MONTH"; "PAGE"; "PageScroll100%"; "PageScroll25%";
     "PageScroll50%"; "PageScroll75%"; "PageViews"]
    [ [Str "2024-01-01"; Str "/a"; Num 1; Num 4; Num 3; Num 2; Num 9];
      [Str "2024-01-01"; Str "/b"; NaN; Num 5; NaN; Num 1; Num 7] ].

(** A pivoted last-touch frame in which one channel has no bounce rate. *)
Definition pivoted_lasttouch : Frame :=
  mkFrame
    ["ACTIVITY_MONTH"; "LAST_TOUCH_CHANNEL"; "Average"; "Bounce"; "Page";
     "Unbounced"; "Unique"; "Visits"]
    [ [Str "2024-01-01"; Str "Email"; Num 30; NaN; Num 2; Num 5; Num 8; Num 9];
      [Str "2024-01-01"; Str "Search"; Num 41; Num (1 # 2); Num 3; Num 6;
       Num 10; Num 12] ].

(** A pivoted indication frame in which one channel has no unbounced
    visit. *)
Definition pivoted_indication : Frame :=
  mkFrame
    ["INDICATION"; "CHANNEL"; "Unbouncedvisit"; "Visits"]
    [ [Str "psoriasis"; Str "Email"; NaN; Num 12];
      [Str "psoriasis"; Str "Search"; Num 3; Num 20] ].

(** A row order and a value conversion that meet the contracts of
    [sort_values] and [to_datetime]. *)
Definition reverse_rows (keys : list string) (f : Frame) : outcome Frame :=
  Return (mkFrame (columns f) (rev (rows f))).

Definition keep_values (l : list cell) : outcome (list cell) := Return l.

(** The outputs for the two example frames under that order. *)
Definition scroll_output : Frame :=
  mkFrame
    ["PAGE"; "ACTIVITY MONTH"; "PAGE VIEWS"; "PAGE SCROLL 25"; "PAGE SCROLL 50";
     "PAGE SCROLL 75"; "PAGE SCROLL 100"; "BRAND"; "INDICATION"]
    [ [Str "/b"; Str "2024-01-01"; Num 7; Num 5; Num 0; Num 1; Num 0;
       Str "Sotyktu"; Str "psoriasis"];
      [Str "/a"; Str "2024-01-01"; Num 9; Num 4; Num 3; Num 2; Num 1;
       Str "Sotyktu"; Str "psoriasis"] ].

Definition lasttouch_output : Frame :=
  mkFrame
    ["ACTIVITY MONTH"; "LAST TOUCH CHANNEL"; "UNIQUE VISITORS"; "VISITS";
     "UNBOUNCED VISIT"; "BOUNCE RATE"; "PAGE VIEWS PER VISITS";
     "AVERAGE TIME ON SITE"; "BRAND"; "INDICATION"]
    [ [Str "2024-01-01"; Str "Search"; Num 10; Num 12; Num 6; Num (1 # 2);
       Num 3; Num 41; Str "Sotyktu"; Str "psoriasis"];
      [Str "2024-01-01"; Str "Email"; Num 8; Num 9; Num 5; Num 0; Num 2;
       Num 30; Str "Sotyktu"; Str "psoriasis"] ].

Definition indication_output : Frame :=
  mkFrame
    ["INDICATION"; "CHANNEL"; "VISITS"; "UNBOUNCED VISIT"; "BRAND";
     "ACTIVITY START MONTH"; "ACTIVITY END MONTH"]
    [ [Str "psoriasis"; Str "Search"; Num 20; Num 3; Str "Sotyktu";
       Stamp (mkdate 2024 1 1); Stamp (mkdate 2024 1 31)];
      [Str "psoriasis"; Str "Email"; Num 12; Num 0; Str "Sotyktu";
       Stamp (mkdate 2024 1 1); Stamp (mkdate 2024 1 31)] ].

End Reshape.
Import Reshape.

(* ================================================================= *)
(** ** Runs of the driver against its collaborators *)

Module Runs.

(** What can be observed of a run: the lines printed and the calls made,
    each with the reply it got. *)
Inductive event : Type :=
| EvPrint (line : string)
| EvCall (c : call) (r : reply).

(** How a run ends: the script reaches its end, an exception is left
    uncaught, or [sys.exit(code)] is called. *)
Inductive ending (A : Type) : Type :=
| ERet (a : A)
| EThrow (e : exn)
| EExit (code : Z)
| ENoFuel.
Arguments ERet {A} a.
Arguments EThrow {A} e.
Arguments EExit {A} code.
Arguments ENoFuel {A}.

(** The run of [p] when the collaborators answer as [o] says.  The calls
    of one run of [main] are pairwise different, so a function of the call
    can describe any behaviour of the collaborators. *)
Fixpoint exec {A : Type} (o : call -> reply) (p : proc A)
  : list event * ending A :=
  match p with
  | Ret a => ([], ERet a)
  | Throw e => ([], EThrow e)
  | SysExit code => ([], EExit code)
  | NoFuel => ([], ENoFuel)
  | Print line k => let (t, e) := exec o k in (EvPrint line :: t, e)
  | Call c k => let (t, e) := exec o (k (o c)) in (EvCall c (o c) :: t, e)
  end.

(** The temporary workbooks written, in order. *)
Fixpoint written (t : list event) : list string :=
  match t with
  | [] => []
  | EvCall (ToExcel path _) Done :: t' => path :: written t'
  | _ :: t' => written t'
  end.

(** The files [os.remove] was called on, in order. *)
Fixpoint removed (t : list event) : list string :=
  match t with
  | [] => []
  | EvCall (OsRemove path) _ :: t' => path :: removed t'
  | _ :: t' => removed t'
  end.

(** The calls made, in order. *)
Fixpoint calls (t : list event) : list call :=
  match t with
  | [] => []
  | EvCall c _ :: t' => c :: calls t'
  | EvPrint _ :: t' => calls t'
  end.

(** The string consists of decimal digits. *)
Fixpoint all_digits (s : string) : Prop :=
  match s with
  | EmptyString => True
  | String c r => digit c <> None /\ all_digits r
  end.

(** Step 1 of [__main__] in [BMS_Indication_Transformation.py], lines
    227-247, and in [BMS_Scroll_Transformation.py], lines 244-265: as in
    the monthly script, with one more line printed on success and one more
    on a [ValueError]. *)
Definition step1_indication (df : DataFrame) : proc (string * string * string) :=
  try_with
    (seq (find_brand_and_indication df) (fun bi =>
     seq (find_report_date_range df) (fun date_range =>
     if negb (is_date_range date_range) then
       Print "Script unable to run due to only 1 day present in the report or incorrect date format."
         (SysExit 1)
     else
       match Str.split "-" date_range with
       | [start_date; end_date] =>
           seq (lift (check_full_period start_date end_date)) (fun ok =>
           if negb ok then
             Print "The date range does not include full months or a full year."
               (SysExit 1)
           else
             Print "Report Date Range is acceptable"
               (Print ("Report Date Range: " ++ date_range ++ ", Brand: "
                       ++ fst bi ++ ", Indication: " ++ snd bi)%string
                  (Ret (fst bi, snd bi, date_range))))
       | _ => Throw (ValueError "wrong number of values to unpack")
       end)))
    Ret
    (fun msg =>
       Print msg (Print "Report Date Range needs to be full months." (SysExit 1))).

Definition step1_scroll := step1_indication.

(** *** Vocabulary of the statements below *)

(** A run followed by another one that depends on its result. *)
Definition then_ {A B : Type} (r : list event * ending A)
  (k : A -> list event * ending B) : list event * ending B :=
  match snd r with
  | ERet a => (fst r ++ fst (k a), snd (k a))
  | EThrow e => (fst r, EThrow e)
  | EExit code => (fst r, EExit code)
  | ENoFuel => (fst r, ENoFuel)
  end.

(** The same under a handler of [ValueError]. *)
Definition catch_ {A B : Type} (r : list event * ending A)
  (k : A -> list event * ending B) (h : string -> list event * ending B)
  : list event * ending B :=
  match snd r with
  | ERet a => (fst r ++ fst (k a), snd (k a))
  | EThrow (ValueError msg) => (fst r ++ fst (h msg), snd (h msg))
  | EThrow e => (fst r, EThrow e)
  | EExit code => (fst r, EExit code)
  | ENoFuel => (fst r, ENoFuel)
  end.

(** The common shape of steps 2 and 3: extract, record the temporary
    file, transform, with one handler around the three. *)
Definition table_step (x : outcome (string * DataFrame))
  (transform : string -> call) (label : string) (temp_files : list string)
  : proc (list string) :=
  try_with (extracted x)
    (fun path =>
       try_with (call_ (transform path))
         (fun _ => Ret (temp_files ++ [path]))
         (fun msg => Print (label ++ msg)%string (Ret (temp_files ++ [path]))))
    (fun msg => Print (label ++ msg)%string (Ret temp_files)).

(** What a result of step 1 is worth: the suite is in the mapping table
    and the date range is that of two dates the validator accepted. *)
Definition validated (x : string * string * string) : Prop :=
  exists suite d1 d2,
    mapping_get suite = Some (fst (fst x), snd (fst x)) /\
    valid d1 /\ valid d2 /\
    snd x = (strftime_mdY d1 ++ "-" ++ strftime_mdY d2)%string /\
    check_full_period (strftime_mdY d1) (strftime_mdY d2) = Return true.

(** The call is one of the two transformations. *)
Definition is_transform (c : call) : Prop :=
  match c with
  | TransformLastTouch _ _ _ _ | TransformMonthly _ _ _ _ => True
  | _ => False
  end.

(** [os.remove] fails with [OSError] only, as documented. *)
Definition remove_fails_with_OSError (o : call -> reply) : Prop :=
  forall path, o (OsRemove path) = Done \/
               exists msg, o (OsRemove path) = Raised (OSError msg).

(** Collaborators that all succeed, and collaborators whose last-touch
    transformation fails with a [KeyError]. *)
Definition all_done (c : call) : reply := Done.

Definition lasttouch_key_error (c : call) : reply :=
  match c with
  | TransformLastTouch _ _ _ _ => Raised (KeyError "VISITS")
  | _ => Done
  end.

(** A sheet with both metadata rows, a monthly table and a last-touch
    table. *)
Definition sheet_two_tables : DataFrame :=
  [ [Str "# Report suite: www.sotyktu.com_US_US"; NaN];
    [Str "# Date: Jan 1, 2024 - Jan 31, 2024"; NaN];
    [Str "# Freeform table"; NaN];
    [Str "#"; NaN];
    [Str "Month"; Str "Visits"];
    [NaN; Num 10];
    [Str "2024-01-01 00:00:00"; Num 10];
    [NaN; NaN];
    [Str BANNER; NaN];
    [NaN; Str "Visits"];
    [NaN; Str "2024-01-01 00:00:00"];
    [Str "Last Touch Channel"; Num 10];
    [Str "Email"; Num 10] ].

End Runs.
Import Runs.

(* ================================================================= *)
(** ** More of the transformations *)

Module ReshapeMore.

(** [convert_date_format], lines 44-53 of
    [BMS_Monthly+LastTouch_Transformation.py]: [date_str.split(' ')[0]];
    the [except ValueError] branch is never taken, as [split] with a
    non-empty separator does not raise. *)
Definition convert_date_format (date_str : string) : string :=
  match Str.split " " date_str with
  | date_part :: _ => date_part
  | [] => date_str
  end.

(** The string has no space. *)
Fixpoint no_space (s : string) : Prop :=
  match s with
  | EmptyString => True
  | String c r => c <> " "%char /\ no_space r
  end.

Definition monthly_names : list (string * string) :=
  [ ("ACTIVITY_MONTH", "ACTIVITY MONTH");
    ("Unique Visitors", "UNIQUE VISITORS");
    ("Visits", "VISITS");
    ("Unbounced visit", "UNBOUNCED VISIT");
    ("Bounce Rate", "BOUNCE RATE");
    ("Page Views / Visits", "PAGE VIEWS PER VISITS");
    ("Average Time on Site", "AVERAGE TIME ON SITE") ].

Definition monthly_numeric : list string :=
  ["UNIQUE VISITORS"; "VISITS"; "UNBOUNCED VISIT"; "BOUNCE RATE";
   "PAGE VIEWS PER VISITS"; "AVERAGE TIME ON SITE"].

Section Pandas.

Variable to_datetime : list cell -> outcome (list cell).

(** The frame of [transform_monthly_excel] just before the fill, lines
    283-296 of [BMS_Monthly+LastTouch_Transformation.py]: the two added
    columns and the renaming, applied to the frame [df] of line 281. *)
Definition monthly_renamed (df : Frame) (brand indication : string) : Frame :=
  let df := assign "BRAND" (Str brand) df in
  let df := assign "INDICATION" (Str indication) df in
  rename monthly_names df.

(** [transform_monthly_excel], lines 283-301, from the frame [df] of
    line 281 to the frame written to the result workbook. *)
Definition transform_monthly_final (df : Frame) (brand indication : string)
  : outcome Frame :=
  let df := monthly_renamed df brand indication in
  df <- fillna_columns monthly_numeric df ;;
  convert_column to_datetime "ACTIVITY MONTH" df.

End Pandas.

(** *** Vocabulary of the statements below *)

(** Every row of [f] holds [v] in the column named [c]. *)
Definition column_is (c : string) (v : cell) (f : Frame) : Prop :=
  forall r, In r (rows f) -> at_ (columns f) r c = Some v.

(** *** Example frames *)

(** A pivoted scroll frame without the column of page views. *)
Definition pivoted_scroll_no_views : Frame :=
  mkFrame
    ["ACTIVITY_MONTH"; "PAGE"; "PageScroll100%"; "PageScroll25%";
     "PageScroll50%"; "PageScroll75%"]
    [ [Str "2024-01-01"; Str "/a"; Num 1; Num 4; Num 3; Num 2] ].

(** The monthly frame of line 281, with a month without visits. *)
Definition monthly_frame : Frame :=
  mkFrame
    ["ACTIVITY_MONTH"; "Unique Visitors"; "Visits"; "Unbounced visit";
     "Bounce Rate"; "Page Views / Visits"; "Average Time on Site"]
    [ [Str "2024-01-01"; Num 8; Num 9; Num 5; Num (1 # 2); Num 2; Num 30];
      [Str "2024-02-01"; Num 4; NaN; Num 2; NaN; Num 3; Num 12] ].

Definition monthly_output : Frame :=
  mkFrame
    ["ACTIVITY MONTH"; "UNIQUE VISITORS"; "VISITS"; "UNBOUNCED VISIT";
     "BOUNCE RATE"; "PAGE VIEWS PER VISITS"; "AVERAGE TIME ON SITE";
     "BRAND"; "INDICATION"]
    [ [Str "2024-01-01"; Num 8; Num 9; Num 5; Num (1 # 2); Num 2; Num 30;
       Str "Sotyktu"; Str "psoriasis"];
      [Str "2024-02-01"; Num 4; Num 0; Num 2; Num 0; Num 3; Num 12;
       Str "Sotyktu"; Str "psoriasis"] ].

End ReshapeMore.
Import ReshapeMore.

(* ================================================================= *)
(** ** The column labels of the two-level header *)

Module Headers.

(** [f"{col[0]} {col[1]}"]: the label of a column once the two levels of
    the header are combined (line 208 of
    [BMS_Monthly+LastTouch_Transformation.py]). *)
Definition combined (col0 col1 : string) : string :=
  (col0 ++ " " ++ col1)%string.

(** The label of a column of the scroll and of the indication table: the
    spaces of the first level are removed before the levels are combined
    (lines 164-175 of [BMS_Scroll_Transformation.py], 153-164 of
    [BMS_Indication_Transformation.py]). *)
Definition squeezed (col0 col1 : string) : string :=
  combined (Str.replace " " EmptyString col0) col1.

(** [x.split()]: the pieces between runs of white space, none of them
    empty; [cur] is the piece being collected. *)
Fixpoint split_ws_from (cur : string) (s : string) : list string :=
  match s with
  | EmptyString =>
      match cur with EmptyString => [] | _ => [cur] end
  | String c r =>
      if Str.is_space c then
        match cur with
        | EmptyString => split_ws_from EmptyString r
        | _ => cur :: split_ws_from EmptyString r
        end
      else split_ws_from (cur ++ String c EmptyString)%string r
  end.

Definition split_ws (s : string) : list string := split_ws_from EmptyString s.

(** [lambda x: x.split()[0]], the metric of a combined label. *)
Definition metric_of (x : string) : outcome string :=
  match split_ws x with
  | w :: _ => Return w
  | [] => Raise (IndexError "list index out of range")
  end.

(** A pattern that is a sequence of one-character classes: a digit or a
    given character. *)
Inductive atom : Type :=
| D
| L (c : ascii).

Definition atom_ok (a : atom) (c : ascii) : bool :=
  match a with
  | D => match digit c with Some _ => true | None => false end
  | L x => Ascii.eqb c x
  end.

(** [r"\d{4}-\d{2}-\d{2} \d{2}:\d{2}:\d{2}"] *)
Definition date_pattern : list atom :=
  [D; D; D; D; L "-"; D; D; L "-"; D; D; L " ";
   D; D; L ":"; D; D; L ":"; D; D].

(** The text matched by the pattern at the start of [s]. *)
Fixpoint match_here (p : list atom) (s : string) : option string :=
  match p with
  | [] => Some EmptyString
  | a :: p' =>
      match s with
      | EmptyString => None
      | String c r =>
          if atom_ok a c then option_map (String c) (match_here p' r)
          else None
      end
  end.

(** [re.search(p, s).group()]: the match that starts first. *)
Fixpoint search (p : list atom) (s : string) : option string :=
  match match_here p s with
  | Some g => Some g
  | None =>
      match s with
      | EmptyString => None
      | String _ r => search p r
      end
  end.

(** The test of [date_columns], [re.search(date_pattern, col)]. *)
Definition is_date_column (col : string) : bool :=
  match search date_pattern col with Some _ => true | None => false end.

(** The month of a combined label, line 197 of
    [BMS_Scroll_Transformation.py]. *)
Definition activity_month (x : string) : string :=
  convert_date_format
    match search date_pattern x with
    | Some g => g
    | None => x
    end.

(** [x.split(' ', 1)], the split of the indication labels (line 176 of
    [BMS_Indication_Transformation.py]) on one of them. *)
Fixpoint split_once_from (cur : string) (s : string) : list string :=
  match s with
  | EmptyString => [cur]
  | String c r =>
      if Ascii.eqb c " " then [cur; r]
      else split_once_from (cur ++ String c EmptyString)%string r
  end.

Definition split_once (s : string) : list string :=
  split_once_from EmptyString s.

(** [lambda x: x.split(' ')[0] if ' ' in x else x], line 281 of
    [BMS_Monthly+LastTouch_Transformation.py]. *)
Definition monthly_date_part (x : string) : string :=
  if Str.contains " " x then
    match Str.split " " x with
    | date_part :: _ => date_part
    | [] => x
    end
  else x.

(** *** Vocabulary of the statements below *)

(** The string has no white space. *)
Fixpoint no_white (s : string) : Prop :=
  match s with
  | EmptyString => True
  | String c r => Str.is_space c = false /\ no_white r
  end.

(** The string has no digit. *)
Fixpoint no_digit (s : string) : Prop :=
  match s with
  | EmptyString => True
  | String c r => digit c = None /\ no_digit r
  end.

(** The string is a time stamp [YYYY-MM-DD HH:MM:SS] and nothing more. *)
Definition timestamp (t : string) : Prop :=
  match_here date_pattern t = Some t.

End Headers.
Import Headers.
(* ================================================================= *)
(** ** Facts about the calendar and the comparison *)

Section CalendarFacts.

Lemma days_in_month_inv y m dim :
  days_in_month y m = Return dim -> 1 <= m <= 12 /\ 28 <= dim <= 31.
Proof.
  unfold days_in_month.
  destruct ((1 <=? m) && (m <=? 12)) eqn:Hm; [|discriminate].
  apply andb_true_iff in Hm as [H1 H2].
  apply Z.leb_le in H1. apply Z.leb_le in H2.
  intros [= <-]. split; [lia|].
  assert (Hc : m = 1 \/ m = 2 \/ m = 3 \/ m = 4 \/ m = 5 \/ m = 6 \/ m = 7
               \/ m = 8 \/ m = 9 \/ m = 10 \/ m = 11 \/ m = 12) by lia.
  repeat (destruct Hc as [-> | Hc]); try subst m; simpl;
    try destruct (is_leap_year y); simpl; lia.
Qed.

Lemma days_in_month_total y m :
  1 <= m <= 12 -> exists dim, days_in_month y m = Return dim.
Proof.
  intros Hm. unfold days_in_month.
  replace ((1 <=? m) && (m <=? 12)) with true; [eauto|].
  symmetry. apply andb_true_iff. split; apply Z.leb_le; lia.
Qed.

Lemma check_date_fields_inv y m d dt :
  check_date_fields y m d = Return dt ->
  dt = mkdate y m d /\ 1 <= y <= 9999 /\ 1 <= m <= 12 /\
  exists dim, days_in_month y m = Return dim /\ 1 <= d <= dim.
Proof.
  unfold check_date_fields, MINYEAR, MAXYEAR.
  destruct ((1 <=? y) && (y <=? 9999)) eqn:Hy; simpl; [|discriminate].
  destruct ((1 <=? m) && (m <=? 12)) eqn:Hm; simpl; [|discriminate].
  destruct (days_in_month y m) as [dim| |] eqn:Hdim; simpl; try discriminate.
  destruct ((1 <=? d) && (d <=? dim)) eqn:Hd; simpl; [|discriminate].
  intros [= <-].
  apply andb_true_iff in Hy as [? ?], Hm as [? ?], Hd as [? ?].
  repeat split; try (apply Z.leb_le; assumption).
  exists dim. repeat split; try (apply Z.leb_le; assumption).
Qed.

Lemma check_date_fields_ok y m d dim :
  1 <= y <= 9999 -> days_in_month y m = Return dim -> 1 <= d <= dim ->
  check_date_fields y m d = Return (mkdate y m d).
Proof.
  intros Hy Hdim Hd.
  destruct (days_in_month_inv _ _ _ Hdim) as [Hm _].
  unfold check_date_fields, MINYEAR, MAXYEAR.
  replace ((1 <=? y) && (y <=? 9999)) with true
    by (symmetry; apply andb_true_iff; split; apply Z.leb_le; lia).
  replace ((1 <=? m) && (m <=? 12)) with true
    by (symmetry; apply andb_true_iff; split; apply Z.leb_le; lia).
  simpl. rewrite Hdim. simpl.
  replace ((1 <=? d) && (d <=? dim)) with true
    by (symmetry; apply andb_true_iff; split; apply Z.leb_le; lia).
  reflexivity.
Qed.

Lemma valid_inv dt :
  valid dt ->
  1 <= year dt <= 9999 /\ 1 <= month dt <= 12 /\
  exists dim, days_in_month (year dt) (month dt) = Return dim /\ 1 <= day dt <= dim.
Proof.
  intros H. apply check_date_fields_inv in H. tauto.
Qed.

Lemma strptime_mdY_valid s dt : strptime_mdY s = Return dt -> valid dt.
Proof.
  unfold strptime_mdY.
  destruct (match_mdY s) as [[[[m d] y] rest]|]; [|discriminate].
  destruct rest; [|discriminate].
  intros H. destruct (check_date_fields_inv _ _ _ _ H) as [-> _].
  exact H.
Qed.

Lemma leb_true a b : leb a b = true <-> lex_le a b.
Proof.
  unfold leb, cmp, lex_le.
  destruct (Z.compare_spec (year a) (year b));
    destruct (Z.compare_spec (month a) (month b));
    destruct (Z.compare_spec (day a) (day b));
    split; intros; try discriminate; try reflexivity; lia.
Qed.

Lemma leb_false a b : leb a b = false <-> ~ lex_le a b.
Proof.
  rewrite <- leb_true. destruct (leb a b); split; intros; congruence.
Qed.

Lemma gtb_true a b : gtb a b = true <-> ~ lex_le a b.
Proof.
  unfold gtb. rewrite negb_true_iff. apply leb_false.
Qed.

End CalendarFacts.

(* ================================================================= *)
(** ** The month walk *)

Section Walk.

Lemma add_one_day_month_end dt dim :
  days_in_month (year dt) (month dt) = Return dim ->
  add_one_day (month_end_of dt dim) = next_month_start dt.
Proof.
  intros Hdim. unfold add_one_day, month_end_of, next_month_start. simpl.
  rewrite Hdim. simpl. rewrite Z.ltb_irrefl. reflexivity.
Qed.

(** One iteration of the loop on a valid [current]. *)
Lemma walk_step fuel current end_ count dim :
  valid current ->
  days_in_month (year current) (month current) = Return dim ->
  walk (S fuel) current end_ count =
    if leb current end_ then
      if leb (month_end_of current dim) end_ then
        next <- next_month_start current ;;
        walk fuel next end_ (count + 1)
      else Return (current, count)
    else Return (current, count).
Proof.
  intros Hv Hdim. simpl.
  destruct (leb current end_); [|reflexivity].
  rewrite Hdim. simpl.
  destruct (valid_inv _ Hv) as (Hy & Hm & dim' & Hdim' & Hd).
  assert (dim' = dim) by congruence. subst dim'.
  destruct (days_in_month_inv _ _ _ Hdim) as [_ Hrange].
  unfold replace_day.
  rewrite (check_date_fields_ok _ _ _ dim Hy Hdim) by lia. simpl.
  fold (month_end_of current dim).
  destruct (leb (month_end_of current dim) end_); [|reflexivity].
  rewrite (add_one_day_month_end _ _ Hdim). reflexivity.
Qed.

Lemma first_of_month_valid y m :
  1 <= y <= 9999 -> 1 <= m <= 12 -> valid (mkdate y m 1).
Proof.
  intros Hy Hm. unfold valid. simpl.
  destruct (days_in_month_total y m Hm) as [d Hd].
  destruct (days_in_month_inv _ _ _ Hd) as [_ ?].
  apply (check_date_fields_ok _ _ _ d); auto; lia.
Qed.

Lemma next_month_start_valid dt next :
  valid dt -> next_month_start dt = Return next ->
  valid next /\ month_index next = month_index dt + 1 /\ day next = 1.
Proof.
  intros Hv. destruct (valid_inv _ Hv) as (Hy & Hm & _).
  unfold next_month_start, MAXYEAR.
  destruct (Z.ltb_spec (month dt) 12).
  - intros [= <-]. unfold month_index. simpl.
    split; [apply first_of_month_valid; lia | split; [lia | reflexivity]].
  - destruct (Z.ltb_spec (year dt) 9999); [|discriminate].
    intros [= <-]. unfold month_index. cbn [year month day].
    split; [apply first_of_month_valid; lia | split; [lia | reflexivity]].
Qed.

(** A walk that starts on valid dates with [walk_fuel] or more fuel leaves
    the loop, or stops on the overflow of [9999-12-31 + 1 day]. *)
Lemma walk_total fuel current end_ count :
  valid current -> valid end_ ->
  (Z.to_nat (month_index end_ - month_index current + 1) < fuel)%nat ->
  (exists c n, walk fuel current end_ count = Return (c, n)) \/
  (walk fuel current end_ count = Raise (OverflowError "date value out of range")
   /\ end_ = mkdate 9999 12 31).
Proof.
  revert current count.
  induction fuel as [|fuel IH]; intros current count Hc He Hfuel; [lia|].
  destruct (valid_inv _ Hc) as (Hy & Hm & dim & Hdim & Hd).
  rewrite (walk_step _ _ _ _ dim Hc Hdim).
  destruct (leb current end_) eqn:Hle; [|eauto].
  destruct (leb (month_end_of current dim) end_) eqn:Hle'; [|eauto].
  apply leb_true in Hle'. unfold lex_le, month_end_of in Hle'. simpl in Hle'.
  destruct (valid_inv _ He) as (Hye & Hme & dime & Hdime & Hde).
  destruct (next_month_start current) as [next| |] eqn:Hnext; simpl.
  - destruct (next_month_start_valid _ _ Hc Hnext) as (Hvn & Hidx & _).
    apply IH; auto. unfold month_index in *. lia.
  - right. unfold next_month_start, MAXYEAR in Hnext.
    destruct (Z.ltb_spec (month current) 12); [discriminate|].
    destruct (Z.ltb_spec (year current) 9999); [discriminate|].
    injection Hnext as <-. split; [reflexivity|].
    assert (year end_ = 9999) by lia.
    assert (month end_ = 12) by lia.
    assert (month current = 12) by lia.
    assert (year current = 9999) by lia.
    rewrite H3, H4 in Hdim. injection Hdim as <-.
    rewrite H1, H2 in Hdime. injection Hdime as <-.
    destruct end_ as [ye me de]. simpl in *. f_equal; lia.
  - unfold next_month_start in Hnext.
    destruct (month current <? 12); [discriminate|].
    destruct (year current <? MAXYEAR); discriminate.
Qed.

(** The answer of a walk does not depend on the fuel left over. *)
Lemma walk_more_fuel fuel fuel' current end_ count r :
  walk fuel current end_ count = Return r -> (fuel <= fuel')%nat ->
  walk fuel' current end_ count = Return r.
Proof.
  revert fuel' current count.
  induction fuel as [|fuel IH]; intros fuel' current count Hw Hle;
    [discriminate|].
  destruct fuel' as [|fuel']; [lia|].
  simpl in *. destruct (leb current end_); [|exact Hw].
  destruct (days_in_month (year current) (month current)) as [d| |];
    simpl in *; try discriminate.
  destruct (replace_day current d) as [month_end| |]; simpl in *;
    try discriminate.
  destruct (leb month_end end_); [|exact Hw].
  destruct (add_one_day month_end) as [next| |]; simpl in *;
    try discriminate.
  apply IH; [exact Hw | lia].
Qed.

(** When the walk leaves the loop beyond [end_], either no iteration ran or
    [end_] is the last day of its month. *)
Lemma walk_past_end fuel current end_ count c n :
  valid current -> valid end_ ->
  walk fuel current end_ count = Return (c, n) ->
  gtb c end_ = true ->
  (c = current /\ n = count) \/ is_last_day end_.
Proof.
  revert current count.
  induction fuel as [|fuel IH]; intros current count Hc He Hw Hgt;
    [discriminate|].
  destruct (valid_inv _ Hc) as (Hy & Hm & dim & Hdim & Hd).
  rewrite (walk_step _ _ _ _ dim Hc Hdim) in Hw.
  destruct (leb current end_) eqn:Hle; [|injection Hw as <- <-; auto].
  destruct (leb (month_end_of current dim) end_) eqn:Hle';
    [|injection Hw as <- <-; auto].
  destruct (next_month_start current) as [next| |] eqn:Hnext;
    simpl in Hw; try discriminate.
  destruct (next_month_start_valid _ _ Hc Hnext) as (Hvn & Hidx & Hday).
  destruct (IH _ _ Hvn He Hw Hgt) as [[-> ->] | Hlast]; [|auto].
  right.
  apply gtb_true in Hgt. apply leb_true in Hle'.
  destruct (valid_inv _ He) as (Hye & Hme & dime & Hdime & Hde).
  destruct (valid_inv _ Hvn) as (Hyn & Hmn & _).
  unfold lex_le, month_end_of, month_index in *. cbn [year month day] in *.
  unfold is_last_day.
  assert (year end_ = year current /\ month end_ = month current) as [E1 E2]
    by lia.
  rewrite E1, E2 in *. rewrite Hdim in Hdime. injection Hdime as <-.
  rewrite Hdim. f_equal. lia.
Qed.

(** From any day on or before a month end [end_] that is not 9999-12-31,
    the walk counts at least one month and leaves the loop beyond [end_]. *)
Lemma walk_to_month_end fuel current end_ count :
  valid current -> valid end_ -> is_last_day end_ ->
  ~ (year end_ = 9999 /\ month end_ = 12) ->
  (Z.to_nat (month_index end_ - month_index current + 1) < fuel)%nat ->
  exists c n,
    walk fuel current end_ count = Return (c, n) /\ gtb c end_ = true /\
    count <= n /\ (leb current end_ = true -> count < n).
Proof.
  revert current count.
  induction fuel as [|fuel IH]; intros current count Hc He Hlast Hmax Hfuel;
    [lia|].
  destruct (valid_inv _ Hc) as (Hy & Hm & dim & Hdim & Hd).
  destruct (valid_inv _ He) as (Hye & Hme & dime & Hdime & Hde).
  unfold is_last_day in Hlast.
  rewrite (walk_step _ _ _ _ dim Hc Hdim).
  destruct (leb current end_) eqn:Hle.
  2:{ exists current, count. unfold gtb. rewrite Hle.
      repeat split; [lia | discriminate]. }
  apply leb_true in Hle.
  assert (Hle' : leb (month_end_of current dim) end_ = true).
  { apply leb_true. unfold lex_le, month_end_of in *. simpl.
    destruct (Z.eq_dec (year current) (year end_)) as [Ey|]; [|lia].
    destruct (Z.eq_dec (month current) (month end_)) as [Em|]; [|lia].
    rewrite Ey, Em in Hdim. rewrite Hdim in Hlast. injection Hlast as ->. lia. }
  rewrite Hle'.
  assert (Hidx : month_index current <= month_index end_)
    by (unfold lex_le, month_index in *; lia).
  destruct (next_month_start current) as [next| |] eqn:Hnext; simpl.
  - destruct (next_month_start_valid _ _ Hc Hnext) as (Hvn & Hidx' & _).
    destruct (IH next (count + 1) Hvn He Hlast Hmax) as (c & n & Hw & Hgt & Hn & _);
      [lia|].
    exists c, n. repeat split; auto; lia.
  - exfalso. unfold next_month_start, MAXYEAR in Hnext.
    destruct (Z.ltb_spec (month current) 12); [discriminate|].
    destruct (Z.ltb_spec (year current) 9999); [discriminate|].
    unfold month_index in *. lia.
  - unfold next_month_start in Hnext.
    destruct (month current <? 12); [discriminate|].
    destruct (year current <? MAXYEAR); discriminate.
Qed.

End Walk.

(* ================================================================= *)
(** ** Ordinals *)

Section Ordinals.

Lemma days_before_month_bounds y m dim :
  days_in_month y m = Return dim ->
  0 <= days_before_month y m /\ days_before_month y m + dim <= 366 /\
  (is_leap_year y = false -> days_before_month y m + dim <= 365).
Proof.
  intros Hdim. destruct (days_in_month_inv _ _ _ Hdim) as [Hm _].
  unfold days_in_month in Hdim.
  replace ((1 <=? m) && (m <=? 12)) with true in Hdim
    by (symmetry; apply andb_true_iff; split; apply Z.leb_le; lia).
  injection Hdim as <-. unfold days_before_month.
  assert (Hc : m = 1 \/ m = 2 \/ m = 3 \/ m = 4 \/ m = 5 \/ m = 6 \/ m = 7
               \/ m = 8 \/ m = 9 \/ m = 10 \/ m = 11 \/ m = 12) by lia.
  repeat (destruct Hc as [-> | Hc]); try subst m; simpl;
    destruct (is_leap_year y); simpl; repeat split; intros; try lia;
    discriminate.
Qed.

Lemma days_before_year_succ y :
  days_before_year (y + 1) - days_before_year y
  = if is_leap_year y then 366 else 365.
Proof.
  unfold days_before_year, is_leap_year. cbv zeta.
  replace (y + 1 - 1) with y by lia.
  destruct (Z.eqb_spec (y mod 4) 0); destruct (Z.eqb_spec (y mod 100) 0);
    destruct (Z.eqb_spec (y mod 400) 0); cbn [negb orb andb];
    Z.to_euclidean_division_equations; lia.
Qed.

Lemma days_before_year_mono y y' :
  y <= y' -> days_before_year y + 365 * (y' - y) <= days_before_year y'.
Proof.
  unfold days_before_year. cbv zeta. intros.
  Z.to_euclidean_division_equations. lia.
Qed.

Lemma toordinal_bounds dt :
  valid dt ->
  days_before_year (year dt) < toordinal dt <= days_before_year (year dt + 1).
Proof.
  intros Hv. destruct (valid_inv _ Hv) as (Hy & Hm & dim & Hdim & Hd).
  destruct (days_before_month_bounds _ _ _ Hdim) as (H0 & H1 & H2).
  pose proof (days_before_year_succ (year dt)) as Hs.
  unfold toordinal. destruct (is_leap_year (year dt)).
  - lia.
  - specialize (H2 eq_refl). lia.
Qed.

End Ordinals.

(* ================================================================= *)
(** ** Properties of the calendar utility and the period validator *)

Module PeriodSpec.

Lemma check_full_period_parsed s e start end_ :
  strptime_mdY s = Return start -> strptime_mdY e = Return end_ ->
  check_full_period s e = check_full_period_dt start end_.
Proof.
  intros Hs He. unfold check_full_period. rewrite Hs, He. reflexivity.
Qed.

(** Line 25 alone decides when it applies. *)
Lemma day_count_branch_true start end_ :
  day_count_branch start end_ -> check_full_period_dt start end_ = Return true.
Proof.
  intros [Hy Hd]. unfold check_full_period_dt.
  destruct (Z.eqb_spec (year start) (year end_)); [contradiction|].
  cbn [negb].
  destruct ((month start =? 1) && (day start =? 1) && (month end_ =? 12)
            && (day end_ =? 31)); [reflexivity|].
  destruct (Z.leb_spec (year_length start) (sub_days end_ start));
    [reflexivity | lia].
Qed.

(** Outside the two cross-year tests the result is that of the walk. *)
Lemma check_full_period_dt_cases start end_ :
  check_full_period_dt start end_ = Return true \/
  check_full_period_dt start end_ = full_months start end_.
Proof.
  unfold check_full_period_dt.
  destruct (negb (year start =? year end_)); [|auto].
  destruct ((month start =? 1) && (day start =? 1) && (month end_ =? 12)
            && (day end_ =? 31)); [auto|].
  destruct (year_length start <=? sub_days end_ start); auto.
Qed.

Lemma check_full_period_dt_walks start end_ :
  ~ day_count_branch start end_ -> ~ is_last_day end_ -> valid end_ ->
  check_full_period_dt start end_ = full_months start end_.
Proof.
  intros Hdc Hlast He. unfold check_full_period_dt.
  destruct (Z.eqb_spec (year start) (year end_)); cbn [negb]; [reflexivity|].
  destruct ((month start =? 1) && (day start =? 1) && (month end_ =? 12)
            && (day end_ =? 31)) eqn:Hb.
  - exfalso. apply Hlast. unfold is_last_day.
    repeat (apply andb_true_iff in Hb as [Hb ?]).
    apply Z.eqb_eq in H0, H. rewrite H0, H. reflexivity.
  - destruct (Z.leb_spec (year_length start) (sub_days end_ start));
      [|reflexivity].
    exfalso. apply Hdc. split; assumption.
Qed.

(** The walk, when it answers [true], has stopped right after [end_]. *)
Lemma full_months_true start end_ :
  valid start -> valid end_ ->
  full_months start end_ = Return true -> is_last_day end_.
Proof.
  intros Hs He. unfold full_months.
  destruct (walk (walk_fuel start end_) start end_ 0) as [[c n]| |] eqn:Hw;
    simpl; try discriminate.
  intros [= Hb]. apply andb_true_iff in Hb as [Hgt Hn].
  destruct (walk_past_end _ _ _ _ _ _ Hs He Hw Hgt) as [[_ ->] | H]; [|exact H].
  discriminate.
Qed.

Lemma full_months_false start end_ :
  valid start -> valid end_ -> ~ is_last_day end_ ->
  full_months start end_ = Return false.
Proof.
  intros Hs He Hlast. unfold full_months.
  destruct (walk_total (walk_fuel start end_) start end_ 0 Hs He)
    as [(c & n & Hw) | [_ ->]].
  - unfold walk_fuel. lia.
  - rewrite Hw. simpl. f_equal.
    destruct (gtb c end_) eqn:Hgt; [|reflexivity].
    destruct (walk_past_end _ _ _ _ _ _ Hs He Hw Hgt) as [[_ ->] | H];
      [reflexivity | contradiction].
  - exfalso. apply Hlast. reflexivity.
Qed.

Lemma full_months_aligned start end_ :
  valid start -> valid end_ -> leb start end_ = true -> is_last_day end_ ->
  ~ (year end_ = 9999 /\ month end_ = 12) ->
  full_months start end_ = Return true.
Proof.
  intros Hs He Hle Hlast Hmax. unfold full_months.
  destruct (walk_to_month_end (walk_fuel start end_) start end_ 0 Hs He Hlast Hmax)
    as (c & n & Hw & Hgt & _ & Hn).
  - unfold walk_fuel. lia.
  - rewrite Hw. simpl. rewrite Hgt. specialize (Hn Hle).
    apply Z.ltb_lt in Hn. rewrite Hn. reflexivity.
Qed.

Lemma classic_last_day dt : is_last_day dt \/ ~ is_last_day dt.
Proof.
  unfold is_last_day.
  destruct (days_in_month (year dt) (month dt)) as [d| |];
    try (right; discriminate).
  destruct (Z.eq_dec d (day dt)) as [->|Hne]; [left; reflexivity|].
  right. intros [= E]. contradiction.
Qed.

Lemma classic_day_count start end_ :
  day_count_branch start end_ \/ ~ day_count_branch start end_.
Proof.
  unfold day_count_branch.
  destruct (Z.eq_dec (year start) (year end_));
    destruct (Z_le_gt_dec (year_length start) (sub_days end_ start));
    [right | right | left | right]; try tauto; intros [_ ?]; lia.
Qed.

(** The validator always answers or raises: the fuel of the walk is never
    used up. *)
Lemma check_full_period_total s e : check_full_period s e <> OutOfFuel.
Proof.
  unfold check_full_period.
  destruct (strptime_mdY s) as [start| |] eqn:Hs; simpl; try discriminate.
  2:{ unfold strptime_mdY in Hs.
      destruct (match_mdY s) as [[[[m d] y] rest]|]; [|discriminate].
      destruct rest; [|discriminate].
      unfold check_date_fields in Hs.
      destruct (negb _); [discriminate|]. destruct (negb _); [discriminate|].
      unfold days_in_month in Hs. destruct (_ && _) in Hs; [|discriminate].
      simpl in Hs. destruct (negb _) in Hs; discriminate. }
  destruct (strptime_mdY e) as [end_| |] eqn:He; simpl; try discriminate.
  2:{ unfold strptime_mdY in He.
      destruct (match_mdY e) as [[[[m d] y] rest]|]; [|discriminate].
      destruct rest; [|discriminate].
      unfold check_date_fields in He.
      destruct (negb _); [discriminate|]. destruct (negb _); [discriminate|].
      unfold days_in_month in He. destruct (_ && _) in He; [|discriminate].
      simpl in He. destruct (negb _) in He; discriminate. }
  pose proof (strptime_mdY_valid _ _ Hs) as Hvs.
  pose proof (strptime_mdY_valid _ _ He) as Hve.
  destruct (check_full_period_dt_cases start end_) as [H | H]; rewrite H;
    [discriminate|].
  unfold full_months.
  destruct (walk_total (walk_fuel start end_) start end_ 0 Hvs Hve)
    as [(c & n & Hw) | [Hw _]]; [unfold walk_fuel; lia | |];
    rewrite Hw; discriminate.
Qed.

(** A range that ends on 9999-12-31 and starts in an earlier year takes
    the day-count branch. *)
Lemma day_count_to_max start :
  valid start -> year start <> 9999 ->
  day_count_branch start (mkdate 9999 12 31).
Proof.
  intros Hs Hy. destruct (valid_inv _ Hs) as (Hys & _).
  split; [exact Hy|].
  pose proof (toordinal_bounds _ Hs) as [_ Hub].
  pose proof (days_before_year_mono (year start + 1) 9999 ltac:(lia)) as Hmono.
  pose proof (days_before_year_succ (year start)) as Hsucc.
  assert (Hend : toordinal (mkdate 9999 12 31) = days_before_year 9999 + 365)
    by reflexivity.
  unfold sub_days, year_length. rewrite Hend.
  destruct (is_leap_year (year start)) eqn:Hleap; cbn [negb].
  - assert (year start <> 9998) by (intros E; rewrite E in Hleap; discriminate).
    lia.
  - lia.
Qed.

(** C5: [is_leap_year] is the Gregorian rule -- divisible by 4 and not by
    100 unless by 400 -- for every integer year; in particular 1900 is not
    a leap year, 2000 and 2024 are, and 2023 is not. *)
Theorem C5_is_leap_year_gregorian :
  (forall Y : Z,
      is_leap_year Y = true <-> ((4 | Y) /\ (~ (100 | Y) \/ (400 | Y)))) /\
  is_leap_year 1900 = false /\ is_leap_year 2000 = true /\
  is_leap_year 2024 = true /\ is_leap_year 2023 = false.
Proof.
  split; [|repeat split; reflexivity].
  intros Y. unfold is_leap_year.
  rewrite andb_true_iff, orb_true_iff, negb_true_iff, !Z.eqb_eq, Z.eqb_neq.
  rewrite <- !Z.mod_divide by lia. tauto.
Qed.

(** C4: the four worked examples of the validator: January 2024 is a full
    period, 1-15 January 2024 is not, the year 2024 is, and March to May
    2024 is. *)
Theorem C4_check_full_period_examples :
  check_full_period "01012024" "01312024" = Return true /\
  check_full_period "01012024" "01152024" = Return false /\
  check_full_period "01012024" "12312024" = Return true /\
  check_full_period "03012024" "05312024" = Return true.
Proof. repeat split; vm_compute; reflexivity. Qed.

(** C10: the validator does not require start <= end: start 2025-01-01 is
    after end 2023-12-31, and the range is accepted by the test of line 23,
    which looks at the months and days only. *)
Theorem C10_check_full_period_accepts_reversed_range :
  strptime_mdY "01012025" = Return (mkdate 2025 1 1) /\
  strptime_mdY "12312023" = Return (mkdate 2023 12 31) /\
  gtb (mkdate 2025 1 1) (mkdate 2023 12 31) = true /\
  check_full_period "01012025" "12312023" = Return true.
Proof. repeat split; vm_compute; reflexivity. Qed.

(** C1, as stated, fails: 15 March 2023 to 20 June 2025 is accepted by the
    day-count test although it starts and ends in the middle of a month and
    is not a calendar year. *)
Lemma C1_counterexample_mid_month_range_accepted :
  ~ (forall s e start end_,
        strptime_mdY s = Return start -> strptime_mdY e = Return end_ ->
        leb start end_ = true ->
        (check_full_period s e = Return true <->
         (is_first_day start /\ is_last_day end_) \/
         full_calendar_year start end_)).
Proof.
  intros H.
  destruct (H "03152023" "06202025" (mkdate 2023 3 15) (mkdate 2025 6 20)
              eq_refl eq_refl eq_refl) as [Hto _].
  destruct (Hto eq_refl) as [[Hfirst _] | [Hyear _]]; discriminate.
Qed.

(** C1, amended: for start <= end, a range from the first day of a month
    to the last day of a month is accepted (unless the walk would step
    past 9999-12-31, the last [datetime]); and an accepted range ends on
    the last day of a month or is accepted by the day-count test of
    line 25 (different years and [(end - start).days] at least the length
    of the start year). *)
Theorem C1_check_full_period_whole_months s e start end_ :
  strptime_mdY s = Return start -> strptime_mdY e = Return end_ ->
  leb start end_ = true ->
  (is_first_day start -> is_last_day end_ ->
   ~ (year start = 9999 /\ end_ = mkdate 9999 12 31) ->
   check_full_period s e = Return true) /\
  (check_full_period s e = Return true ->
   is_last_day end_ \/ day_count_branch start end_).
Proof.
  intros Hs He Hle.
  pose proof (strptime_mdY_valid _ _ Hs) as Hvs.
  pose proof (strptime_mdY_valid _ _ He) as Hve.
  rewrite (check_full_period_parsed _ _ _ _ Hs He).
  split.
  - intros _ Hlast Hmax.
    destruct (check_full_period_dt_cases start end_) as [H | H]; [exact H|].
    rewrite H.
    destruct (Z.eq_dec (year end_) 9999) as [Ey|Ey];
      [destruct (Z.eq_dec (month end_) 12) as [Em|Em]|].
    + assert (Hend : end_ = mkdate 9999 12 31).
      { unfold is_last_day in Hlast. rewrite Ey, Em in Hlast.
        injection Hlast as Hd. destruct end_ as [ye me de]. simpl in *.
        congruence. }
      assert (Hy : year start <> 9999) by tauto.
      subst end_. rewrite <- H.
      apply day_count_branch_true, day_count_to_max; assumption.
    + apply full_months_aligned; auto. tauto.
    + apply full_months_aligned; auto. tauto.
  - intros Htrue.
    destruct (classic_last_day end_) as [Hlast | Hlast]; [auto|].
    destruct (classic_day_count start end_) as [Hdc | Hdc]; [auto|].
    rewrite (check_full_period_dt_walks _ _ Hdc Hlast Hve) in Htrue.
    left. apply (full_months_true start end_); assumption.
Qed.

Lemma C1_witness_march_to_may :
  check_full_period "03012024" "05312024" = Return true /\
  (is_last_day (mkdate 2024 5 31) \/
   day_count_branch (mkdate 2024 3 1) (mkdate 2024 5 31)).
Proof.
  destruct (C1_check_full_period_whole_months
              "03012024" "05312024" (mkdate 2024 3 1) (mkdate 2024 5 31)
              eq_refl eq_refl eq_refl) as [Hyes Honly].
  assert (Htrue : check_full_period "03012024" "05312024" = Return true).
  { apply Hyes; [reflexivity | reflexivity | intros [Hy _]; discriminate]. }
  split; [exact Htrue | exact (Honly Htrue)].
Defined.

(** C2, as stated, fails: 15 March 2023 to 13 March 2024 spans 365 days
    when both end points are counted, the years differ and 2023 is not a
    leap year, yet the range is refused: line 25 compares
    [(end - start).days], which is 364. *)
Lemma C2_counterexample_inclusive_span_365 :
  ~ (forall s e start end_,
        strptime_mdY s = Return start -> strptime_mdY e = Return end_ ->
        year start <> year end_ ->
        (~ (month start = 1 /\ day start = 1) \/
         ~ (month end_ = 12 /\ day end_ = 31)) ->
        year_length start <= inclusive_span start end_ ->
        check_full_period s e = Return true).
Proof.
  intros H.
  specialize (H "03152023" "03132024" (mkdate 2023 3 15) (mkdate 2024 3 13)
                eq_refl eq_refl).
  assert (Hc : check_full_period "03152023" "03132024" = Return true).
  { apply H.
    - discriminate.
    - left. intros [Hm _]. discriminate.
    - vm_compute. discriminate. }
  vm_compute in Hc. discriminate.
Qed.

(** C2, amended: for start and end in different calendar years, where
    start is not 1 January or end is not 31 December, the range is accepted
    whenever the difference in days [(end - start).days] -- the span not
    counting the start day -- is at least 365, or at least 366 when the
    start year is a leap year. *)
Theorem C2_check_full_period_day_count s e start end_ :
  strptime_mdY s = Return start -> strptime_mdY e = Return end_ ->
  year start <> year end_ ->
  (~ (month start = 1 /\ day start = 1) \/
   ~ (month end_ = 12 /\ day end_ = 31)) ->
  year_length start <= sub_days end_ start ->
  check_full_period s e = Return true.
Proof.
  intros Hs He Hy _ Hd.
  rewrite (check_full_period_parsed _ _ _ _ Hs He).
  apply day_count_branch_true. split; assumption.
Qed.

Lemma C2_witness_march_15_to_march_14 :
  check_full_period "03152023" "03142024" = Return true.
Proof.
  apply (C2_check_full_period_day_count
           "03152023" "03142024" (mkdate 2023 3 15) (mkdate 2024 3 14)
           eq_refl eq_refl).
  - discriminate.
  - left. intros [Hm _]. discriminate.
  - vm_compute. discriminate.
Defined.

(** C3, as stated, fails: 15 March 2023 to 14 March 2024 ends in the
    middle of March and is accepted by the day-count test. *)
Lemma C3_counterexample_mid_month_end_accepted :
  ~ (forall s e start end_,
        strptime_mdY s = Return start -> strptime_mdY e = Return end_ ->
        ~ is_last_day end_ ->
        check_full_period s e = Return false).
Proof.
  intros H.
  specialize (H "03152023" "03142024" (mkdate 2023 3 15) (mkdate 2024 3 14)
                eq_refl eq_refl).
  assert (Hc : check_full_period "03152023" "03142024" = Return false).
  { apply H. vm_compute. discriminate. }
  vm_compute in Hc. discriminate.
Qed.

(** C3, amended: a range whose end date is not the last day of its month
    is refused, unless it is accepted by the day-count test of line 25
    (start and end in different years and [(end - start).days] at least the
    length of the start year). *)
Theorem C3_check_full_period_mid_month_end s e start end_ :
  strptime_mdY s = Return start -> strptime_mdY e = Return end_ ->
  ~ is_last_day end_ ->
  ~ day_count_branch start end_ ->
  check_full_period s e = Return false.
Proof.
  intros Hs He Hlast Hdc.
  pose proof (strptime_mdY_valid _ _ Hs) as Hvs.
  pose proof (strptime_mdY_valid _ _ He) as Hve.
  rewrite (check_full_period_parsed _ _ _ _ Hs He).
  rewrite (check_full_period_dt_walks _ _ Hdc Hlast Hve).
  apply full_months_false; assumption.
Qed.

Lemma C3_witness_half_january :
  check_full_period "01012024" "01152024" = Return false.
Proof.
  apply (C3_check_full_period_mid_month_end
           "01012024" "01152024" (mkdate 2024 1 1) (mkdate 2024 1 15)
           eq_refl eq_refl).
  - vm_compute. discriminate.
  - intros [Hy _]. apply Hy. reflexivity.
Defined.

End PeriodSpec.

(* ================================================================= *)
(** ** Properties of the table extractors *)

Module SheetSpec.

Lemma iloc_column0 df i r :
  has_column0 df -> nth_error df i = Some r ->
  exists c rest, r = c :: rest /\ iloc df i 0 = Return c.
Proof.
  intros Hcol Hi.
  assert (Hr : r <> []).
  { unfold has_column0 in Hcol. rewrite Forall_forall in Hcol.
    apply Hcol. eapply nth_error_In; eauto. }
  destruct r as [|c rest]; [contradiction|].
  exists c, rest. split; [reflexivity|].
  unfold iloc. rewrite Hi. reflexivity.
Qed.

(** [df.iloc[a:b]] for bounds inside the frame. *)
Lemma iloc_slice_inside df a b :
  (a <= b)%nat -> (b <= List.length df)%nat ->
  iloc_slice df (Z.of_nat a) (Z.of_nat b) = firstn (b - a) (skipn a df).
Proof.
  intros Hab Hb. unfold iloc_slice, slice_index.
  destruct (Z.ltb_spec (Z.of_nat a) 0); [lia|].
  destruct (Z.ltb_spec (Z.of_nat b) 0); [lia|].
  rewrite !Z.min_l by lia. rewrite Nat2Z.id.
  f_equal. lia.
Qed.

Lemma iloc_slice_to_end df a :
  (a <= List.length df)%nat ->
  iloc_slice df (Z.of_nat a) (Z.of_nat (List.length df)) = skipn a df.
Proof.
  intros Ha. rewrite iloc_slice_inside by lia.
  apply firstn_all2. rewrite length_skipn. lia.
Qed.

(** The backward search stops at the highest banner row below [n]. *)
Lemma freeform_start_idx_spec df n :
  has_column0 df -> (n <= List.length df)%nat ->
  (freeform_start_idx df n = Return None /\
   forall j r, (j < n)%nat -> nth_error df j = Some r -> banner_row r = false)
  \/
  (exists idx r,
      (idx < n)%nat /\ freeform_start_idx df n = Return (Some idx) /\
      nth_error df idx = Some r /\ banner_row r = true /\
      forall j r', (idx < j < n)%nat -> nth_error df j = Some r' ->
                   banner_row r' = false).
Proof.
  intros Hcol. induction n as [|i IH]; intros Hn.
  - left. split; [reflexivity | intros; lia].
  - destruct (nth_error df i) as [r|] eqn:Hi.
    2:{ apply nth_error_None in Hi. lia. }
    destruct (iloc_column0 _ _ _ Hcol Hi) as (c & rest & -> & Hc).
    simpl. rewrite Hc. simpl.
    destruct (str_contains BANNER c) eqn:Hb.
    + right. exists i, (c :: rest). repeat split; auto. intros; lia.
    + destruct IH as [[Hnone Hall] | (idx & r & Hlt & Hf & Hr & Hbr & Hall)];
        [lia | |].
      * left. split; [exact Hnone|]. intros j r Hj Hjr.
        destruct (Nat.eq_dec j i) as [->|Hne].
        -- rewrite Hi in Hjr. injection Hjr as <-. exact Hb.
        -- apply (Hall j); [lia | exact Hjr].
      * right. exists idx, r. repeat split; auto.
        intros j r' Hj Hjr.
        destruct (Nat.eq_dec j i) as [->|Hne].
        -- rewrite Hi in Hjr. injection Hjr as <-. exact Hb.
        -- apply (Hall j); [lia | exact Hjr].
Qed.

(** C6: on a sheet with at least one row whose column 0 is text that
    contains the banner, the sentinel search returns the index of the last
    such row and the extracted table is all rows after it; on a sheet with
    no such row the extraction fails with the marker-not-found
    [ValueError]. *)
Theorem C6_sentinel_search_last_occurrence df :
  has_column0 df ->
  ((exists i r, nth_error df i = Some r /\ banner_row r = true) ->
   exists idx r,
     nth_error df idx = Some r /\ banner_row r = true /\
     (forall j r', (idx < j)%nat -> nth_error df j = Some r' ->
                   banner_row r' = false) /\
     freeform_start_idx df (List.length df) = Return (Some idx) /\
     extract_indication_from_excel df
     = Return ("temp_extracted_table.xlsx", skipn (S idx) df)) /\
  ((forall i r, nth_error df i = Some r -> banner_row r = false) ->
   extract_indication_from_excel df
   = Raise (ValueError "Could not locate the Freeform table (2) in the Excel file.")).
Proof.
  intros Hcol.
  destruct (freeform_start_idx_spec df (List.length df) Hcol (le_n _))
    as [[Hnone Hall] | (idx & r & Hlt & Hf & Hr & Hbr & Hall)].
  - split.
    + intros (i & r & Hi & Hb). exfalso.
      assert (Hlt : (i < List.length df)%nat)
        by (apply nth_error_Some; congruence).
      rewrite (Hall i r Hlt Hi) in Hb. discriminate.
    + intros _. unfold extract_indication_from_excel. rewrite Hnone.
      reflexivity.
  - split.
    + intros _. exists idx, r. repeat split; auto.
      * intros j r' Hj Hjr. apply (Hall j); [|exact Hjr].
        split; [exact Hj|]. apply nth_error_Some. congruence.
      * unfold extract_indication_from_excel. rewrite Hf. simpl.
        replace (Z.of_nat idx + 1) with (Z.of_nat (S idx)) by lia.
        rewrite iloc_slice_to_end by lia. reflexivity.
    + intros Hno. rewrite (Hno idx r Hr) in Hbr. discriminate.
Qed.

Lemma C6_witness_two_banners :
  exists idx r,
    nth_error sheet_two_banners idx = Some r /\ banner_row r = true /\
    (forall j r', (idx < j)%nat -> nth_error sheet_two_banners j = Some r' ->
                  banner_row r' = false) /\
    freeform_start_idx sheet_two_banners (List.length sheet_two_banners)
    = Return (Some idx) /\
    extract_indication_from_excel sheet_two_banners
    = Return ("temp_extracted_table.xlsx", skipn (S idx) sheet_two_banners).
Proof.
  apply (C6_sentinel_search_last_occurrence sheet_two_banners).
  - repeat constructor; discriminate.
  - exists 1%nat, [Str BANNER]. split; reflexivity.
Defined.

(** The forward scan stops at the first blank row. *)
Lemma find_end_idx_blank pre r post e :
  forallb not_blank pre = true -> all_na r = true ->
  find_end_idx (pre ++ r :: post) e = (e + List.length pre)%nat.
Proof.
  revert e. induction pre as [|p pre IH]; intros e Hpre Hr; simpl.
  - rewrite Hr. lia.
  - simpl in Hpre. apply andb_true_iff in Hpre as [Hp Hpre].
    unfold not_blank in Hp. apply negb_true_iff in Hp. rewrite Hp.
    rewrite IH by assumption. lia.
Qed.

Lemma find_end_idx_no_blank rows e :
  forallb not_blank rows = true ->
  find_end_idx rows e = (e + List.length rows)%nat.
Proof.
  revert e. induction rows as [|p rows IH]; intros e Hrows; simpl.
  - lia.
  - simpl in Hrows. apply andb_true_iff in Hrows as [Hp Hrows].
    unfold not_blank in Hp. apply negb_true_iff in Hp. rewrite Hp.
    rewrite IH by assumption. lia.
Qed.

(** The until-blank-row extractor does what its comments say as long as
    [start_idx] is a row of the frame or the position right after it. *)
Lemma extract_until_blank_inside table_marker df start_idx :
  (start_idx <= List.length df)%nat ->
  (forall pre r post,
      skipn start_idx df = pre ++ r :: post ->
      forallb not_blank pre = true -> all_na r = true ->
      extract_until_blank table_marker df start_idx = Return pre) /\
  (forallb not_blank (skipn start_idx df) = true ->
   extract_until_blank table_marker df start_idx
   = Raise (ValueError
       ("Could not find the end of the table for " ++ table_marker
        ++ ". No blank row found after the start.")%string)).
Proof.
  intros Hstart. split.
  - intros pre r post Hsplit Hpre Hr. unfold extract_until_blank.
    rewrite Hsplit, (find_end_idx_blank _ _ _ _ Hpre Hr).
    assert (Hlen : List.length (skipn start_idx df)
                   = (List.length pre + S (List.length post))%nat)
      by (rewrite Hsplit, length_app; reflexivity).
    rewrite length_skipn in Hlen.
    destruct (Nat.eqb_spec (start_idx + List.length pre) (List.length df));
      [lia|].
    f_equal.
    replace (Z.of_nat (start_idx + List.length pre) - 1 + 1)
      with (Z.of_nat (start_idx + List.length pre)) by lia.
    rewrite iloc_slice_inside by lia. rewrite Hsplit.
    replace (start_idx + List.length pre - start_idx)%nat
      with (List.length pre) by lia.
    rewrite firstn_app, firstn_all, Nat.sub_diag. simpl.
    apply app_nil_r.
  - intros Hnb. unfold extract_until_blank.
    rewrite (find_end_idx_no_blank _ _ Hnb), length_skipn.
    replace (start_idx + (List.length df - start_idx))%nat
      with (List.length df) by lia.
    rewrite Nat.eqb_refl. reflexivity.
Qed.

(** C7, the defect: when the table marker is in the last row of the sheet,
    [start_idx] is [len(df) + 1], the test [end_idx == len(df)] of line 157
    is false, and an empty block is returned although no blank row follows
    the start. *)
Theorem C7_until_blank_marker_in_last_row :
  find_start_idx "Freeform table" sheet_marker_last 0 = Return 4%nat /\
  List.length sheet_marker_last = 3%nat /\
  forallb not_blank (skipn 4 sheet_marker_last) = true /\
  extract_until_blank "Freeform table" sheet_marker_last 4 = Return [] /\
  extract_monthly_from_excel sheet_marker_last "Freeform table"
  = Return ("temp_extracted_Freeform_table_table.xlsx", []).
Proof. repeat split; vm_compute; reflexivity. Qed.

End SheetSpec.

(* ================================================================= *)
(** ** Properties of the driver *)

Module DriverSpec.

Lemma seq_prints {A B} (lines : list string) (p : proc A) (k : A -> proc B) :
  seq (prints lines p) k = prints lines (seq p k).
Proof.
  induction lines as [|l lines IH]; simpl; [reflexivity|].
  f_equal. exact IH.
Qed.

Lemma try_with_prints {A B} (lines : list string) (p : proc A)
  (k : A -> proc B) (h : string -> proc B) :
  try_with (prints lines p) k h = prints lines (try_with p k h).
Proof.
  induction lines as [|l lines IH]; simpl; [reflexivity|].
  f_equal. exact IH.
Qed.

Lemma first_call_prints {A} (lines : list string) (p : proc A) :
  first_call (prints lines p) = first_call p.
Proof.
  induction lines as [|l lines IH]; simpl; [reflexivity | exact IH].
Qed.

Lemma has_column0_cons r df :
  has_column0 (r :: df) -> r <> [] /\ has_column0 df.
Proof.
  intros H. inversion H; subst. split; assumption.
Qed.

Lemma absent_cons p r df :
  absent p (r :: df) -> p r = false /\ absent p df.
Proof.
  unfold absent. intros H. split.
  - apply H. left. reflexivity.
  - intros r' Hr'. apply H. right. exact Hr'.
Qed.

(** [s.split(sep)] has a second piece when [s] starts with [sep]. *)
Lemma split_from_nonempty sep k cur s :
  exists x l, Str.split_from sep k cur s = x :: l.
Proof.
  revert k cur. induction s as [|c r IH]; intros k cur;
    cbn [Str.split_from]; [eauto|].
  destruct k; [|apply IH].
  destruct (prefix sep (String c r)); [eauto | apply IH].
Qed.

Lemma split_prefix sep s :
  sep <> EmptyString -> prefix sep s = true ->
  exists t, nth_error (Str.split sep s) 1 = Some t.
Proof.
  intros Hsep Hp. unfold Str.split. destruct s as [|c r].
  - destruct sep; [contradiction | discriminate].
  - cbn [Str.split_from]. rewrite Hp.
    destruct (split_from_nonempty sep (String.length sep - 1) EmptyString r)
      as (x & l & ->).
    exists x. reflexivity.
Qed.

(** The metadata search answers on every frame with a column 0. *)
Lemma find_marker_text_total marker df :
  marker <> EmptyString -> has_column0 df ->
  exists o, find_marker_text marker df = Return o.
Proof.
  intros Hm. induction df as [|r df IH]; intros Hcol;
    cbn [find_marker_text]; [eauto|].
  apply has_column0_cons in Hcol as [Hr Hcol].
  destruct r as [|c rest]; [contradiction|].
  change (nth_error (c :: rest) 0) with (Some c).
  destruct c as [s| | |]; try (apply IH; assumption).
  destruct (prefix marker s) eqn:Hp; [|apply IH; assumption].
  destruct (split_prefix marker s Hm Hp) as [t ->]. eauto.
Qed.

Lemma find_marker_text_absent marker df :
  has_column0 df -> absent (marker_row marker) df ->
  find_marker_text marker df = Return None.
Proof.
  induction df as [|r df IH]; intros Hcol Habs;
    cbn [find_marker_text]; [reflexivity|].
  apply has_column0_cons in Hcol as [Hr Hcol].
  apply absent_cons in Habs as [Hmr Habs].
  destruct r as [|c rest]; [contradiction|].
  change (nth_error (c :: rest) 0) with (Some c).
  destruct c as [s| | |]; try (apply IH; assumption).
  cbn [marker_row str_startswith] in Hmr. rewrite Hmr. apply IH; assumption.
Qed.

Lemma find_start_idx_absent table_marker rows i :
  has_column0 rows -> absent (table_marker_row table_marker) rows ->
  find_start_idx table_marker rows i
  = Raise (ValueError
      ("Could not find the start marker '# " ++ table_marker ++ "' or '# "
       ++ Str.replace " " EmptyString table_marker
       ++ "' in column A of the Excel file.")%string).
Proof.
  revert i. induction rows as [|r rows IH]; intros i Hcol Habs;
    [reflexivity|].
  apply has_column0_cons in Hcol as [Hr Hcol].
  apply absent_cons in Habs as [Hmr Habs].
  destruct r as [|c rest]; [contradiction|].
  cbn [find_start_idx nth_error]. cbn [table_marker_row] in Hmr. rewrite Hmr.
  apply IH; assumption.
Qed.

Lemma extract_lasttouch_absent df :
  has_column0 df -> absent banner_row df ->
  extract_lasttouch_from_excel df
  = Raise (ValueError "Could not locate the Freeform table (2) in the Excel file.").
Proof.
  intros Hcol Habs.
  unfold extract_lasttouch_from_excel, extract_indication_from_excel.
  destruct (SheetSpec.freeform_start_idx_spec df (List.length df) Hcol (le_n _))
    as [[-> _] | (idx & r & _ & _ & Hr & Hb & _)]; [reflexivity|].
  rewrite (Habs r) in Hb; [discriminate|].
  eapply nth_error_In; eauto.
Qed.

(** The three ways [find_brand_and_indication] ends. *)
Lemma find_brand_and_indication_cases df :
  has_column0 df ->
  (exists msg, find_brand_and_indication df = Throw (ValueError msg)) \/
  (exists line msg,
      find_brand_and_indication df = Print line (Throw (ValueError msg))) \/
  (exists line bi, find_brand_and_indication df = Print line (Ret bi)).
Proof.
  intros Hcol. unfold find_brand_and_indication.
  destruct (find_marker_text_total "# Report suite: " df) as [o ->];
    [discriminate | assumption |].
  simpl. destruct o as [suite|]; [|eauto].
  destruct (mapping_get suite); eauto 6.
Qed.

Lemma step1_identity_absent df :
  has_column0 df -> absent (marker_row "# Report suite: ") df ->
  step1 df
  = Print "Could not find the Adobe Analytics suite marker in the Excel file."
      (SysExit 1).
Proof.
  intros Hcol Habs. unfold step1, find_brand_and_indication.
  rewrite (find_marker_text_absent _ _ Hcol Habs). reflexivity.
Qed.

Lemma find_report_date_range_absent df :
  has_column0 df -> absent (marker_row "# Date: ") df ->
  find_report_date_range df
  = Throw (ValueError
      "Could not find the report date range marker in the Excel file.").
Proof.
  intros Hcol Habs. unfold find_report_date_range.
  rewrite (find_marker_text_absent _ _ Hcol Habs). reflexivity.
Qed.

Lemma step1_date_absent df :
  has_column0 df -> absent (marker_row "# Date: ") df ->
  exists lines, lines <> [] /\ step1 df = prints lines (SysExit 1).
Proof.
  intros Hcol Habs. unfold step1.
  rewrite (find_report_date_range_absent _ Hcol Habs).
  destruct (find_brand_and_indication_cases df Hcol)
    as [(msg & ->) | [(line & msg & ->) | (line & bi & ->)]]; simpl.
  - exists [msg]. split; [discriminate | reflexivity].
  - exists [line; msg]. split; [discriminate | reflexivity].
  - eexists [line; _]. split; [discriminate | reflexivity].
Qed.

Lemma main_aborts_with_step1 df lines :
  step1 df = prints lines (SysExit 1) -> main df = prints lines (SysExit 1).
Proof.
  intros H. unfold main. rewrite H, seq_prints. reflexivity.
Qed.

(** C8, as stated, fails: on a sheet with both metadata rows, a monthly
    table and no banner, the LASTTOUCH error is printed and the run goes on
    to write and transform the MONTHLY table. *)
Lemma C8_counterexample_missing_banner_continues :
  ~ (forall df, has_column0 df -> marker_missing df -> aborts (main df)).
Proof.
  intros H.
  destruct (H sheet_without_banner) as (lines & _ & Hmain).
  - repeat constructor; discriminate.
  - right. right. left. intros r Hr. simpl in Hr.
    repeat (destruct Hr as [<- | Hr]; [reflexivity|]). contradiction.
  - apply (f_equal first_call) in Hmain.
    rewrite first_call_prints in Hmain. vm_compute in Hmain. discriminate.
Qed.

(** C8, amended: when the report-suite marker or the date marker is absent
    the run prints a message and ends in [sys.exit(1)] without processing
    any sub-table.  When a table-start marker is absent the run is not
    aborted: a missing banner prints the LASTTOUCH error and the run goes
    on with the MONTHLY step; a missing "Freeform table" marker prints the
    MONTHLY error and the step returns to the clean-up. *)
Theorem C8_missing_marker_control_flow df :
  has_column0 df ->
  ((absent (marker_row "# Report suite: ") df \/
    absent (marker_row "# Date: ") df) -> aborts (main df)) /\
  (forall lines brand indication date_range,
      step1 df = prints lines (Ret (brand, indication, date_range)) ->
      (absent banner_row df ->
       main df
       = prints lines
           (Print "Error processing LASTTOUCH table: Could not locate the Freeform table (2) in the Excel file."
              (seq (step3 df brand indication date_range []) cleanup))) /\
      (forall temp_files,
          absent (table_marker_row "Freeform table") df ->
          step3 df brand indication date_range temp_files
          = Print "Error processing MONTHLY table: Could not find the start marker '# Freeform table' or '# Freeformtable' in column A of the Excel file."
              (Ret temp_files))).
Proof.
  intros Hcol. split.
  - intros [Habs | Habs].
    + exists ["Could not find the Adobe Analytics suite marker in the Excel file."].
      split; [discriminate|].
      apply main_aborts_with_step1, step1_identity_absent; assumption.
    + destruct (step1_date_absent df Hcol Habs) as (lines & Hne & Hs).
      exists lines. split; [exact Hne|].
      apply main_aborts_with_step1. exact Hs.
  - intros lines brand indication date_range Hs. split.
    + intros Habs. unfold main. rewrite Hs, seq_prints. f_equal.
      cbn [seq]. unfold step2, extracted.
      rewrite (extract_lasttouch_absent _ Hcol Habs). reflexivity.
    + intros temp_files Habs. unfold step3, extracted, extract_monthly_from_excel.
      rewrite (find_start_idx_absent _ _ _ Hcol Habs). reflexivity.
Qed.

Lemma C8_witness_missing_markers :
  aborts (main sheet_without_markers) /\
  main sheet_metadata_only
  = prints
      ["Found Adobe Analytics suite: www.sotyktu.com_US_US";
       "Found Adobe Analytics suite date range: 01012024-01312024";
       "Report Date Range: 01012024-01312024, Brand: Sotyktu, Indication: psoriasis";
       "Error processing LASTTOUCH table: Could not locate the Freeform table (2) in the Excel file.";
       "Error processing MONTHLY table: Could not find the start marker '# Freeform table' or '# Freeformtable' in column A of the Excel file."]
      (Ret tt).
Proof.
  split.
  - apply (C8_missing_marker_control_flow sheet_without_markers).
    + repeat constructor; discriminate.
    + left. intros r Hr. simpl in Hr.
      repeat (destruct Hr as [<- | Hr]; [reflexivity|]). contradiction.
  - assert (Hcol : has_column0 sheet_metadata_only)
      by (repeat constructor; discriminate).
    assert (Habs : forall p, (forall r, In r sheet_metadata_only -> p r = false)
                             -> absent p sheet_metadata_only)
      by (intros p Hp; exact Hp).
    destruct (C8_missing_marker_control_flow sheet_metadata_only Hcol)
      as [_ Hgo].
    destruct (Hgo
      ["Found Adobe Analytics suite: www.sotyktu.com_US_US";
       "Found Adobe Analytics suite date range: 01012024-01312024";
       "Report Date Range: 01012024-01312024, Brand: Sotyktu, Indication: psoriasis"]
      "Sotyktu" "psoriasis" "01012024-01312024" eq_refl) as [Hlast Hmonthly].
    rewrite Hlast.
    + rewrite Hmonthly; [reflexivity|].
      intros r Hr. simpl in Hr.
      repeat (destruct Hr as [<- | Hr]; [reflexivity|]). contradiction.
    + intros r Hr. simpl in Hr.
      repeat (destruct Hr as [<- | Hr]; [reflexivity|]). contradiction.
Defined.

End DriverSpec.

(* ================================================================= *)
(** ** Properties of the end of the reshape pipelines *)

Module ReshapeSpec.

Lemma keeps_trans numeric f g h :
  keeps numeric f g -> keeps numeric g h -> keeps numeric f h.
Proof.
  intros [Hl1 H1] [Hl2 H2]. split; [congruence|].
  intros r Hr. destruct (H2 r Hr) as (r1 & Hr1 & Hc1).
  destruct (H1 r1 Hr1) as (r0 & Hr0 & Hc0).
  exists r0. split; [exact Hr0|]. intros c v0 Hc Hv. eauto.
Qed.

Lemma keeps_fills numeric f g h :
  keeps numeric f g -> fills numeric g h -> fills numeric f h.
Proof.
  intros [Hl1 H1] [Hl2 H2]. split; [congruence|].
  intros r Hr. destruct (H2 r Hr) as (r1 & Hr1 & Hc1).
  destruct (H1 r1 Hr1) as (r0 & Hr0 & Hc0).
  exists r0. split; [exact Hr0|]. intros c v0 Hc Hv. eauto.
Qed.

Lemma fills_keeps numeric f g h :
  fills numeric f g -> keeps numeric g h -> fills numeric f h.
Proof.
  intros [Hl1 H1] [Hl2 H2]. split; [congruence|].
  intros r Hr. destruct (H2 r Hr) as (r1 & Hr1 & Hc1).
  destruct (H1 r1 Hr1) as (r0 & Hr0 & Hc0).
  exists r0. split; [exact Hr0|]. intros c v0 Hc Hv. eauto.
Qed.

Lemma isna_fill0 v : isna (fill0 v) = false.
Proof. destruct v; reflexivity. Qed.

Lemma get_loc_Some c names i :
  get_loc c names = Some i -> nth_error names i = Some c.
Proof.
  revert i. induction names as [|x names IH]; intros i; simpl; [discriminate|].
  destruct (String.eqb_spec x c) as [->|Hne].
  - intros [= <-]. reflexivity.
  - destruct (get_loc c names) as [j|]; [|discriminate].
    intros [= <-]. simpl. apply IH. reflexivity.
Qed.

Lemma get_loc_In c names : In c names -> exists i, get_loc c names = Some i.
Proof.
  induction names as [|x names IH]; simpl; [contradiction|].
  intros Hin. destruct (String.eqb_spec x c) as [->|Hne]; [eauto|].
  destruct Hin as [->|Hin]; [contradiction|].
  destruct (IH Hin) as [i ->]. simpl. eauto.
Qed.

Lemma get_loc_lt c names i :
  get_loc c names = Some i -> (i < List.length names)%nat.
Proof.
  intros H. apply get_loc_Some in H. apply nth_error_Some. congruence.
Qed.

(** Every requested column is found, at its position. *)
Lemma locs_spec cols names l :
  locs cols names = Return l ->
  List.length l = List.length cols /\
  forall c k, get_loc c cols = Some k ->
              exists i, nth_error l k = Some i /\ get_loc c names = Some i.
Proof.
  revert l. induction cols as [|x cols IH]; intros l; simpl.
  - intros [= <-]. split; [reflexivity | discriminate].
  - destruct (get_loc x names) as [i|] eqn:Hx; [|discriminate].
    destruct (locs cols names) as [l'| |]; simpl; try discriminate.
    intros [= <-]. destruct (IH l' eq_refl) as [Hlen Hall].
    split; [simpl; congruence|].
    intros c k. destruct (String.eqb_spec x c) as [->|Hne].
    + intros [= <-]. exists i. split; [reflexivity | exact Hx].
    + destruct (get_loc c cols) as [j|] eqn:Hc; [|discriminate].
      intros [= <-]. simpl. apply Hall. exact Hc.
Qed.

Lemma locs_In cols names l c :
  locs cols names = Return l -> In c cols -> In c names.
Proof.
  intros Hl Hc. destruct (get_loc_In _ _ Hc) as [k Hk].
  destruct (locs_spec _ _ _ Hl) as [_ Hall].
  destruct (Hall c k Hk) as (i & _ & Hi).
  apply get_loc_Some in Hi. eapply nth_error_In; eauto.
Qed.

Lemma select_keeps numeric cols f g :
  select cols f = Return g ->
  (forall c, In c numeric -> In c cols) ->
  keeps numeric f g /\ well_shaped g /\ columns g = cols.
Proof.
  unfold select. destruct (locs cols (columns f)) as [l| |] eqn:Hl; simpl;
    try discriminate.
  intros [= <-]. intros Hsub.
  destruct (locs_spec _ _ _ Hl) as [Hlen Hall].
  split; [|split].
  - split; [simpl; apply length_map|].
    intros r Hr. simpl in Hr. apply in_map_iff in Hr as (r0 & <- & Hr0).
    exists r0. split; [exact Hr0|].
    intros c v0 Hc Hv. unfold at_ in *. simpl.
    destruct (get_loc_In _ _ (Hsub c Hc)) as [k Hk]. rewrite Hk.
    destruct (Hall c k Hk) as (i & Hi & Hloc). rewrite Hloc in Hv.
    rewrite nth_error_map, Hi. simpl. f_equal.
    apply nth_error_nth. exact Hv.
  - unfold well_shaped. simpl. apply Forall_forall.
    intros r Hr. apply in_map_iff in Hr as (r0 & <- & _).
    rewrite length_map. exact Hlen.
  - reflexivity.
Qed.

Lemma fill_row_length numeric names r :
  List.length (fill_row numeric names r) = List.length r.
Proof.
  revert r. induction names as [|n names IH]; intros [|v r]; simpl; auto.
Qed.

Lemma mem_In c l : In c l -> mem c l = true.
Proof.
  intros H. unfold mem. apply existsb_exists. exists c.
  split; [exact H | apply String.eqb_refl].
Qed.

Lemma fill_row_at numeric names r c v0 :
  In c numeric -> at_ names r c = Some v0 ->
  at_ names (fill_row numeric names r) c = Some (fill0 v0).
Proof.
  intros Hc. unfold at_. revert r.
  induction names as [|n names IH]; intros r; simpl; [discriminate|].
  destruct (String.eqb_spec n c) as [->|Hne].
  - destruct r as [|v r]; simpl; [discriminate|].
    intros [= ->]. rewrite (mem_In _ _ Hc). reflexivity.
  - destruct (get_loc c names) as [j|]; simpl; [|discriminate].
    destruct r as [|v r]; simpl; [discriminate|]. apply IH.
Qed.

Lemma fillna_columns_fills numeric f g :
  fillna_columns numeric f = Return g ->
  fills numeric f g /\ columns g = columns f /\
  (well_shaped f -> well_shaped g).
Proof.
  unfold fillna_columns.
  destruct (locs numeric (columns f)) as [l| |]; simpl; try discriminate.
  intros [= <-]. split; [|split].
  - split; [simpl; apply length_map|].
    intros r Hr. simpl in Hr. apply in_map_iff in Hr as (r0 & <- & Hr0).
    exists r0. split; [exact Hr0|]. intros c v0 Hc Hv. simpl.
    apply fill_row_at; assumption.
  - reflexivity.
  - unfold well_shaped. simpl. rewrite !Forall_forall.
    intros Hw r Hr. apply in_map_iff in Hr as (r0 & <- & Hr0).
    rewrite fill_row_length. apply Hw. exact Hr0.
Qed.

Lemma set_nth_length i v r : List.length (set_nth i v r) = List.length r.
Proof.
  revert i. induction r as [|x r IH]; intros [|i]; simpl; auto.
Qed.

Lemma set_nth_other i j v r :
  i <> j -> nth_error (set_nth i v r) j = nth_error r j.
Proof.
  revert i j. induction r as [|x r IH]; intros [|i] [|j] Hne; simpl; auto.
  contradiction.
Qed.

Lemma at_set_nth names name i v r c :
  get_loc name names = Some i -> c <> name ->
  at_ names (set_nth i v r) c = at_ names r c.
Proof.
  intros Hi Hne. unfold at_.
  destruct (get_loc c names) as [j|] eqn:Hj; [|reflexivity].
  apply set_nth_other. intros ->.
  apply get_loc_Some in Hi, Hj. congruence.
Qed.

Lemma at_app names name v r c :
  List.length r = List.length names -> c <> name ->
  at_ (names ++ [name]) (r ++ [v]) c = at_ names r c.
Proof.
  intros Hlen Hne. unfold at_.
  assert (Hloc : get_loc c (names ++ [name]) = get_loc c names).
  { clear Hlen. induction names as [|x names IH]; simpl.
    - destruct (String.eqb_spec name c); [congruence | reflexivity].
    - destruct (String.eqb x c); [reflexivity|]. rewrite IH. reflexivity. }
  rewrite Hloc. destruct (get_loc c names) as [j|] eqn:Hj; [|reflexivity].
  apply nth_error_app1. rewrite Hlen. eapply get_loc_lt; eauto.
Qed.

Lemma assign_keeps numeric name v f :
  well_shaped f -> ~ In name numeric ->
  keeps numeric f (assign name v f) /\ well_shaped (assign name v f).
Proof.
  intros Hw Hname. unfold well_shaped in Hw. rewrite Forall_forall in Hw.
  unfold assign. destruct (get_loc name (columns f)) as [i|] eqn:Hi.
  - split.
    + split; [simpl; apply length_map|].
      intros r Hr. simpl in Hr. apply in_map_iff in Hr as (r0 & <- & Hr0).
      exists r0. split; [exact Hr0|]. intros c v0 Hc Hv. simpl.
      rewrite (at_set_nth _ name); [exact Hv | exact Hi | congruence].
    + unfold well_shaped. simpl. apply Forall_forall.
      intros r Hr. apply in_map_iff in Hr as (r0 & <- & Hr0).
      rewrite set_nth_length. apply Hw. exact Hr0.
  - split.
    + split; [simpl; apply length_map|].
      intros r Hr. simpl in Hr. apply in_map_iff in Hr as (r0 & <- & Hr0).
      exists r0. split; [exact Hr0|]. intros c v0 Hc Hv. simpl.
      rewrite at_app; [exact Hv | apply Hw; exact Hr0 | congruence].
    + unfold well_shaped. simpl. apply Forall_forall.
      intros r Hr. apply in_map_iff in Hr as (r0 & <- & Hr0).
      rewrite !length_app. simpl. rewrite (Hw r0 Hr0). reflexivity.
Qed.

Section Pandas.

Variable sort_values : list string -> Frame -> outcome Frame.
Variable to_datetime : list cell -> outcome (list cell).

(** [sort_values] returns the frame with its rows reordered. *)
Hypothesis sort_values_permutes :
  forall keys f g, sort_values keys f = Return g ->
    columns g = columns f /\ Permutation (rows f) (rows g).

(** [to_datetime] converts value by value. *)
Hypothesis to_datetime_length :
  forall l l', to_datetime l = Return l' -> List.length l' = List.length l.

Lemma sort_values_keeps numeric keys f g :
  sort_values keys f = Return g ->
  keeps numeric f g /\ columns g = columns f /\
  (well_shaped f -> well_shaped g).
Proof.
  intros H. destruct (sort_values_permutes _ _ _ H) as [Hcols Hperm].
  split; [|split].
  - split; [symmetry; apply Permutation_length; exact Hperm|].
    intros r Hr. exists r. split.
    + eapply Permutation_in; [apply Permutation_sym; exact Hperm | exact Hr].
    + intros c v0 _ Hv. rewrite Hcols. exact Hv.
  - exact Hcols.
  - unfold well_shaped. rewrite Hcols, !Forall_forall.
    intros Hw r Hr. apply Hw.
    eapply Permutation_in; [apply Permutation_sym; exact Hperm | exact Hr].
Qed.

Lemma convert_column_keeps numeric name f g :
  convert_column to_datetime name f = Return g -> ~ In name numeric ->
  keeps numeric f g /\ columns g = columns f /\
  (well_shaped f -> well_shaped g).
Proof.
  unfold convert_column.
  destruct (get_loc name (columns f)) as [i|] eqn:Hi; [|discriminate].
  destruct (to_datetime _) as [new| |] eqn:Hnew; simpl; try discriminate.
  intros [= <-] Hname.
  apply to_datetime_length in Hnew. rewrite length_map in Hnew.
  split; [|split].
  - split.
    + simpl. rewrite length_map, length_combine, Hnew. apply Nat.min_id.
    + intros r Hr. simpl in Hr.
      apply in_map_iff in Hr as ([r0 v] & <- & Hr0).
      apply in_combine_l in Hr0.
      exists r0. split; [exact Hr0|]. intros c v0 Hc Hv. simpl.
      rewrite (at_set_nth _ name); [exact Hv | exact Hi | congruence].
  - reflexivity.
  - unfold well_shaped. simpl. rewrite !Forall_forall.
    intros Hw r Hr. apply in_map_iff in Hr as ([r0 v] & <- & Hr0).
    apply in_combine_l in Hr0. simpl. rewrite set_nth_length.
    apply Hw. exact Hr0.
Qed.

(** What [fills] gives once the columns are known to exist. *)
Lemma fills_filled numeric f g :
  well_shaped f -> (forall c, In c numeric -> In c (columns f)) ->
  fills numeric f g -> filled numeric f g.
Proof.
  intros Hw Hcols [Hlen H]. split; [exact Hlen|].
  intros r Hr. destruct (H r Hr) as (r0 & Hr0 & Hc0).
  exists r0. split; [exact Hr0|]. intros c Hc.
  destruct (get_loc_In _ _ (Hcols c Hc)) as [i Hi].
  unfold well_shaped in Hw. rewrite Forall_forall in Hw.
  assert (Hlt : (i < List.length r0)%nat)
    by (rewrite (Hw r0 Hr0); eapply get_loc_lt; eauto).
  destruct (nth_error r0 i) as [v0|] eqn:Hv0.
  2:{ apply nth_error_None in Hv0. lia. }
  assert (Hat : at_ (columns f) r0 c = Some v0)
    by (unfold at_; rewrite Hi; exact Hv0).
  exists v0. repeat split; [exact Hat | apply Hc0; assumption | apply isna_fill0].
Qed.

(** The scroll and the last-touch pipelines are the same steps on
    different names. *)
Lemma dated_pipeline_fills names order keys numeric month_column
      pivoted brand indication out :
  well_shaped pivoted ->
  (forall c, In c numeric -> In c order) ->
  ~ In month_column numeric -> ~ In "BRAND" numeric ->
  ~ In "INDICATION" numeric ->
  (df1 <- select order (rename names pivoted) ;;
   df2 <- sort_values keys df1 ;;
   df3 <- fillna_columns numeric df2 ;;
   df4 <- convert_column to_datetime month_column df3 ;;
   Return (assign "INDICATION" (Str indication)
             (assign "BRAND" (Str brand) df4))) = Return out ->
  filled numeric (rename names pivoted) out.
Proof.
  intros Hw Hsub Hn4 Hn5 Hn6.
  set (f0 := rename names pivoted).
  assert (Hw0 : well_shaped f0).
  { unfold f0, rename, well_shaped in *. simpl. rewrite length_map. exact Hw. }
  destruct (select order f0) as [f1| |] eqn:H1; simpl; try discriminate.
  destruct (sort_values keys f1) as [f2| |] eqn:H2; simpl; try discriminate.
  destruct (fillna_columns numeric f2) as [f3| |] eqn:H3; simpl;
    try discriminate.
  destruct (convert_column to_datetime month_column f3) as [f4| |] eqn:H4;
    simpl; try discriminate.
  intros [= <-].
  assert (Hcols : forall c, In c numeric -> In c (columns f0)).
  { intros c Hc. unfold select in H1.
    destruct (locs order (columns f0)) as [l| |] eqn:Hl; try discriminate.
    eapply locs_In; eauto. }
  destruct (select_keeps numeric _ _ _ H1 Hsub) as (K1 & W1 & _).
  destruct (sort_values_keeps numeric _ _ _ H2) as (K2 & _ & W2).
  destruct (fillna_columns_fills _ _ _ H3) as (K3 & _ & W3).
  destruct (convert_column_keeps numeric _ _ _ H4 Hn4) as (K4 & _ & W4).
  pose proof (W4 (W3 (W2 W1))) as W4'.
  destruct (assign_keeps numeric "BRAND" (Str brand) f4 W4' Hn5) as (K5 & W5).
  destruct (assign_keeps numeric "INDICATION" (Str indication) _ W5 Hn6)
    as (K6 & _).
  apply fills_filled; [exact Hw0 | exact Hcols |].
  eapply fills_keeps; [|exact K6].
  eapply fills_keeps; [|exact K5].
  eapply fills_keeps; [|exact K4].
  eapply keeps_fills; [|exact K3].
  eapply keeps_trans; [exact K1 | exact K2].
Qed.

Ltac not_in_list :=
  let H := fresh "H" in
  intros H; simpl in H; repeat (destruct H as [H|H]; [discriminate|]);
  exact H.

Ltac sublist :=
  let c := fresh "c" in let H := fresh "H" in
  intros c H; simpl in H; simpl; intuition.

Lemma transform_scroll_final_fills pivoted brand indication out :
  well_shaped pivoted ->
  transform_scroll_final sort_values to_datetime pivoted brand indication
  = Return out ->
  filled scroll_numeric (rename scroll_names pivoted) out.
Proof.
  intros Hw Hout.
  apply (dated_pipeline_fills scroll_names scroll_order
           ["PAGE"; "ACTIVITY MONTH"] scroll_numeric "ACTIVITY MONTH"
           pivoted brand indication out Hw);
    [sublist | not_in_list | not_in_list | not_in_list | exact Hout].
Qed.

Lemma transform_lasttouch_final_fills pivoted brand indication out :
  well_shaped pivoted ->
  transform_lasttouch_final sort_values to_datetime pivoted brand indication
  = Return out ->
  filled lasttouch_numeric (rename lasttouch_names pivoted) out.
Proof.
  intros Hw Hout.
  apply (dated_pipeline_fills lasttouch_names lasttouch_order
           ["LAST TOUCH CHANNEL"; "ACTIVITY MONTH"] lasttouch_numeric
           "ACTIVITY MONTH" pivoted brand indication out Hw);
    [sublist | not_in_list | not_in_list | not_in_list | exact Hout].
Qed.

Lemma transform_indication_final_fills pivoted brand date_range out :
  well_shaped pivoted ->
  transform_indication_final sort_values pivoted brand date_range = Return out ->
  filled indication_numeric (rename indication_names pivoted) out.
Proof.
  intros Hw. unfold transform_indication_final.
  set (f0 := rename indication_names pivoted).
  assert (Hw0 : well_shaped f0).
  { unfold f0, rename, well_shaped in *. simpl. rewrite length_map. exact Hw. }
  destruct (select indication_order f0) as [f1| |] eqn:H1; simpl;
    try discriminate.
  destruct (sort_values _ f1) as [f2| |] eqn:H2; simpl; try discriminate.
  destruct (Str.split "-" date_range) as [|s [|e [|x l]]]; try discriminate.
  destruct (strptime_mdY s) as [start_date| |]; simpl; try discriminate.
  destruct (strptime_mdY e) as [end_date| |]; simpl; try discriminate.
  intros H6.
  assert (Hsub : forall c, In c indication_numeric -> In c indication_order)
    by sublist.
  assert (Hcols : forall c, In c indication_numeric -> In c (columns f0)).
  { intros c Hc. unfold select in H1.
    destruct (locs indication_order (columns f0)) as [l| |] eqn:Hl;
      try discriminate.
    eapply locs_In; eauto. }
  destruct (select_keeps indication_numeric _ _ _ H1 Hsub) as (K1 & W1 & _).
  destruct (sort_values_keeps indication_numeric _ _ _ H2) as (K2 & _ & W2).
  assert (Hn3 : ~ In "BRAND" indication_numeric) by not_in_list.
  assert (Hn4 : ~ In "ACTIVITY START MONTH" indication_numeric) by not_in_list.
  assert (Hn5 : ~ In "ACTIVITY END MONTH" indication_numeric) by not_in_list.
  destruct (assign_keeps indication_numeric "BRAND" (Str brand) f2 (W2 W1) Hn3)
    as (K3 & W3).
  destruct (assign_keeps indication_numeric "ACTIVITY START MONTH"
              (Stamp start_date) _ W3 Hn4) as (K4 & W4).
  destruct (assign_keeps indication_numeric "ACTIVITY END MONTH"
              (Stamp end_date) _ W4 Hn5) as (K5 & _).
  destruct (fillna_columns_fills _ _ _ H6) as (K6 & _ & _).
  apply fills_filled; [exact Hw0 | exact Hcols |].
  eapply keeps_fills; [|exact K6].
  eapply keeps_trans; [|exact K5].
  eapply keeps_trans; [|exact K4].
  eapply keeps_trans; [|exact K3].
  eapply keeps_trans; [exact K1 | exact K2].
Qed.

(** C9: in every output table of the scroll, the last-touch and the
    indication pipeline, each numeric metric column of each row holds a
    value: the output has one row per row of the pivoted table, and its
    cell in a numeric column is the cell of the pivoted table, with 0 in
    place of the missing value that the pivot leaves for a combination
    absent from the source data. *)
Theorem C9_numeric_columns_filled pivoted brand indication date_range :
  well_shaped pivoted ->
  (distinct_labels (rename scroll_names pivoted) ->
   forall out,
     transform_scroll_final sort_values to_datetime pivoted brand indication
     = Return out ->
     filled scroll_numeric (rename scroll_names pivoted) out) /\
  (distinct_labels (rename lasttouch_names pivoted) ->
   forall out,
     transform_lasttouch_final sort_values to_datetime pivoted brand
       indication = Return out ->
     filled lasttouch_numeric (rename lasttouch_names pivoted) out) /\
  (distinct_labels (rename indication_names pivoted) ->
   forall out,
     transform_indication_final sort_values pivoted brand date_range
     = Return out ->
     filled indication_numeric (rename indication_names pivoted) out).
Proof.
  intros Hw. split; [|split]; intros _ out Hout.
  - eapply transform_scroll_final_fills; eauto.
  - eapply transform_lasttouch_final_fills; eauto.
  - eapply transform_indication_final_fills; eauto.
Qed.

End Pandas.

Lemma reverse_rows_permutes keys f g :
  reverse_rows keys f = Return g ->
  columns g = columns f /\ Permutation (rows f) (rows g).
Proof.
  intros [= <-]. split; [reflexivity | apply Permutation_rev].
Qed.

Lemma keep_values_length l l' :
  keep_values l = Return l' -> List.length l' = List.length l.
Proof. intros [= <-]. reflexivity. Qed.

Ltac distinct :=
  repeat constructor; simpl; intuition discriminate.

Lemma C9_witness_missing_values_become_zero :
  filled scroll_numeric (rename scroll_names pivoted_scroll) scroll_output /\
  filled lasttouch_numeric (rename lasttouch_names pivoted_lasttouch)
    lasttouch_output /\
  filled indication_numeric (rename indication_names pivoted_indication)
    indication_output.
Proof.
  split; [|split].
  - apply (C9_numeric_columns_filled reverse_rows keep_values
             reverse_rows_permutes keep_values_length
             pivoted_scroll "Sotyktu" "psoriasis" "01012024-01312024").
    + repeat constructor.
    + distinct.
    + reflexivity.
  - apply (C9_numeric_columns_filled reverse_rows keep_values
             reverse_rows_permutes keep_values_length
             pivoted_lasttouch "Sotyktu" "psoriasis" "01012024-01312024").
    + repeat constructor.
    + distinct.
    + reflexivity.
  - apply (C9_numeric_columns_filled reverse_rows keep_values
             reverse_rows_permutes keep_values_length
             pivoted_indication "Sotyktu" "psoriasis" "01012024-01312024").
    + repeat constructor.
    + distinct.
    + reflexivity.
Defined.

End ReshapeSpec.

(* ================================================================= *)
(** ** Further properties of the period validator *)

Module PeriodMore.

(** [date.toordinal] follows the order of the dates. *)
Lemma days_before_month_step y m dim :
  days_in_month y m = Return dim -> m < 12 ->
  days_before_month y (m + 1) = days_before_month y m + dim.
Proof.
  intros Hdim Hlt. destruct (days_in_month_inv _ _ _ Hdim) as [Hm _].
  unfold days_in_month in Hdim.
  replace ((1 <=? m) && (m <=? 12)) with true in Hdim
    by (symmetry; apply andb_true_iff; split; apply Z.leb_le; lia).
  injection Hdim as <-. unfold days_before_month.
  assert (Hc : m = 1 \/ m = 2 \/ m = 3 \/ m = 4 \/ m = 5 \/ m = 6 \/ m = 7
               \/ m = 8 \/ m = 9 \/ m = 10 \/ m = 11) by lia.
  repeat (destruct Hc as [-> | Hc]); try subst m; simpl;
    destruct (is_leap_year y); simpl; lia.
Qed.

Lemma days_before_month_mono y m m' :
  1 <= m -> m <= m' -> m' <= 12 ->
  days_before_month y m <= days_before_month y m'.
Proof.
  intros H1 H2 H3.
  replace m' with (m + Z.of_nat (Z.to_nat (m' - m))) in * by lia.
  induction (Z.to_nat (m' - m)) as [|k IH]; [rewrite Z.add_0_r; lia|].
  assert (Hk : m + Z.of_nat k < 12) by lia.
  specialize (IH ltac:(lia) ltac:(lia)).
  destruct (days_in_month_total y (m + Z.of_nat k) ltac:(lia)) as [dim Hdim].
  pose proof (days_before_month_step _ _ _ Hdim Hk) as Hstep.
  destruct (days_in_month_inv _ _ _ Hdim) as [_ Hr].
  replace (m + Z.of_nat (S k)) with (m + Z.of_nat k + 1) by lia. lia.
Qed.

Lemma toordinal_mono a b :
  valid a -> valid b -> lex_le a b -> toordinal a <= toordinal b.
Proof.
  intros Ha Hb Hle.
  destruct (valid_inv _ Ha) as (Hya & Hma & dima & Hdima & Hda).
  destruct (valid_inv _ Hb) as (Hyb & Hmb & dimb & Hdimb & Hdb).
  destruct Hle as [Hy | [Hy [Hm | [Hm Hd]]]].
  - pose proof (toordinal_bounds _ Ha) as [_ Hua].
    pose proof (toordinal_bounds _ Hb) as [Hlb _].
    pose proof (days_before_year_mono (year a + 1) (year b) ltac:(lia)). lia.
  - unfold toordinal. rewrite Hy.
    assert (Hlt : month a < 12) by lia.
    rewrite Hy in Hdima.
    pose proof (days_before_month_step _ _ _ Hdima Hlt) as Hstep.
    pose proof (days_before_month_mono (year b) (month a + 1) (month b)
                  ltac:(lia) ltac:(lia) ltac:(lia)). lia.
  - unfold toordinal. rewrite Hy, Hm. lia.
Qed.

(** From any day of year 9999 the walk towards 9999-12-31 ends in the
    overflow of [9999-12-31 + timedelta(days=1)]. *)
Lemma walk_overflows fuel current count :
  valid current -> year current = 9999 ->
  (Z.to_nat (12 - month current + 1) < fuel)%nat ->
  walk fuel current (mkdate 9999 12 31) count
  = Raise (OverflowError "date value out of range").
Proof.
  revert current count.
  induction fuel as [|fuel IH]; intros current count Hc Hy Hfuel; [lia|].
  destruct (valid_inv _ Hc) as (_ & Hm & dim & Hdim & Hd).
  destruct (days_in_month_inv _ _ _ Hdim) as [_ Hr].
  rewrite (walk_step _ _ _ _ dim Hc Hdim).
  assert (Hle : leb current (mkdate 9999 12 31) = true).
  { apply leb_true. unfold lex_le. simpl. lia. }
  assert (Hle' : leb (month_end_of current dim) (mkdate 9999 12 31) = true).
  { apply leb_true. unfold lex_le, month_end_of. simpl.
    destruct (Z.eq_dec (month current) 12) as [E|]; [|lia].
    rewrite Hy, E in Hdim. injection Hdim as <-. lia. }
  rewrite Hle, Hle'. unfold next_month_start, MAXYEAR. rewrite Hy.
  destruct (Z.ltb_spec (month current) 12); [|reflexivity].
  cbn [bind]. apply IH.
  - apply first_of_month_valid; lia.
  - reflexivity.
  - cbn [month]. lia.
Qed.

(** X1: When the validator raises: [check_full_period] always answers with a
    boolean, except that a range that starts in year 9999 and ends on
    12/31/9999 raises [OverflowError], because the walk steps past the last
    [datetime]. *)
Theorem check_full_period_overflow s e start end_ :
  strptime_mdY s = Return start -> strptime_mdY e = Return end_ ->
  (year start = 9999 /\ end_ = mkdate 9999 12 31 ->
   check_full_period s e = Raise (OverflowError "date value out of range")) /\
  (~ (year start = 9999 /\ end_ = mkdate 9999 12 31) ->
   exists b, check_full_period s e = Return b).
Proof.
  intros Hs He.
  pose proof (strptime_mdY_valid _ _ Hs) as Hvs.
  pose proof (strptime_mdY_valid _ _ He) as Hve.
  rewrite (PeriodSpec.check_full_period_parsed _ _ _ _ Hs He). split.
  - intros [Hy ->]. unfold check_full_period_dt. cbn [year]. rewrite Hy.
    rewrite Z.eqb_refl. cbn [negb]. unfold full_months.
    destruct (valid_inv _ Hvs) as (_ & Hm & _).
    rewrite walk_overflows; [reflexivity | exact Hvs | exact Hy |].
    unfold walk_fuel, month_index. cbn [year month]. rewrite Hy. lia.
  - intros Hno.
    destruct (PeriodSpec.check_full_period_dt_cases start end_) as [H | H];
      [eauto|].
    destruct (walk_total (walk_fuel start end_) start end_ 0 Hvs Hve)
      as [(c & n & Hw) | [_ ->]]; [unfold walk_fuel; lia | |].
    + rewrite H. unfold full_months. rewrite Hw. simpl. eauto.
    + exists true. apply PeriodSpec.day_count_branch_true.
      apply PeriodSpec.day_count_to_max; [exact Hvs | tauto].
Qed.

Lemma check_full_period_overflow_witness :
  check_full_period "06159999" "12319999"
  = Raise (OverflowError "date value out of range") /\
  exists b, check_full_period "06152024" "12312024" = Return b.
Proof.
  split.
  - apply (check_full_period_overflow "06159999" "12319999"
             (mkdate 9999 6 15) (mkdate 9999 12 31) eq_refl eq_refl).
    split; reflexivity.
  - apply (check_full_period_overflow "06152024" "12312024"
             (mkdate 2024 6 15) (mkdate 2024 12 31) eq_refl eq_refl).
    intros [Hy _]. discriminate.
Defined.

(** X2: The validator on a range in calendar order: it answers [true] exactly
    when [end] is the last day of its month or the day-count test of
    line 25 applies; the day of [start] is never looked at by the month
    walk. *)
Theorem check_full_period_forward s e start end_ :
  strptime_mdY s = Return start -> strptime_mdY e = Return end_ ->
  leb start end_ = true ->
  ~ (year start = 9999 /\ end_ = mkdate 9999 12 31) ->
  exists b, check_full_period s e = Return b /\
            (b = true <-> is_last_day end_ \/ day_count_branch start end_).
Proof.
  intros Hs He Hle Hmax.
  pose proof (strptime_mdY_valid _ _ Hs) as Hvs.
  pose proof (strptime_mdY_valid _ _ He) as Hve.
  rewrite (PeriodSpec.check_full_period_parsed _ _ _ _ Hs He).
  destruct (PeriodSpec.classic_day_count start end_) as [Hdc | Hdc].
  { exists true. split; [apply PeriodSpec.day_count_branch_true; exact Hdc|].
    tauto. }
  destruct (PeriodSpec.classic_last_day end_) as [Hlast | Hlast].
  - exists true. split; [|tauto].
    destruct (PeriodSpec.check_full_period_dt_cases start end_) as [H | H];
      [exact H|].
    rewrite H. apply PeriodSpec.full_months_aligned; auto.
    intros [Ey Em]. apply Hdc.
    assert (Hend : end_ = mkdate 9999 12 31).
    { unfold is_last_day in Hlast. rewrite Ey, Em in Hlast.
      injection Hlast as Hd. destruct end_ as [ye me de]. simpl in *.
      congruence. }
    subst end_. apply PeriodSpec.day_count_to_max; [exact Hvs | tauto].
  - exists false. split.
    + rewrite (PeriodSpec.check_full_period_dt_walks _ _ Hdc Hlast Hve).
      apply PeriodSpec.full_months_false; assumption.
    + split; [discriminate | tauto].
Qed.

Lemma check_full_period_forward_witness :
  exists b, check_full_period "01152024" "02292024" = Return b /\
            (b = true <->
             is_last_day (mkdate 2024 2 29) \/
             day_count_branch (mkdate 2024 1 15) (mkdate 2024 2 29)).
Proof.
  apply (check_full_period_forward "01152024" "02292024"
           (mkdate 2024 1 15) (mkdate 2024 2 29) eq_refl eq_refl eq_refl).
  intros [Hy _]. discriminate.
Defined.

(** X3: The validator on a reversed range, [start] after [end]: it answers
    [true] exactly when [start] is a 1 January and [end] a 31 December;
    every other reversed range is refused. *)
Theorem check_full_period_reversed s e start end_ :
  strptime_mdY s = Return start -> strptime_mdY e = Return end_ ->
  gtb start end_ = true ->
  exists b, check_full_period s e = Return b /\
            (b = true <->
             month start = 1 /\ day start = 1 /\
             month end_ = 12 /\ day end_ = 31).
Proof.
  intros Hs He Hgt.
  pose proof (strptime_mdY_valid _ _ Hs) as Hvs.
  pose proof (strptime_mdY_valid _ _ He) as Hve.
  rewrite (PeriodSpec.check_full_period_parsed _ _ _ _ Hs He).
  assert (Hord : toordinal end_ <= toordinal start).
  { apply toordinal_mono; auto. apply gtb_true in Hgt.
    unfold lex_le in *. lia. }
  assert (Hwalk : full_months start end_ = Return false).
  { assert (Hle : leb start end_ = false)
      by (apply negb_true_iff; exact Hgt).
    unfold full_months, walk_fuel. cbn [walk]. rewrite Hle.
    cbn [bind fst snd]. unfold gtb. rewrite Hle. reflexivity. }
  unfold check_full_period_dt.
  destruct (Z.eqb_spec (year start) (year end_)) as [Ey | Ey]; cbn [negb].
  - exists false. split; [exact Hwalk|]. split; [discriminate|].
    intros (Hm & Hd & Hme & Hde). exfalso.
    apply gtb_true in Hgt. apply Hgt. unfold lex_le. lia.
  - destruct ((month start =? 1) && (day start =? 1) && (month end_ =? 12)
              && (day end_ =? 31)) eqn:Hb.
    + exists true. split; [reflexivity|]. split; [|reflexivity]. intros _.
      repeat (apply andb_true_iff in Hb as [Hb ?]).
      repeat split; apply Z.eqb_eq; assumption.
    + exists false.
      assert (Hyl : 365 <= year_length start)
        by (unfold year_length; destruct (is_leap_year _); simpl; lia).
      destruct (Z.leb_spec (year_length start) (sub_days end_ start));
        [unfold sub_days in *; lia|].
      split; [exact Hwalk|]. split; [discriminate|].
      intros (Hm & Hd & Hme & Hde).
      rewrite Hm, Hd, Hme, Hde in Hb. discriminate.
Qed.

Lemma check_full_period_reversed_witness :
  exists b, check_full_period "03012024" "02292024" = Return b /\
            (b = true <->
             month (mkdate 2024 3 1) = 1 /\ day (mkdate 2024 3 1) = 1 /\
             month (mkdate 2024 2 29) = 12 /\ day (mkdate 2024 2 29) = 31).
Proof.
  apply (check_full_period_reversed "03012024" "02292024"
           (mkdate 2024 3 1) (mkdate 2024 2 29) eq_refl eq_refl eq_refl).
Defined.

End PeriodMore.

(* ================================================================= *)
(** ** The date range between [find_report_date_range] and the validator *)

Module DateRangeMore.

Lemma digit_digit_char n : digit (digit_char n) = Some (n mod 10).
Proof.
  unfold digit_char.
  assert (Hr : 0 <= n mod 10 < 10) by (apply Z.mod_pos_bound; lia).
  assert (Hc : n mod 10 = 0 \/ n mod 10 = 1 \/ n mod 10 = 2 \/ n mod 10 = 3
               \/ n mod 10 = 4 \/ n mod 10 = 5 \/ n mod 10 = 6
               \/ n mod 10 = 7 \/ n mod 10 = 8 \/ n mod 10 = 9) by lia.
  repeat (destruct Hc as [-> | Hc]); try rewrite Hc; reflexivity.
Qed.

(** The first alternative of [%m] that matches two padded digits is the
    month they spell. *)
Lemma alt_m_pad2 m rest :
  1 <= m <= 12 ->
  exists tl, alt_m (pad2 m ++ rest)%string = (m, rest) :: tl.
Proof.
  intros Hm.
  assert (Hc : m = 1 \/ m = 2 \/ m = 3 \/ m = 4 \/ m = 5 \/ m = 6 \/ m = 7
               \/ m = 8 \/ m = 9 \/ m = 10 \/ m = 11 \/ m = 12) by lia.
  repeat (destruct Hc as [-> | Hc]); try subst m;
    vm_compute; eexists; reflexivity.
Qed.

Lemma alt_d_pad2_below_10 d rest :
  1 <= d <= 9 ->
  exists tl, alt_d (pad2 d ++ rest)%string = (d, rest) :: tl.
Proof.
  intros Hd.
  assert (Hc : d = 1 \/ d = 2 \/ d = 3 \/ d = 4 \/ d = 5 \/ d = 6 \/ d = 7
               \/ d = 8 \/ d = 9) by lia.
  repeat (destruct Hc as [-> | Hc]); try subst d;
    vm_compute; eexists; reflexivity.
Qed.

Lemma alt_d_pad2_below_20 d rest :
  10 <= d <= 19 ->
  exists tl, alt_d (pad2 d ++ rest)%string = (d, rest) :: tl.
Proof.
  intros Hd.
  assert (Hc : d = 10 \/ d = 11 \/ d = 12 \/ d = 13 \/ d = 14 \/ d = 15
               \/ d = 16 \/ d = 17 \/ d = 18 \/ d = 19) by lia.
  repeat (destruct Hc as [-> | Hc]); try subst d;
    vm_compute; eexists; reflexivity.
Qed.

Lemma alt_d_pad2_from_20 d rest :
  20 <= d <= 31 ->
  exists tl, alt_d (pad2 d ++ rest)%string = (d, rest) :: tl.
Proof.
  intros Hd.
  assert (Hc : d = 20 \/ d = 21 \/ d = 22 \/ d = 23 \/ d = 24 \/ d = 25
               \/ d = 26 \/ d = 27 \/ d = 28 \/ d = 29 \/ d = 30 \/ d = 31)
    by lia.
  repeat (destruct Hc as [-> | Hc]); try subst d;
    vm_compute; eexists; reflexivity.
Qed.

Lemma alt_d_pad2 d rest :
  1 <= d <= 31 ->
  exists tl, alt_d (pad2 d ++ rest)%string = (d, rest) :: tl.
Proof.
  intros Hd.
  destruct (Z_lt_le_dec d 10); [apply alt_d_pad2_below_10; lia|].
  destruct (Z_lt_le_dec d 20); [apply alt_d_pad2_below_20; lia|].
  apply alt_d_pad2_from_20; lia.
Qed.

Lemma alt_Y_pad4 y rest :
  0 <= y <= 9999 -> alt_Y (pad4 y ++ rest)%string = [(y, rest)].
Proof.
  intros Hy. unfold pad4. cbn [append alt_Y].
  rewrite !digit_digit_char. do 2 f_equal.
  Z.to_euclidean_division_equations. lia.
Qed.

Lemma match_mdY_strftime dt :
  valid dt -> match_mdY (strftime_mdY dt)
              = Some (month dt, day dt, year dt, EmptyString).
Proof.
  intros Hv. destruct (valid_inv _ Hv) as (Hy & Hm & dim & Hdim & Hd).
  destruct (days_in_month_inv _ _ _ Hdim) as [_ Hr].
  unfold match_mdY, strftime_mdY.
  destruct (alt_m_pad2 (month dt) (pad2 (day dt) ++ pad4 (year dt))%string Hm)
    as [tlm ->].
  cbn [flat_map fst snd].
  destruct (alt_d_pad2 (day dt) (pad4 (year dt)) ltac:(lia)) as [tld ->].
  cbn [flat_map fst snd].
  replace (pad4 (year dt)) with (pad4 (year dt) ++ EmptyString)%string
    by (unfold pad4; reflexivity).
  rewrite alt_Y_pad4 by lia. reflexivity.
Qed.

(** X4: What [strftime('%m%d%Y')] writes, [strptime(_, '%m%d%Y')] reads back:
    the dates handed from [find_report_date_range] to [check_full_period]
    arrive unchanged.  (For years before 1000 the padding of [%Y] depends
    on the C library, so they are left out.) *)
Theorem strptime_strftime_round_trip dt :
  valid dt -> 1000 <= year dt ->
  strptime_mdY (strftime_mdY dt) = Return dt.
Proof.
  intros Hv _. unfold strptime_mdY. rewrite (match_mdY_strftime _ Hv).
  exact Hv.
Qed.

Lemma strptime_strftime_round_trip_witness :
  strptime_mdY (strftime_mdY (mkdate 2024 2 29)) = Return (mkdate 2024 2 29).
Proof.
  apply strptime_strftime_round_trip; [reflexivity | simpl; lia].
Defined.

End DateRangeMore.

(* ================================================================= *)
(** ** Runs of the driver *)

Module RunsMore.

Lemma exec_seq {A B} o (p : proc A) (k : A -> proc B) :
  exec o (seq p k) = then_ (exec o p) (fun a => exec o (k a)).
Proof.
  induction p as [a|e|code| |line p IH|c f IH]; cbn [seq exec];
    try reflexivity.
  - unfold then_. cbn [fst snd app]. destruct (exec o (k a)); reflexivity.
  - rewrite IH. unfold then_. destruct (exec o p) as [t en]. cbn [fst snd].
    destruct en; reflexivity.
  - rewrite IH. unfold then_. destruct (exec o (f (o c))) as [t en].
    cbn [fst snd]. destruct en; reflexivity.
Qed.

Lemma exec_try_with {A B} o (p : proc A) (k : A -> proc B)
  (h : string -> proc B) :
  exec o (try_with p k h)
  = catch_ (exec o p) (fun a => exec o (k a)) (fun msg => exec o (h msg)).
Proof.
  induction p as [a|e|code| |line p IH|c f IH]; cbn [try_with exec];
    try reflexivity.
  - unfold catch_. cbn [fst snd app]. destruct (exec o (k a)); reflexivity.
  - unfold catch_. cbn [fst snd app].
    destruct e; try reflexivity. destruct (exec o (h msg)); reflexivity.
  - rewrite IH. unfold catch_. destruct (exec o p) as [t en]. cbn [fst snd].
    destruct en as [a|e|code|]; try reflexivity. destruct e; reflexivity.
  - rewrite IH. unfold catch_. destruct (exec o (f (o c))) as [t en].
    cbn [fst snd]. destruct en as [a|e|code|]; try reflexivity.
    destruct e; reflexivity.
Qed.

Lemma written_app t1 t2 : written (t1 ++ t2) = written t1 ++ written t2.
Proof.
  induction t1 as [|ev t1 IH]; [reflexivity|].
  destruct ev as [line|c r]; cbn [app written]; [exact IH|].
  destruct c; try exact IH. destruct r; [|exact IH].
  cbn [app]. f_equal. exact IH.
Qed.

Lemma removed_app t1 t2 : removed (t1 ++ t2) = removed t1 ++ removed t2.
Proof.
  induction t1 as [|ev t1 IH]; [reflexivity|].
  destruct ev as [line|c r]; cbn [app removed]; [exact IH|].
  destruct c; try exact IH. cbn [app]. f_equal. exact IH.
Qed.

Lemma calls_app t1 t2 : calls (t1 ++ t2) = calls t1 ++ calls t2.
Proof.
  induction t1 as [|ev t1 IH]; [reflexivity|].
  destruct ev as [line|c r]; cbn [app calls]; [exact IH|].
  f_equal. exact IH.
Qed.

Lemma no_calls t : calls t = [] -> written t = [] /\ removed t = [].
Proof.
  induction t as [|ev t IH]; [auto|].
  destruct ev as [line|c r]; cbn [calls written removed];
    [exact IH | discriminate].
Qed.

(** *** The date range handed to the validator *)

Lemma strptime_bdY_valid s dt : strptime_bdY s = Return dt -> valid dt.
Proof.
  unfold strptime_bdY.
  destruct (match_bdY s) as [[[[m d] y] rest]|]; [|discriminate].
  destruct rest; [|discriminate].
  intros H. destruct (check_date_fields_inv _ _ _ _ H) as [-> _].
  exact H.
Qed.

Lemma digits_strftime dt rest :
  digits 8 (strftime_mdY dt ++ rest)%string = Some rest.
Proof.
  unfold strftime_mdY, pad2, pad4. cbn [append digits].
  rewrite !DateRangeMore.digit_digit_char. reflexivity.
Qed.

Lemma is_date_range_strftime d1 d2 :
  is_date_range (strftime_mdY d1 ++ "-" ++ strftime_mdY d2)%string = true.
Proof.
  unfold is_date_range. rewrite digits_strftime. cbn [append].
  replace (strftime_mdY d2) with (strftime_mdY d2 ++ EmptyString)%string
    by (unfold strftime_mdY, pad2, pad4; reflexivity).
  rewrite digits_strftime. reflexivity.
Qed.

Lemma all_digits_strftime dt : all_digits (strftime_mdY dt).
Proof.
  unfold strftime_mdY, pad2, pad4. cbn [append all_digits].
  rewrite !DateRangeMore.digit_digit_char. repeat split; discriminate.
Qed.

Lemma prefix_dash_digit c r :
  digit c <> None -> prefix "-" (String c r) = false.
Proof.
  intros Hc. cbn [prefix].
  destruct (ascii_dec "-" c) as [<-|]; [|reflexivity].
  exfalso. apply Hc. reflexivity.
Qed.

Lemma split_digits_last b cur :
  all_digits b -> Str.split_from "-" 0 cur b = [(cur ++ b)%string].
Proof.
  revert cur. induction b as [|c r IH]; intros cur Hb; cbn [Str.split_from].
  - f_equal. clear. induction cur; simpl; congruence.
  - destruct Hb as [Hc Hr]. rewrite (prefix_dash_digit _ _ Hc).
    rewrite IH by exact Hr. f_equal.
    clear. induction cur; simpl; congruence.
Qed.

Lemma split_digits_first a b cur :
  all_digits a ->
  Str.split_from "-" 0 cur (a ++ String "-" b)
  = (cur ++ a)%string :: Str.split_from "-" 0 EmptyString b.
Proof.
  revert cur. induction a as [|c r IH]; intros cur Ha.
  - cbn [append Str.split_from prefix].
    destruct (ascii_dec "-" "-") as [_|Hne]; [|contradiction].
    replace (prefix EmptyString b) with true by (destruct b; reflexivity).
    cbn [String.length Nat.sub]. f_equal.
    clear. induction cur; simpl; congruence.
  - destruct Ha as [Hc Hr]. cbn [append Str.split_from].
    rewrite (prefix_dash_digit _ _ Hc). rewrite IH by exact Hr. f_equal.
    clear. induction cur; simpl; congruence.
Qed.

Lemma split_strftime d1 d2 :
  Str.split "-" (strftime_mdY d1 ++ "-" ++ strftime_mdY d2)
  = [strftime_mdY d1; strftime_mdY d2].
Proof.
  unfold Str.split. cbn [append].
  rewrite split_digits_first by apply all_digits_strftime.
  rewrite split_digits_last by apply all_digits_strftime. reflexivity.
Qed.

(** *** Step 1 *)

Lemma exec_find_brand_and_indication o df t en :
  exec o (find_brand_and_indication df) = (t, en) ->
  calls t = [] /\ (forall code, en <> EExit code) /\
  (forall bi, en = ERet bi -> exists suite, mapping_get suite = Some bi).
Proof.
  unfold find_brand_and_indication.
  destruct (find_marker_text "# Report suite: " df) as [[suite|]|e|];
    cbn [lift seq exec].
  - destruct (mapping_get suite) as [bi|] eqn:Hm; cbn [exec];
      intros [= <- <-]; repeat split; try discriminate.
    intros bi' [= <-]. eauto.
  - intros [= <- <-]. repeat split; discriminate.
  - intros [= <- <-]. repeat split; discriminate.
  - intros [= <- <-]. repeat split; discriminate.
Qed.

Lemma exec_format_date_range o text t en :
  exec o (format_date_range text) = (t, en) ->
  calls t = [] /\ (forall code, en <> EExit code) /\
  (forall dr, en = ERet dr ->
     exists d1 d2, valid d1 /\ valid d2 /\
       dr = (strftime_mdY d1 ++ "-" ++ strftime_mdY d2)%string).
Proof.
  unfold format_date_range.
  destruct (Str.split " - " text) as [|a [|b [|x l]]]; cbn [exec];
    try (intros [= <- <-]; repeat split; discriminate).
  destruct (strptime_bdY a) as [d1| |] eqn:H1; cbn [lift seq exec];
    try (intros [= <- <-]; repeat split; discriminate).
  destruct (strptime_bdY b) as [d2| |] eqn:H2; cbn [lift seq exec];
    try (intros [= <- <-]; repeat split; discriminate).
  intros [= <- <-]. repeat split; try discriminate.
  intros dr [= <-]. exists d1, d2.
  repeat split; eauto using strptime_bdY_valid.
Qed.

Lemma exec_find_report_date_range o df t en :
  exec o (find_report_date_range df) = (t, en) ->
  calls t = [] /\ (forall code, en <> EExit code) /\
  (forall dr, en = ERet dr ->
     exists d1 d2, valid d1 /\ valid d2 /\
       dr = (strftime_mdY d1 ++ "-" ++ strftime_mdY d2)%string).
Proof.
  unfold find_report_date_range.
  destruct (find_marker_text "# Date: " df) as [[text|]|e|];
    cbn [lift seq exec];
    try (intros [= <- <-]; repeat split; discriminate).
  rewrite exec_try_with.
  destruct (exec o (format_date_range text)) as [t1 e1] eqn:H1.
  destruct (exec_format_date_range _ _ _ _ H1) as (Hc & Hx & Hr).
  unfold catch_. cbn [fst snd].
  destruct e1 as [dr|e|code|]; cbn [exec fst snd].
  - rewrite app_nil_r. intros [= <- <-]. repeat split; auto; discriminate.
  - destruct e; cbn [exec fst snd]; try rewrite app_nil_r;
      intros [= <- <-]; repeat split; auto; discriminate.
  - intros [= <- <-]. repeat split; auto; discriminate.
  - intros [= <- <-]. repeat split; auto; discriminate.
Qed.

Lemma then_cases {A B} t1 (e1 : ending A)
  (k : A -> list event * ending B) t en :
  then_ (t1, e1) k = (t, en) ->
  match e1 with
  | ERet a => exists t2, k a = (t2, en) /\ t = t1 ++ t2
  | EThrow e => t = t1 /\ en = EThrow e
  | EExit code => t = t1 /\ en = EExit code
  | ENoFuel => t = t1 /\ en = ENoFuel
  end.
Proof.
  unfold then_. cbn [fst snd]. destruct e1 as [a|e|code|].
  - destruct (k a) as [t2 e2]. cbn [fst snd]. intros [= <- <-]. eauto.
  - intros [= <- <-]. auto.
  - intros [= <- <-]. auto.
  - intros [= <- <-]. auto.
Qed.

Lemma catch_cases {A B} t1 (e1 : ending A)
  (k : A -> list event * ending B) (h : string -> list event * ending B)
  t en :
  catch_ (t1, e1) k h = (t, en) ->
  match e1 with
  | ERet a => exists t2, k a = (t2, en) /\ t = t1 ++ t2
  | EThrow (ValueError msg) => exists t2, h msg = (t2, en) /\ t = t1 ++ t2
  | EThrow e => t = t1 /\ en = EThrow e
  | EExit code => t = t1 /\ en = EExit code
  | ENoFuel => t = t1 /\ en = ENoFuel
  end.
Proof.
  unfold catch_. cbn [fst snd]. destruct e1 as [a|e|code|].
  - destruct (k a) as [t2 e2]. cbn [fst snd]. intros [= <- <-]. eauto.
  - destruct e as [msg|msg|msg|msg|msg];
      [|intros [= <- <-]; split; reflexivity ..].
    destruct (h msg) as [t2 e2]. cbn [fst snd]. intros [= <- <-]. eauto.
  - intros [= <- <-]. auto.
  - intros [= <- <-]. auto.
Qed.

(** A run of step 1 calls no collaborator, leaves by [sys.exit] with
    code 1 only, and returns only for a mapped suite and a date range that
    the validator accepted. *)
Lemma exec_step1 o df t en :
  exec o (step1 df) = (t, en) ->
  calls t = [] /\ (forall code, en = EExit code -> code = 1) /\
  (forall x, en = ERet x -> validated x).
Proof.
  intros H. unfold step1 in H. rewrite exec_try_with in H.
  match type of H with catch_ (exec o ?body) _ _ = _ =>
    destruct (exec o body) as [t0 e0] eqn:H0 end.
  apply catch_cases in H.
  assert (Hbody : calls t0 = [] /\ (forall code, e0 = EExit code -> code = 1)
                  /\ (forall x, e0 = ERet x -> validated x)).
  { clear H. rewrite exec_seq in H0.
    destruct (exec o (find_brand_and_indication df)) as [t1 e1] eqn:H1.
    destruct (exec_find_brand_and_indication _ _ _ _ H1) as (Hc1 & Hx1 & Hr1).
    apply then_cases in H0. destruct e1 as [bi|e|code|].
    2:{ destruct H0 as [-> ->]. repeat split; auto; discriminate. }
    2:{ exfalso. eapply Hx1; reflexivity. }
    2:{ destruct H0 as [-> ->]. repeat split; auto; discriminate. }
    destruct H0 as (t0' & H0 & ->).
    destruct (Hr1 bi eq_refl) as [suite Hsuite].
    rewrite exec_seq in H0.
    destruct (exec o (find_report_date_range df)) as [t2 e2] eqn:H2.
    destruct (exec_find_report_date_range _ _ _ _ H2) as (Hc2 & Hx2 & Hr2).
    apply then_cases in H0. destruct e2 as [dr|e|code|].
    2:{ destruct H0 as [-> ->]. rewrite calls_app, Hc1, Hc2.
        repeat split; auto; discriminate. }
    2:{ exfalso. eapply Hx2; reflexivity. }
    2:{ destruct H0 as [-> ->]. rewrite calls_app, Hc1, Hc2.
        repeat split; auto; discriminate. }
    destruct H0 as (t3 & H0 & ->).
    destruct (Hr2 dr eq_refl) as (d1 & d2 & Hv1 & Hv2 & ->).
    rewrite is_date_range_strftime, split_strftime in H0. cbn [negb] in H0.
    rewrite exec_seq in H0.
    destruct (check_full_period (strftime_mdY d1) (strftime_mdY d2))
      as [ok|e|] eqn:Hchk; cbn [lift exec] in H0; apply then_cases in H0.
    - destruct H0 as (t4 & H0 & ->).
      destruct ok; cbn [negb exec] in H0; injection H0 as <- <-;
        rewrite !calls_app, Hc1, Hc2; repeat split; try discriminate.
      + intros x [= <-]. exists suite, d1, d2. cbn [fst snd].
        destruct bi. repeat split; auto.
      + intros code [= <-]. reflexivity.
    - destruct H0 as [-> ->]. rewrite !calls_app, Hc1, Hc2.
      repeat split; discriminate.
    - destruct H0 as [-> ->]. rewrite !calls_app, Hc1, Hc2.
      repeat split; discriminate. }
  destruct Hbody as (Hc & Hx & Hr).
  destruct e0 as [x|e|code|].
  - destruct H as (t2 & Hk & ->). cbn [exec] in Hk. injection Hk as <- <-.
    rewrite calls_app, Hc. repeat split; auto.
  - destruct e; try (destruct H as [-> ->]; repeat split; auto; discriminate).
    destruct H as (t2 & Hk & ->). cbn [exec] in Hk. injection Hk as <- <-.
    rewrite calls_app, Hc. repeat split; try discriminate.
    intros code [= <-]. reflexivity.
  - destruct H as [-> ->]. repeat split; auto; discriminate.
  - destruct H as [-> ->]. repeat split; auto; discriminate.
Qed.

(** *** The table steps and the clean-up *)

Lemma step2_table_step df brand indication date_range temp_files :
  step2 df brand indication date_range temp_files
  = table_step (extract_lasttouch_from_excel df)
      (fun path => TransformLastTouch path brand indication date_range)
      "Error processing LASTTOUCH table: " temp_files.
Proof. reflexivity. Qed.

Lemma step3_table_step df brand indication date_range temp_files :
  step3 df brand indication date_range temp_files
  = table_step (extract_monthly_from_excel df "Freeform table")
      (fun path => TransformMonthly path brand indication date_range)
      "Error processing MONTHLY table: " temp_files.
Proof. reflexivity. Qed.

(** A table step removes nothing, never exits, makes no call but writing
    the temporary workbook and its transformation, and returns the
    temporary files with the workbook it wrote, if any, added. *)
Lemma exec_table_step o x tr label temp_files t en :
  (forall path, is_transform (tr path)) ->
  exec o (table_step x tr label temp_files) = (t, en) ->
  removed t = [] /\ (forall code, en <> EExit code) /\
  (forall tf, en = ERet tf -> tf = temp_files ++ written t) /\
  (forall c, In c (calls t) ->
     (exists path table, c = ToExcel path table) \/ (exists path, c = tr path)).
Proof.
  intros Htr. unfold table_step, extracted, call_.
  destruct x as [[path table]|e|]; cbn [lift seq try_with exec fst snd].
  - destruct (o (ToExcel path table)) as [|e1] eqn:Ho1;
      cbn [seq try_with exec fst snd].
    + pose proof (Htr path) as Hp.
      destruct (o (tr path)) as [|e2] eqn:Ho2; cbn [seq try_with exec].
      * intros [= <- <-]. cbn [removed written calls].
        destruct (tr path) eqn:Etr; try contradiction;
          cbn [removed written]; repeat split; try discriminate;
          try (intros tf [= <-]; reflexivity);
          intros c [<- | [<- | []]]; eauto.
      * destruct e2; cbn [exec]; intros [= <- <-]; cbn [removed written calls];
          destruct (tr path) eqn:Etr; try contradiction;
          cbn [removed written]; repeat split; try discriminate;
          try (intros tf [= <-]; reflexivity);
          intros c [<- | [<- | []]]; eauto.
    + destruct e1; cbn [exec]; intros [= <- <-]; cbn [removed written calls];
        repeat split; try discriminate;
        try (intros tf [= <-]; symmetry; apply app_nil_r);
        intros c [<- | []]; eauto.
  - destruct e; cbn [exec]; intros [= <- <-]; cbn [removed written calls];
      repeat split; try discriminate;
      try (intros tf [= <-]; symmetry; apply app_nil_r);
      intros c [].
  - intros [= <- <-]. cbn [removed written calls].
    repeat split; try discriminate. intros c [].
Qed.

(** The clean-up writes nothing and never exits; when it reaches its end
    it has called [os.remove] on every temporary file, in order. *)
Lemma exec_cleanup o temp_files t en :
  exec o (cleanup temp_files) = (t, en) ->
  written t = [] /\ (forall code, en <> EExit code) /\
  (en = ERet tt -> removed t = temp_files) /\
  (forall c, In c (calls t) -> exists path, c = OsRemove path) /\
  (remove_fails_with_OSError o -> en = ERet tt).
Proof.
  revert t en. induction temp_files as [|f rest IH]; intros t en.
  - cbn [cleanup exec]. intros [= <- <-].
    repeat split; try discriminate; auto. intros c [].
  - cbn [cleanup exec].
    destruct (o (OsRemove f)) as [|e] eqn:Ho.
    + cbn [exec]. destruct (exec o (cleanup rest)) as [t' en'] eqn:Hrest.
      destruct (IH _ _ eq_refl) as (Hw & Hx & Hr & Hc & Hok).
      intros [= <- <-]. cbn [written removed calls]. repeat split; auto.
      * intros Hen. f_equal. auto.
      * intros c [<- | Hin]; eauto.
    + destruct e; cbn [exec];
        try (intros [= <- <-]; cbn [written removed calls];
             repeat split; try discriminate;
             [ intros c [<- | []]; eauto
             | intros Hrem; destruct (Hrem f) as [Hd | [m Hm]]; congruence ]).
      destruct (exec o (cleanup rest)) as [t' en'] eqn:Hrest.
      destruct (IH _ _ eq_refl) as (Hw & Hx & Hr & Hc & Hok).
      intros [= <- <-]. cbn [written removed calls]. repeat split; auto.
      * intros Hen. f_equal. auto.
      * intros c [<- | Hin]; eauto.
Qed.

(** The run of [main], cut into its four steps. *)
Lemma exec_main o df t en :
  exec o (main df) = (t, en) ->
  exists t1 e1, exec o (step1 df) = (t1, e1) /\
  match e1 with
  | ERet (brand, indication, date_range) =>
      exists t2 e2,
        exec o (step2 df brand indication date_range []) = (t2, e2) /\
        match e2 with
        | ERet tf2 =>
            exists t3 e3,
              exec o (step3 df brand indication date_range tf2) = (t3, e3) /\
              match e3 with
              | ERet tf3 =>
                  exists t4, exec o (cleanup tf3) = (t4, en) /\
                             t = t1 ++ t2 ++ t3 ++ t4
              | EThrow e => t = t1 ++ t2 ++ t3 /\ en = EThrow e
              | EExit code => t = t1 ++ t2 ++ t3 /\ en = EExit code
              | ENoFuel => t = t1 ++ t2 ++ t3 /\ en = ENoFuel
              end
        | EThrow e => t = t1 ++ t2 /\ en = EThrow e
        | EExit code => t = t1 ++ t2 /\ en = EExit code
        | ENoFuel => t = t1 ++ t2 /\ en = ENoFuel
        end
  | EThrow e => t = t1 /\ en = EThrow e
  | EExit code => t = t1 /\ en = EExit code
  | ENoFuel => t = t1 /\ en = ENoFuel
  end.
Proof.
  intros H. unfold main in H. rewrite exec_seq in H.
  destruct (exec o (step1 df)) as [t1 e1]. exists t1, e1.
  split; [reflexivity|]. apply then_cases in H.
  destruct e1 as [[[brand indication] date_range]|e|code|]; auto.
  destruct H as (t' & H & ->). rewrite exec_seq in H.
  destruct (exec o (step2 df brand indication date_range [])) as [t2 e2].
  exists t2, e2. split; [reflexivity|]. apply then_cases in H.
  destruct e2 as [tf2|e|code|];
    try (destruct H as [-> ->]; split; reflexivity).
  destruct H as (t'' & H & ->). rewrite exec_seq in H.
  destruct (exec o (step3 df brand indication date_range tf2)) as [t3 e3].
  exists t3, e3. split; [reflexivity|]. apply then_cases in H.
  destruct e3 as [tf3|e|code|];
    try (destruct H as [-> ->]; split; reflexivity).
  destruct H as (t4 & H & ->). exists t4. split; [exact H | reflexivity].
Qed.

Lemma exec_step2 o df brand indication date_range temp_files t en :
  exec o (step2 df brand indication date_range temp_files) = (t, en) ->
  removed t = [] /\ (forall code, en <> EExit code) /\
  (forall tf, en = ERet tf -> tf = temp_files ++ written t) /\
  (forall c, In c (calls t) ->
     (exists path table, c = ToExcel path table) \/
     (exists path, c = TransformLastTouch path brand indication date_range)).
Proof.
  rewrite step2_table_step. apply exec_table_step. intros path. exact I.
Qed.

Lemma exec_step3 o df brand indication date_range temp_files t en :
  exec o (step3 df brand indication date_range temp_files) = (t, en) ->
  removed t = [] /\ (forall code, en <> EExit code) /\
  (forall tf, en = ERet tf -> tf = temp_files ++ written t) /\
  (forall c, In c (calls t) ->
     (exists path table, c = ToExcel path table) \/
     (exists path, c = TransformMonthly path brand indication date_range)).
Proof.
  rewrite step3_table_step. apply exec_table_step. intros path. exact I.
Qed.

(** X5: When [main] reaches its end, it has called [os.remove] on exactly the
    temporary workbooks it wrote, in the order it wrote them, whatever the
    collaborators replied. *)
Theorem main_removes_what_it_wrote o df t :
  exec o (main df) = (t, ERet tt) -> removed t = written t.
Proof.
  intros H. destruct (exec_main _ _ _ _ H) as (t1 & e1 & H1 & Hrest).
  destruct (exec_step1 _ _ _ _ H1) as (Hc1 & _ & _).
  destruct (no_calls _ Hc1) as [Hw1 Hr1].
  destruct e1 as [[[brand indication] date_range]|e|code|];
    try (destruct Hrest as [_ Hen]; discriminate).
  destruct Hrest as (t2 & e2 & H2 & Hrest).
  destruct (exec_step2 _ _ _ _ _ _ _ _ H2)
    as (Hr2 & _ & Htf2 & _).
  destruct e2 as [tf2|e|code|];
    try (destruct Hrest as [_ Hen]; discriminate).
  destruct Hrest as (t3 & e3 & H3 & Hrest).
  destruct (exec_step3 _ _ _ _ _ _ _ _ H3)
    as (Hr3 & _ & Htf3 & _).
  destruct e3 as [tf3|e|code|];
    try (destruct Hrest as [_ Hen]; discriminate).
  destruct Hrest as (t4 & H4 & ->).
  destruct (exec_cleanup _ _ _ _ H4) as (Hw4 & _ & Hr4 & _).
  rewrite !removed_app, !written_app, Hw1, Hr1, Hr2, Hr3, Hw4, (Hr4 eq_refl).
  rewrite (Htf3 tf3 eq_refl), (Htf2 tf2 eq_refl), app_nil_r. reflexivity.
Qed.

Lemma main_removes_what_it_wrote_witness :
  removed (fst (exec all_done (main sheet_two_tables)))
  = written (fst (exec all_done (main sheet_two_tables))).
Proof.
  apply (main_removes_what_it_wrote all_done sheet_two_tables).
  reflexivity.
Defined.

(** X6: [main] leaves by [sys.exit] only from step 1: the code is 1 and no
    collaborator has been called, so no temporary or result workbook
    exists. *)
Theorem main_exits_before_any_table o df t code :
  exec o (main df) = (t, EExit code) -> code = 1 /\ calls t = [].
Proof.
  intros H. destruct (exec_main _ _ _ _ H) as (t1 & e1 & H1 & Hrest).
  destruct (exec_step1 _ _ _ _ H1) as (Hc1 & Hx1 & _).
  destruct e1 as [[[brand indication] date_range]|e|code1|];
    try (destruct Hrest as [_ Hen]; discriminate).
  2:{ destruct Hrest as [-> [= <-]]. split; auto. }
  exfalso. destruct Hrest as (t2 & e2 & H2 & Hrest).
  destruct (exec_step2 _ _ _ _ _ _ _ _ H2)
    as (_ & Hx2 & _).
  destruct e2 as [tf2|e|code2|];
    try (destruct Hrest as [_ Hen]; discriminate).
  2:{ eapply Hx2; reflexivity. }
  destruct Hrest as (t3 & e3 & H3 & Hrest).
  destruct (exec_step3 _ _ _ _ _ _ _ _ H3)
    as (_ & Hx3 & _).
  destruct e3 as [tf3|e|code3|];
    try (destruct Hrest as [_ Hen]; discriminate).
  2:{ eapply Hx3; reflexivity. }
  destruct Hrest as (t4 & H4 & _).
  destruct (exec_cleanup _ _ _ _ H4) as (_ & Hx4 & _).
  eapply Hx4; reflexivity.
Qed.

Lemma main_exits_before_any_table_witness :
  (1 = 1) /\ calls (fst (exec all_done (main sheet_without_markers))) = [].
Proof.
  apply (main_exits_before_any_table all_done sheet_without_markers
           (fst (exec all_done (main sheet_without_markers))) 1).
  reflexivity.
Defined.

(** X7: No collaborator is called before the period is validated: a run of
    [main] that makes any call has found a suite of the mapping table and
    a date range that [check_full_period] accepted, and each
    transformation is called with that brand, indication and date
    range. *)
Theorem main_calls_only_when_validated o df t en :
  exec o (main df) = (t, en) -> calls t <> [] ->
  exists x, validated x /\
    forall path brand indication date_range,
      In (TransformLastTouch path brand indication date_range) (calls t) \/
      In (TransformMonthly path brand indication date_range) (calls t) ->
      x = (brand, indication, date_range).
Proof.
  intros H Hcalls. destruct (exec_main _ _ _ _ H) as (t1 & e1 & H1 & Hrest).
  destruct (exec_step1 _ _ _ _ H1) as (Hc1 & _ & Hv1).
  destruct e1 as [[[brand indication] date_range]|e|code|];
    try (destruct Hrest as [-> _]; contradiction).
  exists (brand, indication, date_range). split; [apply Hv1; reflexivity|].
  destruct Hrest as (t2 & e2 & H2 & Hrest).
  destruct (exec_step2 _ _ _ _ _ _ _ _ H2)
    as (_ & _ & _ & Hk2).
  assert (Hin2 : forall path b i d,
             In (TransformLastTouch path b i d) (calls t2) \/
             In (TransformMonthly path b i d) (calls t2) ->
             (brand, indication, date_range) = (b, i, d)).
  { intros path b i d [Hin | Hin];
      destruct (Hk2 _ Hin) as [(p & tb & E) | (p & E)]; congruence. }
  destruct e2 as [tf2|e|code|].
  2,3,4: destruct Hrest as [-> _]; intros path b i d Hin;
    rewrite calls_app, Hc1 in Hin; cbn [app] in Hin; eauto.
  destruct Hrest as (t3 & e3 & H3 & Hrest).
  destruct (exec_step3 _ _ _ _ _ _ _ _ H3)
    as (_ & _ & _ & Hk3).
  assert (Hin3 : forall path b i d,
             In (TransformLastTouch path b i d) (calls t3) \/
             In (TransformMonthly path b i d) (calls t3) ->
             (brand, indication, date_range) = (b, i, d)).
  { intros path b i d [Hin | Hin];
      destruct (Hk3 _ Hin) as [(p & tb & E) | (p & E)]; congruence. }
  assert (Hin23 : forall path b i d,
             In (TransformLastTouch path b i d) (calls (t1 ++ t2 ++ t3)) \/
             In (TransformMonthly path b i d) (calls (t1 ++ t2 ++ t3)) ->
             (brand, indication, date_range) = (b, i, d)).
  { intros path b i d Hin. rewrite !calls_app, Hc1 in Hin. cbn [app] in Hin.
    rewrite !in_app_iff in Hin. destruct Hin as [[?|?] | [?|?]]; eauto. }
  destruct e3 as [tf3|e|code|].
  2,3,4: destruct Hrest as [-> _]; exact Hin23.
  destruct Hrest as (t4 & H4 & ->).
  destruct (exec_cleanup _ _ _ _ H4) as (_ & _ & _ & Hk4 & _).
  intros path b i d Hin.
  replace (t1 ++ t2 ++ t3 ++ t4) with ((t1 ++ t2 ++ t3) ++ t4) in Hin
    by (rewrite <- !app_assoc; reflexivity).
  rewrite (calls_app (t1 ++ t2 ++ t3) t4), !in_app_iff in Hin.
  destruct Hin as [[Hin | Hin] | [Hin | Hin]]; eauto;
    destruct (Hk4 _ Hin) as (p & E); discriminate.
Qed.

Lemma main_calls_only_when_validated_witness :
  exists x, validated x /\
    forall path brand indication date_range,
      In (TransformLastTouch path brand indication date_range)
         (calls (fst (exec all_done (main sheet_two_tables)))) \/
      In (TransformMonthly path brand indication date_range)
         (calls (fst (exec all_done (main sheet_two_tables)))) ->
      x = (brand, indication, date_range).
Proof.
  apply (main_calls_only_when_validated all_done sheet_two_tables _
           (snd (exec all_done (main sheet_two_tables)))).
  - reflexivity.
  - discriminate.
Defined.

(** X8: An exception that [main] leaves uncaught ends the run before the
    clean-up: as long as [os.remove] itself fails with [OSError] only, no
    temporary workbook has been removed, so those written stay behind. *)
Theorem main_uncaught_exception_skips_cleanup o df t e :
  remove_fails_with_OSError o ->
  exec o (main df) = (t, EThrow e) -> removed t = [].
Proof.
  intros Hrem H. destruct (exec_main _ _ _ _ H) as (t1 & e1 & H1 & Hrest).
  destruct (exec_step1 _ _ _ _ H1) as (Hc1 & _ & _).
  destruct (no_calls _ Hc1) as [_ Hr1].
  destruct e1 as [[[brand indication] date_range]|e1|code|];
    try (destruct Hrest as [-> _]; exact Hr1).
  destruct Hrest as (t2 & e2 & H2 & Hrest).
  destruct (exec_step2 _ _ _ _ _ _ _ _ H2)
    as (Hr2 & _ & _ & _).
  destruct e2 as [tf2|e2|code|];
    try (destruct Hrest as [-> _]; rewrite removed_app, Hr1, Hr2; reflexivity).
  destruct Hrest as (t3 & e3 & H3 & Hrest).
  destruct (exec_step3 _ _ _ _ _ _ _ _ H3)
    as (Hr3 & _ & _ & _).
  destruct e3 as [tf3|e3|code|];
    try (destruct Hrest as [-> _];
         rewrite !removed_app, Hr1, Hr2, Hr3; reflexivity).
  destruct Hrest as (t4 & H4 & _).
  destruct (exec_cleanup _ _ _ _ H4) as (_ & _ & _ & _ & Hok).
  specialize (Hok Hrem). discriminate.
Qed.

Lemma main_uncaught_exception_skips_cleanup_witness :
  removed (fst (exec lasttouch_key_error (main sheet_two_tables))) = [] /\
  written (fst (exec lasttouch_key_error (main sheet_two_tables)))
  = ["temp_extracted_table.xlsx"].
Proof.
  split; [|reflexivity].
  apply (main_uncaught_exception_skips_cleanup lasttouch_key_error
           sheet_two_tables _ (KeyError "VISITS")).
  - intros path. left. reflexivity.
  - reflexivity.
Defined.

(** *** Step 1 in the three scripts *)

Lemma snd_then {A B} (r : list event * ending A)
  (k : A -> list event * ending B) :
  snd (then_ r k)
  = match snd r with
    | ERet a => snd (k a)
    | EThrow e => EThrow e
    | EExit code => EExit code
    | ENoFuel => ENoFuel
    end.
Proof. unfold then_. destruct (snd r); reflexivity. Qed.

Lemma snd_catch {A B} (r : list event * ending A)
  (k : A -> list event * ending B) (h : string -> list event * ending B) :
  snd (catch_ r k h)
  = match snd r with
    | ERet a => snd (k a)
    | EThrow (ValueError msg) => snd (h msg)
    | EThrow e => EThrow e
    | EExit code => EExit code
    | ENoFuel => ENoFuel
    end.
Proof.
  unfold catch_. destruct (snd r) as [a|e|code|]; try reflexivity.
  destruct e; reflexivity.
Qed.

Lemma snd_exec_print {A} o line (p : proc A) :
  snd (exec o (Print line p)) = snd (exec o p).
Proof. cbn [exec]. destruct (exec o p). reflexivity. Qed.

(** X9: The three scripts gate on the same validation: on every sheet, step 1
    of the indication and scroll scripts ends as step 1 of the monthly
    script does -- with the same brand, indication and date range, with
    [sys.exit] of the same code, or with the same uncaught exception; the
    scripts differ in the lines they print only. *)
Theorem step1_same_in_all_scripts o df :
  snd (exec o (step1_indication df)) = snd (exec o (step1 df)) /\
  snd (exec o (step1_scroll df)) = snd (exec o (step1 df)).
Proof.
  assert (H : snd (exec o (step1_indication df)) = snd (exec o (step1 df))).
  { unfold step1_indication, step1.
    rewrite !exec_try_with, !snd_catch, !exec_seq, !snd_then.
    destruct (snd (exec o (find_brand_and_indication df))) as [bi|e|code|];
      [| destruct e; cbn [exec snd]; reflexivity | reflexivity..].
    rewrite !exec_seq, !snd_then.
    destruct (snd (exec o (find_report_date_range df))) as [dr|e|code|];
      [| destruct e; cbn [exec snd]; reflexivity | reflexivity..].
    destruct (negb (is_date_range dr)); [reflexivity|].
    destruct (Str.split "-" dr) as [|a [|b [|c l]]]; try reflexivity.
    rewrite !exec_seq, !snd_then.
    destruct (check_full_period a b) as [ok|e|]; cbn [lift exec snd];
      [| destruct e; cbn [exec snd]; reflexivity | reflexivity].
    destruct ok; reflexivity. }
  split; exact H.
Qed.

End RunsMore.

(* ================================================================= *)
(** ** Further properties of the transformations *)

Module ReshapeMoreSpec.

Import ReshapeSpec.

Lemma get_loc_None c names : get_loc c names = None -> ~ In c names.
Proof.
  intros Hn Hin. destruct (get_loc_In _ _ Hin) as [i Hi]. congruence.
Qed.

(** A requested column that is missing is reported. *)
Lemma locs_missing cols names c :
  In c cols -> ~ In c names ->
  exists c', In c' cols /\ ~ In c' names /\
             locs cols names = Raise (KeyError c').
Proof.
  induction cols as [|x cols IH]; intros Hin Hmiss; [contradiction|].
  cbn [locs]. destruct (get_loc x names) as [i|] eqn:Hx.
  - destruct Hin as [-> | Hin].
    + exfalso. apply Hmiss. apply get_loc_Some in Hx.
      eapply nth_error_In; eauto.
    + destruct (IH Hin Hmiss) as (c' & Hc' & Hn' & ->).
      exists c'. repeat split; auto. right. exact Hc'.
  - exists x. repeat split; auto.
    + left. reflexivity.
    + apply get_loc_None. exact Hx.
Qed.

Lemma select_columns cols f g : select cols f = Return g -> columns g = cols.
Proof.
  unfold select. destruct (locs cols (columns f)); simpl; try discriminate.
  intros [= <-]. reflexivity.
Qed.

Lemma assign_columns_new name v f :
  get_loc name (columns f) = None ->
  columns (assign name v f) = columns f ++ [name].
Proof. intros H. unfold assign. rewrite H. reflexivity. Qed.

Lemma get_loc_app_new name names :
  ~ In name names -> get_loc name (names ++ [name]) = Some (List.length names).
Proof.
  induction names as [|x names IH]; intros Hn; cbn [app get_loc].
  - rewrite String.eqb_refl. reflexivity.
  - destruct (String.eqb_spec x name) as [->|Hne].
    + exfalso. apply Hn. left. reflexivity.
    + rewrite IH; [reflexivity|]. intros H. apply Hn. right. exact H.
Qed.

Lemma nth_error_set_nth i v r :
  (i < List.length r)%nat -> nth_error (set_nth i v r) i = Some v.
Proof.
  revert i. induction r as [|x r IH]; intros [|i] Hlt; simpl in *;
    try lia; [reflexivity | apply IH; lia].
Qed.

(** After [df[name] = v] every row holds [v] in that column. *)
Lemma assign_column_is name v f :
  well_shaped f -> column_is name v (assign name v f).
Proof.
  intros Hw. unfold well_shaped in Hw. rewrite Forall_forall in Hw.
  unfold column_is, assign.
  destruct (get_loc name (columns f)) as [i|] eqn:Hi; cbn [rows columns];
    intros r Hr; apply in_map_iff in Hr as (r0 & <- & Hr0); unfold at_.
  - rewrite Hi. apply nth_error_set_nth. rewrite (Hw r0 Hr0).
    eapply get_loc_lt; eauto.
  - rewrite (get_loc_app_new _ _ (get_loc_None _ _ Hi)).
    rewrite <- (Hw r0 Hr0), nth_error_app2 by lia.
    rewrite Nat.sub_diag. reflexivity.
Qed.

Lemma keeps_column_is c v f g :
  keeps [c] f g -> column_is c v f -> column_is c v g.
Proof.
  intros [_ Hk] Hf r Hr. destruct (Hk r Hr) as (r0 & Hr0 & Hc).
  apply Hc; [left; reflexivity | apply Hf; exact Hr0].
Qed.

Lemma mem_not_In c l : ~ In c l -> mem c l = false.
Proof.
  intros Hn. unfold mem. destruct (existsb (String.eqb c) l) eqn:E;
    [|reflexivity].
  apply existsb_exists in E as (x & Hx & Heq).
  apply String.eqb_eq in Heq. subst x. contradiction.
Qed.

Lemma fill_row_at_other numeric names r c :
  ~ In c numeric -> at_ names (fill_row numeric names r) c = at_ names r c.
Proof.
  intros Hc. unfold at_. revert r.
  induction names as [|n names IH]; intros r; cbn [get_loc fill_row];
    [reflexivity|].
  destruct (String.eqb_spec n c) as [->|Hne].
  - destruct r as [|v r]; [reflexivity|].
    rewrite (mem_not_In _ _ Hc). reflexivity.
  - destruct (get_loc c names) as [j|] eqn:Hj; cbn [option_map];
      [|reflexivity].
    destruct r as [|v r]; [reflexivity|]. cbn [nth_error].
    exact (IH r).
Qed.

(** The fill leaves every other column as it is. *)
Lemma fillna_columns_keeps_other numeric others f g :
  fillna_columns numeric f = Return g ->
  (forall c, In c others -> ~ In c numeric) ->
  keeps others f g.
Proof.
  unfold fillna_columns.
  destruct (locs numeric (columns f)); simpl; try discriminate.
  intros [= <-] Hdisj. split; [simpl; apply length_map|].
  intros r Hr. simpl in Hr. apply in_map_iff in Hr as (r0 & <- & Hr0).
  exists r0. split; [exact Hr0|]. intros c v0 Hc Hv. simpl.
  rewrite fill_row_at_other; [exact Hv | apply Hdisj; exact Hc].
Qed.

Lemma rename_well_shaped d f : well_shaped f -> well_shaped (rename d f).
Proof.
  unfold well_shaped, rename. simpl. rewrite length_map. auto.
Qed.

(** The renaming of the monthly script leaves the labels BRAND and
    INDICATION where they are and gives them to no other column. *)
Lemma monthly_rename_fixes c x :
  c = "BRAND" \/ c = "INDICATION" ->
  String.eqb
    (match find (fun kv => String.eqb (fst kv) x) monthly_names with
     | Some kv => snd kv
     | None => x
     end) c
  = String.eqb x c.
Proof.
  intros [-> | ->]; unfold monthly_names; cbn [find fst snd];
    repeat (match goal with
            | |- context [String.eqb ?k x] =>
                destruct (String.eqb_spec k x) as [<-|?]; [reflexivity|]
            end);
    reflexivity.
Qed.

Lemma monthly_rename_get_loc c f :
  c = "BRAND" \/ c = "INDICATION" ->
  get_loc c (columns (rename monthly_names f)) = get_loc c (columns f).
Proof.
  intros Hc. unfold rename. cbn [columns].
  induction (columns f) as [|x names IH]; [reflexivity|].
  cbn [map get_loc]. rewrite (monthly_rename_fixes c x Hc), IH. reflexivity.
Qed.

Ltac not_in := let H := fresh "H" in
  intros H; simpl in H; repeat (destruct H as [H|H]; [discriminate|]);
  exact H.

Ltac new_columns C :=
  lazymatch goal with
  | |- context [columns (assign ?n ?v ?f)] =>
      rewrite (assign_columns_new n v f); [new_columns C | new_columns C]
  | _ => rewrite ?C; reflexivity
  end.

Ltac disjoint := let c := fresh "c" in let H := fresh "H" in
  intros c H; simpl in H;
  repeat (destruct H as [<-|H]; [not_in|]); contradiction.

Section Pandas.

Variable sort_values : list string -> Frame -> outcome Frame.
Variable to_datetime : list cell -> outcome (list cell).

Hypothesis sort_values_permutes :
  forall keys f g, sort_values keys f = Return g ->
    columns g = columns f /\ Permutation (rows f) (rows g).

Hypothesis to_datetime_length :
  forall l l', to_datetime l = Return l' -> List.length l' = List.length l.

(** X10: The output schema is fixed: whatever the order of the columns of the
    pivoted frame, the scroll output has the columns of [desired_order]
    followed by BRAND and INDICATION, the last-touch output likewise, and
    the indication output has its four columns followed by BRAND and the
    two activity months. *)
Theorem output_columns_are_canonical pivoted brand indication date_range :
  (distinct_labels (rename scroll_names pivoted) ->
   forall out,
      transform_scroll_final sort_values to_datetime pivoted brand indication
      = Return out ->
      columns out = scroll_order ++ ["BRAND"; "INDICATION"]) /\
  (distinct_labels (rename lasttouch_names pivoted) ->
   forall out,
      transform_lasttouch_final sort_values to_datetime pivoted brand
        indication = Return out ->
      columns out = lasttouch_order ++ ["BRAND"; "INDICATION"]) /\
  (distinct_labels (rename indication_names pivoted) ->
   forall out,
      transform_indication_final sort_values pivoted brand date_range
      = Return out ->
      columns out
      = indication_order
        ++ ["BRAND"; "ACTIVITY START MONTH"; "ACTIVITY END MONTH"]).
Proof.
  split; [|split]; intros _ out.
  - unfold transform_scroll_final.
    destruct (select scroll_order _) as [f1| |] eqn:H1; simpl;
      try discriminate.
    destruct (sort_values _ f1) as [f2| |] eqn:H2; simpl; try discriminate.
    destruct (fillna_columns scroll_numeric f2) as [f3| |] eqn:H3; simpl;
      try discriminate.
    destruct (convert_column to_datetime _ f3) as [f4| |] eqn:H4; simpl;
      try discriminate.
    intros [= <-].
    apply select_columns in H1.
    destruct (sort_values_permutes _ _ _ H2) as [C2 _].
    destruct (fillna_columns_fills _ _ _ H3) as (_ & C3 & _).
    assert (Hn : ~ In "ACTIVITY MONTH" scroll_numeric) by not_in.
    destruct (convert_column_keeps to_datetime to_datetime_length
                scroll_numeric _ _ _ H4 Hn) as (_ & C4 & _).
    assert (C : columns f4 = scroll_order) by congruence.
    new_columns C.
  - unfold transform_lasttouch_final.
    destruct (select lasttouch_order _) as [f1| |] eqn:H1; simpl;
      try discriminate.
    destruct (sort_values _ f1) as [f2| |] eqn:H2; simpl; try discriminate.
    destruct (fillna_columns lasttouch_numeric f2) as [f3| |] eqn:H3; simpl;
      try discriminate.
    destruct (convert_column to_datetime _ f3) as [f4| |] eqn:H4; simpl;
      try discriminate.
    intros [= <-].
    apply select_columns in H1.
    destruct (sort_values_permutes _ _ _ H2) as [C2 _].
    destruct (fillna_columns_fills _ _ _ H3) as (_ & C3 & _).
    assert (Hn : ~ In "ACTIVITY MONTH" lasttouch_numeric) by not_in.
    destruct (convert_column_keeps to_datetime to_datetime_length
                lasttouch_numeric _ _ _ H4 Hn) as (_ & C4 & _).
    assert (C : columns f4 = lasttouch_order) by congruence.
    new_columns C.
  - unfold transform_indication_final.
    destruct (select indication_order _) as [f1| |] eqn:H1; simpl;
      try discriminate.
    destruct (sort_values _ f1) as [f2| |] eqn:H2; simpl; try discriminate.
    destruct (Str.split "-" date_range) as [|s [|e [|x l]]];
      try discriminate.
    destruct (strptime_mdY s) as [start_date| |]; simpl; try discriminate.
    destruct (strptime_mdY e) as [end_date| |]; simpl; try discriminate.
    intros H6. destruct (fillna_columns_fills _ _ _ H6) as (_ & C6 & _).
    apply select_columns in H1.
    destruct (sort_values_permutes _ _ _ H2) as [C2 _].
    assert (C : columns f2 = indication_order) by congruence.
    rewrite C6. new_columns C.
Qed.

(** X11: A metric column that the pivot did not produce is a [KeyError]: when
    a column of [desired_order] is missing from the renamed frame, the
    scroll, last-touch and indication transformations raise [KeyError]
    and produce no output, whatever [sort_values] would do. *)
Theorem missing_column_is_key_error pivoted brand indication date_range :
  (forall c, In c scroll_order ->
     ~ In c (columns (rename scroll_names pivoted)) ->
     exists msg,
       transform_scroll_final sort_values to_datetime pivoted brand indication
       = Raise (KeyError msg)) /\
  (forall c, In c lasttouch_order ->
     ~ In c (columns (rename lasttouch_names pivoted)) ->
     exists msg,
       transform_lasttouch_final sort_values to_datetime pivoted brand
         indication = Raise (KeyError msg)) /\
  (forall c, In c indication_order ->
     ~ In c (columns (rename indication_names pivoted)) ->
     exists msg,
       transform_indication_final sort_values pivoted brand date_range
       = Raise (KeyError msg)).
Proof.
  split; [|split]; intros c Hc Hmiss;
    destruct (locs_missing _ _ _ Hc Hmiss) as (c' & Hc' & Hn' & Hl);
    exists c'.
  - unfold transform_scroll_final, select. rewrite Hl. reflexivity.
  - unfold transform_lasttouch_final, select. rewrite Hl. reflexivity.
  - unfold transform_indication_final, select. rewrite Hl. reflexivity.
Qed.

(** X12: Identity enrichment: in the scroll and last-touch outputs every row
    carries the brand and the indication; in the indication output every
    row carries the brand and the two parsed ends of the date range. *)
Theorem every_row_is_stamped pivoted brand indication date_range :
  (distinct_labels (rename scroll_names pivoted) ->
   forall out,
      transform_scroll_final sort_values to_datetime pivoted brand indication
      = Return out ->
      column_is "BRAND" (Str brand) out /\
      column_is "INDICATION" (Str indication) out) /\
  (distinct_labels (rename lasttouch_names pivoted) ->
   forall out,
      transform_lasttouch_final sort_values to_datetime pivoted brand
        indication = Return out ->
      column_is "BRAND" (Str brand) out /\
      column_is "INDICATION" (Str indication) out) /\
  (distinct_labels (rename indication_names pivoted) ->
   forall out,
      transform_indication_final sort_values pivoted brand date_range
      = Return out ->
      exists start_date_str end_date_str start_date end_date,
        Str.split "-" date_range = [start_date_str; end_date_str] /\
        strptime_mdY start_date_str = Return start_date /\
        strptime_mdY end_date_str = Return end_date /\
        column_is "BRAND" (Str brand) out /\
        column_is "ACTIVITY START MONTH" (Stamp start_date) out /\
        column_is "ACTIVITY END MONTH" (Stamp end_date) out).
Proof.
  split; [|split]; intros _ out.
  - unfold transform_scroll_final.
    destruct (select scroll_order _) as [f1| |] eqn:H1; simpl;
      try discriminate.
    destruct (sort_values _ f1) as [f2| |] eqn:H2; simpl; try discriminate.
    destruct (fillna_columns scroll_numeric f2) as [f3| |] eqn:H3; simpl;
      try discriminate.
    destruct (convert_column to_datetime _ f3) as [f4| |] eqn:H4; simpl;
      try discriminate.
    intros [= <-].
    destruct (select_keeps [] _ _ _ H1 ltac:(intros c [])) as (_ & W1 & _).
    destruct (sort_values_keeps sort_values sort_values_permutes [] _ _ _ H2)
      as (_ & _ & W2).
    destruct (fillna_columns_fills _ _ _ H3) as (_ & _ & W3).
    destruct (convert_column_keeps to_datetime to_datetime_length
                [] _ _ _ H4 ltac:(intros [])) as (_ & _ & W4).
    pose proof (W4 (W3 (W2 W1))) as W.
    destruct (assign_keeps [] "BRAND" (Str brand) f4 W ltac:(intros []))
      as (_ & W5).
    split.
    + eapply keeps_column_is; [|apply assign_column_is; exact W].
      apply assign_keeps; [exact W5 | not_in].
    + apply assign_column_is. exact W5.
  - unfold transform_lasttouch_final.
    destruct (select lasttouch_order _) as [f1| |] eqn:H1; simpl;
      try discriminate.
    destruct (sort_values _ f1) as [f2| |] eqn:H2; simpl; try discriminate.
    destruct (fillna_columns lasttouch_numeric f2) as [f3| |] eqn:H3; simpl;
      try discriminate.
    destruct (convert_column to_datetime _ f3) as [f4| |] eqn:H4; simpl;
      try discriminate.
    intros [= <-].
    destruct (select_keeps [] _ _ _ H1 ltac:(intros c [])) as (_ & W1 & _).
    destruct (sort_values_keeps sort_values sort_values_permutes [] _ _ _ H2)
      as (_ & _ & W2).
    destruct (fillna_columns_fills _ _ _ H3) as (_ & _ & W3).
    destruct (convert_column_keeps to_datetime to_datetime_length
                [] _ _ _ H4 ltac:(intros [])) as (_ & _ & W4).
    pose proof (W4 (W3 (W2 W1))) as W.
    destruct (assign_keeps [] "BRAND" (Str brand) f4 W ltac:(intros []))
      as (_ & W5).
    split.
    + eapply keeps_column_is; [|apply assign_column_is; exact W].
      apply assign_keeps; [exact W5 | not_in].
    + apply assign_column_is. exact W5.
  - unfold transform_indication_final.
    destruct (select indication_order _) as [f1| |] eqn:H1; simpl;
      try discriminate.
    destruct (sort_values _ f1) as [f2| |] eqn:H2; simpl; try discriminate.
    destruct (Str.split "-" date_range) as [|s [|e [|x l]]];
      try discriminate.
    destruct (strptime_mdY s) as [start_date| |] eqn:Hs; simpl;
      try discriminate.
    destruct (strptime_mdY e) as [end_date| |] eqn:He; simpl;
      try discriminate.
    intros H6. exists s, e, start_date, end_date.
    split; [reflexivity|]. split; [exact Hs|]. split; [exact He|].
    destruct (select_keeps [] _ _ _ H1 ltac:(intros c [])) as (_ & W1 & _).
    destruct (sort_values_keeps sort_values sort_values_permutes [] _ _ _ H2)
      as (_ & _ & W2).
    pose proof (W2 W1) as W.
    set (g1 := assign "BRAND" (Str brand) f2) in *.
    set (g2 := assign "ACTIVITY START MONTH" (Stamp start_date) g1) in *.
    set (g3 := assign "ACTIVITY END MONTH" (Stamp end_date) g2) in *.
    destruct (assign_keeps [] "BRAND" (Str brand) f2 W ltac:(intros []))
      as (_ & Wg1). fold g1 in Wg1.
    destruct (assign_keeps [] "ACTIVITY START MONTH" (Stamp start_date) g1
                Wg1 ltac:(intros [])) as (_ & Wg2). fold g2 in Wg2.
    assert (B1 : column_is "BRAND" (Str brand) g1)
      by (apply assign_column_is; exact W).
    assert (B2 : column_is "BRAND" (Str brand) g2).
    { eapply keeps_column_is; [|exact B1].
      apply assign_keeps; [exact Wg1 | not_in]. }
    assert (B3 : column_is "BRAND" (Str brand) g3).
    { eapply keeps_column_is; [|exact B2].
      apply assign_keeps; [exact Wg2 | not_in]. }
    assert (S2 : column_is "ACTIVITY START MONTH" (Stamp start_date) g2)
      by (apply assign_column_is; exact Wg1).
    assert (S3 : column_is "ACTIVITY START MONTH" (Stamp start_date) g3).
    { eapply keeps_column_is; [|exact S2].
      apply assign_keeps; [exact Wg2 | not_in]. }
    assert (E3 : column_is "ACTIVITY END MONTH" (Stamp end_date) g3)
      by (apply assign_column_is; exact Wg2).
    repeat split.
    + eapply keeps_column_is; [|exact B3].
      eapply fillna_columns_keeps_other; [exact H6 | disjoint].
    + eapply keeps_column_is; [|exact S3].
      eapply fillna_columns_keeps_other; [exact H6 | disjoint].
    + eapply keeps_column_is; [|exact E3].
      eapply fillna_columns_keeps_other; [exact H6 | disjoint].
Qed.

(** X13: The monthly output: one row per row of the frame, each numeric column
    holding the cell of the frame with 0 in place of a missing value, and
    brand and indication in every row. *)
Theorem monthly_output_filled_and_stamped df brand indication out :
  well_shaped df ->
  distinct_labels (monthly_renamed df brand indication) ->
  transform_monthly_final to_datetime df brand indication = Return out ->
  filled monthly_numeric (monthly_renamed df brand indication) out /\
  column_is "BRAND" (Str brand) out /\
  column_is "INDICATION" (Str indication) out.
Proof.
  intros Hw _. unfold transform_monthly_final.
  set (f0 := monthly_renamed df brand indication).
  destruct (fillna_columns monthly_numeric f0) as [f1| |] eqn:H1; simpl;
    try discriminate.
  intros H2.
  destruct (assign_keeps [] "BRAND" (Str brand) df Hw ltac:(intros []))
    as (_ & W1).
  destruct (assign_keeps [] "INDICATION" (Str indication) _ W1
              ltac:(intros [])) as (_ & W2).
  assert (W0 : well_shaped f0) by (apply rename_well_shaped; exact W2).
  assert (Hn : ~ In "ACTIVITY MONTH" monthly_numeric) by not_in.
  destruct (fillna_columns_fills _ _ _ H1) as (K1 & _ & _).
  destruct (convert_column_keeps to_datetime to_datetime_length
              monthly_numeric _ _ _ H2 Hn) as (K2 & _ & _).
  assert (Hcols : forall c, In c monthly_numeric -> In c (columns f0)).
  { intros c Hc. unfold fillna_columns in H1.
    destruct (locs monthly_numeric (columns f0)) as [l| |] eqn:Hl;
      try discriminate.
    eapply locs_In; eauto. }
  split; [|split].
  - apply fills_filled; [exact W0 | exact Hcols |].
    eapply fills_keeps; [exact K1 | exact K2].
  - assert (B : column_is "BRAND" (Str brand) f0).
    { unfold f0, monthly_renamed.
      assert (B' : column_is "BRAND" (Str brand)
                     (assign "INDICATION" (Str indication)
                        (assign "BRAND" (Str brand) df))).
      { eapply keeps_column_is; [|apply assign_column_is; exact Hw].
        apply assign_keeps; [exact W1 | not_in]. }
      intros r Hr. specialize (B' r Hr). unfold at_ in *.
      rewrite monthly_rename_get_loc by auto. exact B'. }
    eapply keeps_column_is; [|eapply keeps_column_is; [|exact B]].
    + eapply convert_column_keeps; eauto. not_in.
    + eapply fillna_columns_keeps_other; [exact H1 | disjoint].
  - assert (B : column_is "INDICATION" (Str indication) f0).
    { unfold f0, monthly_renamed.
      assert (B' : column_is "INDICATION" (Str indication)
                     (assign "INDICATION" (Str indication)
                        (assign "BRAND" (Str brand) df)))
        by (apply assign_column_is; exact W1).
      intros r Hr. specialize (B' r Hr). unfold at_ in *.
      rewrite monthly_rename_get_loc by auto. exact B'. }
    eapply keeps_column_is; [|eapply keeps_column_is; [|exact B]].
    + eapply convert_column_keeps; eauto. not_in.
    + eapply fillna_columns_keeps_other; [exact H1 | disjoint].
Qed.

End Pandas.

Lemma output_columns_are_canonical_witness :
  columns scroll_output = scroll_order ++ ["BRAND"; "INDICATION"] /\
  columns lasttouch_output = lasttouch_order ++ ["BRAND"; "INDICATION"] /\
  columns indication_output
  = indication_order
    ++ ["BRAND"; "ACTIVITY START MONTH"; "ACTIVITY END MONTH"].
Proof.
  split; [|split].
  - apply (proj1 (output_columns_are_canonical reverse_rows keep_values
                    reverse_rows_permutes keep_values_length
                    pivoted_scroll "Sotyktu" "psoriasis"
                    "01012024-01312024")).
    + distinct.
    + reflexivity.
  - apply (proj1 (proj2 (output_columns_are_canonical reverse_rows
                    keep_values reverse_rows_permutes keep_values_length
                    pivoted_lasttouch "Sotyktu" "psoriasis"
                    "01012024-01312024"))).
    + distinct.
    + reflexivity.
  - apply (proj2 (proj2 (output_columns_are_canonical reverse_rows
                    keep_values reverse_rows_permutes keep_values_length
                    pivoted_indication "Sotyktu" "psoriasis"
                    "01012024-01312024"))).
    + distinct.
    + reflexivity.
Defined.

Lemma missing_column_is_key_error_witness :
  exists msg,
    transform_scroll_final reverse_rows keep_values pivoted_scroll_no_views
      "Sotyktu" "psoriasis"
    = Raise (KeyError msg).
Proof.
  apply (proj1 (missing_column_is_key_error reverse_rows keep_values
                  pivoted_scroll_no_views "Sotyktu" "psoriasis"
                  "01012024-01312024") "PAGE VIEWS").
  - simpl. auto.
  - not_in.
Defined.

Lemma every_row_is_stamped_witness :
  column_is "BRAND" (Str "Sotyktu") scroll_output /\
  column_is "INDICATION" (Str "psoriasis") scroll_output.
Proof.
  apply (proj1 (every_row_is_stamped reverse_rows keep_values
                  reverse_rows_permutes keep_values_length
                  pivoted_scroll "Sotyktu" "psoriasis" "01012024-01312024")).
  - distinct.
  - reflexivity.
Defined.

Lemma monthly_output_filled_and_stamped_witness :
  filled monthly_numeric (monthly_renamed monthly_frame "Sotyktu" "psoriasis")
    monthly_output /\
  column_is "BRAND" (Str "Sotyktu") monthly_output /\
  column_is "INDICATION" (Str "psoriasis") monthly_output.
Proof.
  apply (monthly_output_filled_and_stamped keep_values keep_values_length
           monthly_frame "Sotyktu" "psoriasis").
  - repeat constructor.
  - repeat constructor; simpl; intuition discriminate.
  - reflexivity.
Defined.

End ReshapeMoreSpec.

(* ================================================================= *)
(** ** Further properties of the searches and of the extraction *)

Module SheetMore.

Lemma append_nil_r (s : string) : (s ++ EmptyString)%string = s.
Proof. induction s; simpl; congruence. Qed.

Lemma append_assoc (a b c : string) :
  ((a ++ b) ++ c)%string = (a ++ (b ++ c))%string.
Proof. induction a; simpl; congruence. Qed.

Lemma prefix_append (p s : string) : prefix p (p ++ s) = true.
Proof.
  induction p as [|c p IH]; simpl; [destruct s; reflexivity|].
  destruct (ascii_dec c c); [exact IH | contradiction].
Qed.

(** Characters of a separator found earlier are passed over. *)
Lemma split_from_skip sep p cur t :
  Str.split_from sep (String.length p) cur (p ++ t)
  = Str.split_from sep 0 cur t.
Proof.
  induction p as [|c p IH]; [reflexivity|].
  cbn [String.length append Str.split_from]. exact IH.
Qed.

(** Without an occurrence of the separator there is one piece. *)
Lemma split_from_absent sep cur t :
  Str.contains sep t = false ->
  Str.split_from sep 0 cur t = [(cur ++ t)%string].
Proof.
  revert cur. induction t as [|c r IH]; intros cur Hc.
  - cbn [Str.split_from]. rewrite append_nil_r. reflexivity.
  - cbn [Str.contains] in Hc. apply orb_false_iff in Hc as [Hp Hr].
    cbn [Str.split_from]. rewrite Hp, (IH _ Hr), append_assoc. reflexivity.
Qed.

(** [(sep + t).split(sep)] is [['', t]] when [sep] does not occur in
    [t]. *)
Lemma split_marker_text sep t :
  sep <> EmptyString -> Str.contains sep t = false ->
  Str.split sep (sep ++ t) = [EmptyString; t].
Proof.
  intros Hsep Hc. unfold Str.split.
  destruct sep as [|c sep']; [contradiction|].
  change (String c sep' ++ t)%string with (String c (sep' ++ t)).
  cbn [Str.split_from].
  change (String c (sep' ++ t)) with (String c sep' ++ t)%string.
  rewrite prefix_append. f_equal.
  replace (String.length (String c sep') - 1)%nat with (String.length sep')
    by (cbn [String.length]; lia).
  rewrite split_from_skip.
  apply (split_from_absent _ EmptyString). exact Hc.
Qed.

Lemma find_marker_text_skip marker before rest :
  has_column0 before -> absent (marker_row marker) before ->
  find_marker_text marker (before ++ rest) = find_marker_text marker rest.
Proof.
  induction before as [|r before IH]; intros Hcol Habs; [reflexivity|].
  apply DriverSpec.has_column0_cons in Hcol as [Hr Hcol].
  apply DriverSpec.absent_cons in Habs as [Hmr Habs].
  destruct r as [|c cells]; [contradiction|].
  cbn [app find_marker_text].
  change (nth_error (c :: cells) 0) with (Some c).
  destruct c as [s| | |]; try (apply IH; assumption).
  cbn [marker_row str_startswith] in Hmr. rewrite Hmr.
  apply IH; assumption.
Qed.

(** X14: The suite is read from the first row whose column 0 starts with the
    marker, with the white space around it removed; a suite that is not in
    the mapping table is a [ValueError] that names it, and later suite
    rows are not looked at. *)
Theorem find_brand_and_indication_first_suite before t cells after :
  has_column0 before -> absent (marker_row "# Report suite: ") before ->
  Str.contains "# Report suite: " t = false ->
  find_brand_and_indication
    (before ++ (Str ("# Report suite: " ++ t) :: cells) :: after)
  = Print ("Found Adobe Analytics suite: " ++ Str.strip t)%string
      match mapping_get (Str.strip t) with
      | Some bi => Ret bi
      | None =>
          Throw (ValueError
            ("No mapping found for Adobe Analytics suite: " ++ Str.strip t)%string)
      end.
Proof.
  intros Hcol Habs Ht. unfold find_brand_and_indication.
  rewrite (find_marker_text_skip _ _ _ Hcol Habs).
  cbn [find_marker_text].
  change (nth_error (Str ("# Report suite: " ++ t) :: cells) 0)
    with (Some (Str ("# Report suite: " ++ t))).
  cbv iota. rewrite prefix_append.
  rewrite split_marker_text by (auto; discriminate).
  reflexivity.
Qed.

Lemma find_brand_and_indication_first_suite_witness :
  find_brand_and_indication
    ([[Str "Adobe"; NaN]]
     ++ (Str ("# Report suite: " ++ "  www.unknown.com_US_US ") :: [NaN])
     :: [[Str "# Report suite: www.opdivo.com_US_US"; NaN]])
  = Print "Found Adobe Analytics suite: www.unknown.com_US_US"
      (Throw (ValueError
         "No mapping found for Adobe Analytics suite: www.unknown.com_US_US")).
Proof.
  apply (find_brand_and_indication_first_suite
           [[Str "Adobe"; NaN]] "  www.unknown.com_US_US " [NaN]
           [[Str "# Report suite: www.opdivo.com_US_US"; NaN]]).
  - repeat constructor; discriminate.
  - intros r [<- | []]. reflexivity.
  - reflexivity.
Defined.

(** X15: A date text without [" - "], as that of a report of a single day, is
    refused as an unexpected date format, with the text in the message;
    nothing is printed. *)
Theorem find_report_date_range_without_separator before t cells after :
  has_column0 before -> absent (marker_row "# Date: ") before ->
  Str.contains "# Date: " t = false ->
  Str.contains " - " (Str.strip t) = false ->
  find_report_date_range
    (before ++ (Str ("# Date: " ++ t) :: cells) :: after)
  = Throw (ValueError
      ("Unexpected date format in the Excel file: " ++ Str.strip t)%string).
Proof.
  intros Hcol Habs Ht Hsep. unfold find_report_date_range.
  rewrite (find_marker_text_skip _ _ _ Hcol Habs).
  cbn [find_marker_text].
  change (nth_error (Str ("# Date: " ++ t) :: cells) 0)
    with (Some (Str ("# Date: " ++ t))).
  cbv iota. rewrite prefix_append.
  rewrite split_marker_text by (auto; discriminate).
  cbn [nth_error lift seq]. unfold format_date_range, Str.split.
  rewrite (split_from_absent _ EmptyString _ Hsep).
  reflexivity.
Qed.

Lemma find_report_date_range_without_separator_witness :
  find_report_date_range
    ([[Str "# Report suite: www.sotyktu.com_US_US"; NaN]]
     ++ (Str ("# Date: " ++ "Jan 1, 2024 ") :: [NaN]) :: [[NaN; NaN]])
  = Throw (ValueError "Unexpected date format in the Excel file: Jan 1, 2024").
Proof.
  apply (find_report_date_range_without_separator
           [[Str "# Report suite: www.sotyktu.com_US_US"; NaN]]
           "Jan 1, 2024 " [NaN] [[NaN; NaN]]).
  - repeat constructor; discriminate.
  - intros r [<- | []]. reflexivity.
  - reflexivity.
  - reflexivity.
Defined.

Lemma find_start_idx_skip table_marker before rest i :
  has_column0 before -> absent (table_marker_row table_marker) before ->
  find_start_idx table_marker (before ++ rest) i
  = find_start_idx table_marker rest (i + List.length before).
Proof.
  revert i. induction before as [|r before IH]; intros i Hcol Habs.
  - cbn [app List.length]. rewrite Nat.add_0_r. reflexivity.
  - apply DriverSpec.has_column0_cons in Hcol as [Hr Hcol].
    apply DriverSpec.absent_cons in Habs as [Hmr Habs].
    destruct r as [|c cells]; [contradiction|].
    cbn [app find_start_idx nth_error List.length].
    cbn [table_marker_row] in Hmr. rewrite Hmr.
    rewrite IH by assumption. f_equal. lia.
Qed.

(** X16: The monthly table is what lies between the second row after the first
    marker row and the first blank row after it: the marker row and the
    row under it are left out, and so is everything from the blank row
    on. *)
Theorem extract_monthly_block table_marker before m h block blank after :
  has_column0 before -> absent (table_marker_row table_marker) before ->
  table_marker_row table_marker m = true ->
  forallb not_blank block = true -> all_na blank = true ->
  extract_monthly_from_excel
    (before ++ m :: h :: block ++ blank :: after) table_marker
  = Return (("temp_extracted_" ++ Str.replace " " "_" table_marker
             ++ "_table.xlsx")%string, block).
Proof.
  intros Hcol Habs Hm Hblock Hblank. unfold extract_monthly_from_excel.
  rewrite (find_start_idx_skip _ _ _ _ Hcol Habs).
  destruct m as [|c cells]; [discriminate|].
  cbn [find_start_idx nth_error]. cbn [table_marker_row] in Hm. rewrite Hm.
  cbn [bind].
  set (df := before ++ (c :: cells) :: h :: block ++ blank :: after).
  assert (Hskip : skipn (0 + List.length before + 2) df
                  = block ++ blank :: after).
  { unfold df. replace (0 + List.length before + 2)%nat
      with (List.length before + 2)%nat by lia.
    rewrite skipn_app, skipn_all2 by lia.
    replace (List.length before + 2 - List.length before)%nat with 2%nat
      by lia.
    reflexivity. }
  assert (Hlen : (0 + List.length before + 2 <= List.length df)%nat).
  { unfold df. rewrite length_app. cbn [List.length]. lia. }
  destruct (SheetSpec.extract_until_blank_inside table_marker df _ Hlen)
    as [Hfound _].
  pose proof (Hfound block blank after Hskip Hblock Hblank) as E.
  subst df.
  match goal with
  | |- bind ?m _ = _ =>
      replace m with (@Return DataFrame block) by (symmetry; exact E)
  end.
  reflexivity.
Qed.

Lemma extract_monthly_block_witness :
  extract_monthly_from_excel sheet_two_tables "Freeform table"
  = Return ("temp_extracted_Freeform_table_table.xlsx",
            [ [Str "Month"; Str "Visits"];
              [NaN; Num 10];
              [Str "2024-01-01 00:00:00"; Num 10] ]).
Proof.
  apply (extract_monthly_block "Freeform table"
           [ [Str "# Report suite: www.sotyktu.com_US_US"; NaN];
             [Str "# Date: Jan 1, 2024 - Jan 31, 2024"; NaN] ]
           [Str "# Freeform table"; NaN] [Str "#"; NaN]
           [ [Str "Month"; Str "Visits"];
             [NaN; Num 10];
             [Str "2024-01-01 00:00:00"; Num 10] ]
           [NaN; NaN]
           [ [Str BANNER; NaN];
             [NaN; Str "Visits"];
             [NaN; Str "2024-01-01 00:00:00"];
             [Str "Last Touch Channel"; Num 10];
             [Str "Email"; Num 10] ]).
  - repeat constructor; discriminate.
  - intros r [<- | [<- | []]]; reflexivity.
  - reflexivity.
  - reflexivity.
  - reflexivity.
Defined.

Lemma split_space_absent cur t :
  no_space t -> Str.split_from " " 0 cur t = [(cur ++ t)%string].
Proof.
  revert cur. induction t as [|c r IH]; intros cur Ht.
  - cbn [Str.split_from]. rewrite append_nil_r. reflexivity.
  - destruct Ht as [Hc Hr]. cbn [Str.split_from prefix].
    destruct (ascii_dec " " c) as [E|_]; [symmetry in E; contradiction|].
    rewrite (IH _ Hr), append_assoc. reflexivity.
Qed.

Lemma split_space_first cur d rest :
  no_space d ->
  exists l, Str.split_from " " 0 cur (d ++ String " " rest)
            = (cur ++ d)%string :: l.
Proof.
  revert cur. induction d as [|c r IH]; intros cur Hd.
  - cbn [append Str.split_from prefix].
    destruct (ascii_dec " " " ") as [_|Hne]; [|contradiction].
    replace (prefix EmptyString rest) with true by (destruct rest; reflexivity).
    rewrite append_nil_r. eauto.
  - destruct Hd as [Hc Hr]. cbn [append Str.split_from prefix].
    destruct (ascii_dec " " c) as [E|_]; [symmetry in E; contradiction|].
    destruct (IH (cur ++ String c EmptyString)%string Hr) as [l ->].
    rewrite append_assoc. eauto.
Qed.

Lemma convert_date_format_before_space d rest :
  no_space d -> convert_date_format (d ++ String " " rest) = d.
Proof.
  intros Hd. unfold convert_date_format, Str.split.
  destruct (split_space_first EmptyString d rest Hd) as [l ->].
  reflexivity.
Qed.

(** X17: [convert_date_format] keeps what stands before the first space, and
    the whole text when it has no space. *)
Theorem convert_date_format_date_part d rest :
  no_space d ->
  convert_date_format (d ++ " " ++ rest) = d /\ convert_date_format d = d.
Proof.
  intros Hd. unfold convert_date_format, Str.split. split.
  - cbn [append].
    destruct (split_space_first EmptyString d rest Hd) as [l ->].
    reflexivity.
  - rewrite split_space_absent by exact Hd. reflexivity.
Qed.

Lemma convert_date_format_date_part_witness :
  convert_date_format ("2024-01-01" ++ " " ++ "00:00:00") = "2024-01-01" /\
  convert_date_format "2024-01-01" = "2024-01-01".
Proof.
  apply (convert_date_format_date_part "2024-01-01" "00:00:00").
  repeat split; discriminate.
Defined.

End SheetMore.

(* ================================================================= *)
(** ** The labels of the melted columns *)

Module HeadersSpec.

Import SheetMore.

Lemma split_ws_first cur w c rest :
  no_white w -> (cur ++ w)%string <> EmptyString -> Str.is_space c = true ->
  split_ws_from cur (w ++ String c rest)
  = (cur ++ w)%string :: split_ws_from EmptyString rest.
Proof.
  revert cur. induction w as [|a w IH]; intros cur Hw Hne Hc.
  - rewrite append_nil_r in *. cbn [append split_ws_from]. rewrite Hc.
    destruct cur; [contradiction | reflexivity].
  - destruct Hw as [Ha Hw]. cbn [append split_ws_from]. rewrite Ha.
    rewrite IH; [| exact Hw | | exact Hc].
    + rewrite append_assoc. reflexivity.
    + rewrite append_assoc. exact Hne.
Qed.

Lemma metric_of_first_word w c rest :
  no_white w -> w <> EmptyString -> Str.is_space c = true ->
  metric_of (w ++ String c rest) = Return w.
Proof.
  intros Hw Hne Hc. unfold metric_of, split_ws.
  rewrite split_ws_first by assumption. reflexivity.
Qed.

(** What a match of the pattern says of each character. *)
Lemma match_here_get p : forall x g k a,
  match_here p x = Some g -> nth_error p k = Some a ->
  exists c, String.get k x = Some c /\ atom_ok a c = true.
Proof.
  induction p as [|b p IH]; intros x g k a Hm Hk.
  - destruct k; discriminate.
  - destruct x as [|c r]; [discriminate|]. cbn [match_here] in Hm.
    destruct (atom_ok b c) eqn:Hb; [|discriminate].
    destruct (match_here p r) as [g'|] eqn:Hr; [|discriminate].
    destruct k as [|k].
    + injection Hk as <-. exists c. split; [reflexivity | exact Hb].
    + cbn [nth_error] in Hk. cbn [String.get].
      exact (IH r g' k a Hr Hk).
Qed.

Lemma no_white_get q : forall k c,
  no_white q -> String.get k q = Some c -> Str.is_space c = false.
Proof.
  induction q as [|a q IH]; intros k c Hq Hk; [destruct k; discriminate|].
  destruct Hq as [Ha Hq]. destruct k as [|k].
  - injection Hk as <-. exact Ha.
  - exact (IH k c Hq Hk).
Qed.

(** Up to its tenth character a time stamp has no space. *)
Lemma timestamp_get_early t k c :
  timestamp t -> (k < 10)%nat -> String.get k t = Some c -> c <> " "%char.
Proof.
  intros Ht Hk Hc ->.
  destruct (nth_error date_pattern k) as [a|] eqn:Ha.
  - destruct (match_here_get _ _ _ _ _ Ht Ha) as [c' [Hc' Hok]].
    rewrite Hc in Hc'. injection Hc' as <-.
    do 10 (destruct k as [|k];
           [cbv in Ha; injection Ha as <-; vm_compute in Hok; discriminate|]).
    lia.
  - do 10 (destruct k as [|k]; [discriminate|]). lia.
Qed.

Lemma timestamp_get_2 t c :
  timestamp t -> String.get 2 t = Some c -> c <> ":"%char.
Proof.
  intros Ht Hc ->.
  destruct (match_here_get _ _ _ 2%nat D Ht eq_refl) as [c' [Hc' Hok]].
  rewrite Hc in Hc'. injection Hc' as <-. discriminate.
Qed.

(** The pattern does not match where a word that is followed by a space
    and a time stamp starts or goes on. *)
Lemma match_here_inside_word q t :
  no_white q -> q <> EmptyString -> timestamp t ->
  match_here date_pattern (q ++ String " " t) = None.
Proof.
  intros Hq Hne Ht.
  destruct (match_here date_pattern (q ++ String " " t)) as [g|] eqn:Hm;
    [exfalso | reflexivity].
  destruct (match_here_get _ _ _ 10%nat (L " ") Hm eq_refl) as [c [Hc Hok]].
  destruct (match_here_get _ _ _ 13%nat (L ":") Hm eq_refl) as [d [Hd Hdok]].
  cbn [atom_ok] in Hok, Hdok.
  apply Ascii.eqb_eq in Hok, Hdok. subst c d.
  assert (Hlen : (0 < String.length q)%nat)
    by (destruct q; [contradiction | cbn [String.length]; lia]).
  destruct (Nat.lt_trichotomy (String.length q) 10) as [Hlt | [Heq | Hgt]].
  - replace 10%nat with ((10 - String.length q) + String.length q)%nat in Hc
      by lia.
    rewrite <- append_correct2 in Hc.
    destruct (10 - String.length q)%nat as [|k] eqn:Hk; [lia|].
    cbn [String.get] in Hc.
    exact (timestamp_get_early t k " "%char Ht ltac:(lia) Hc eq_refl).
  - replace 13%nat with (3 + String.length q)%nat in Hd by lia.
    rewrite <- append_correct2 in Hd. cbn [String.get] in Hd.
    exact (timestamp_get_2 t ":"%char Ht Hd eq_refl).
  - rewrite <- append_correct1 in Hc by lia.
    pose proof (no_white_get q _ _ Hq Hc) as Hs. discriminate.
Qed.

Lemma search_timestamp t : timestamp t -> search date_pattern t = Some t.
Proof.
  intros Ht. unfold timestamp in Ht.
  destruct t; cbn [search]; rewrite Ht; reflexivity.
Qed.

Lemma search_after_space t :
  timestamp t -> search date_pattern (String " " t) = Some t.
Proof.
  intros Ht. cbn [search]. 
  change (match_here date_pattern (String " " t)) with (@None string).
  cbv iota. exact (search_timestamp t Ht).
Qed.

Lemma search_after_word q t :
  no_white q -> timestamp t ->
  search date_pattern (q ++ String " " t) = Some t.
Proof.
  intros Hq Ht. induction q as [|a q IH].
  - exact (search_after_space t Ht).
  - pose proof (match_here_inside_word (String a q) t Hq ltac:(discriminate) Ht)
      as Hn.
    cbn [append] in *. cbn [search]. rewrite Hn.
    apply IH. exact (proj2 Hq).
Qed.

Lemma search_after_no_digit g t :
  no_digit g -> timestamp t ->
  search date_pattern (g ++ String " " t) = Some t.
Proof.
  intros Hg Ht. induction g as [|a g IH].
  - exact (search_after_space t Ht).
  - destruct Hg as [Ha Hg]. cbn [append search].
    replace (match_here date_pattern (String a (g ++ String " " t)))
      with (@None string)
      by (cbn [match_here date_pattern atom_ok]; rewrite Ha; reflexivity).
    exact (IH Hg).
Qed.

(** The date part of a time stamp is its first ten characters. *)
Lemma convert_date_format_timestamp t :
  timestamp t -> convert_date_format t = String.substring 0 10 t.
Proof.
  intros Ht.
  assert (Hshape : exists d h, t = (d ++ " " ++ h)%string /\ no_space d /\
                               String.substring 0 10 t = d).
  { assert (E : forall k c, (k < 10)%nat -> String.get k t = Some c ->
                            c <> " "%char)
      by (intros k c Hk Hc; exact (timestamp_get_early t k c Ht Hk Hc)).
    destruct (match_here_get _ _ _ 10%nat (L " ") Ht eq_refl)
      as [c [Hc Hok]].
    cbn [atom_ok] in Hok. apply Ascii.eqb_eq in Hok. subst c.
    do 11 (destruct t as [|? t]; [discriminate|]).
    cbn [String.get] in Hc. injection Hc as ->.
    eexists. exists t. split; [| split]; [| | reflexivity].
    - reflexivity.
    - cbn [no_space].
      repeat split;
        first [ exact (E 0%nat _ ltac:(lia) eq_refl)
              | exact (E 1%nat _ ltac:(lia) eq_refl)
              | exact (E 2%nat _ ltac:(lia) eq_refl)
              | exact (E 3%nat _ ltac:(lia) eq_refl)
              | exact (E 4%nat _ ltac:(lia) eq_refl)
              | exact (E 5%nat _ ltac:(lia) eq_refl)
              | exact (E 6%nat _ ltac:(lia) eq_refl)
              | exact (E 7%nat _ ltac:(lia) eq_refl)
              | exact (E 8%nat _ ltac:(lia) eq_refl)
              | exact (E 9%nat _ ltac:(lia) eq_refl) ]. }
  destruct Hshape as [d [h [E [Hd ->]]]]. rewrite E.
  exact (convert_date_format_before_space d h Hd).
Qed.

Lemma no_space_replace g : no_space (Str.replace " " EmptyString g).
Proof.
  induction g as [|c g IH]; [exact I|]. cbn [Str.replace].
  destruct (Ascii.eqb c " ") eqn:E; [exact IH|].
  split; [| exact IH]. intros ->. discriminate.
Qed.

Lemma split_once_first cur d rest :
  no_space d ->
  split_once_from cur (d ++ String " " rest) = [(cur ++ d)%string; rest].
Proof.
  revert cur. induction d as [|c d IH]; intros cur Hd.
  - cbn [append split_once_from]. rewrite append_nil_r. reflexivity.
  - destruct Hd as [Hc Hd]. cbn [append split_once_from].
    destruct (Ascii.eqb c " ") eqn:E;
      [apply Ascii.eqb_eq in E; contradiction|].
    rewrite (IH _ Hd), append_assoc. reflexivity.
Qed.

(** X18: A scroll column whose second header cell is a time stamp is a date
    column; its metric is the first header cell without its spaces and its
    month is the date of the time stamp, also when the metric has digits
    of its own. *)
Theorem scroll_label_splits g t :
  no_white (Str.replace " " EmptyString g) ->
  Str.replace " " EmptyString g <> EmptyString ->
  timestamp t ->
  is_date_column (squeezed g t) = true /\
  metric_of (squeezed g t) = Return (Str.replace " " EmptyString g) /\
  activity_month (squeezed g t) = String.substring 0 10 t.
Proof.
  intros Hw Hne Ht.
  change (squeezed g t)
    with (Str.replace " " EmptyString g ++ String " " t)%string.
  unfold is_date_column, activity_month.
  rewrite (search_after_word _ t Hw Ht).
  split; [reflexivity | split].
  - apply metric_of_first_word; [exact Hw | exact Hne | reflexivity].
  - exact (convert_date_format_timestamp t Ht).
Qed.

Lemma scroll_label_splits_witness :
  is_date_column (squeezed "Page Scroll 25%" "2024-01-01 00:00:00") = true /\
  metric_of (squeezed "Page Scroll 25%" "2024-01-01 00:00:00")
  = Return (Str.replace " " EmptyString "Page Scroll 25%") /\
  activity_month (squeezed "Page Scroll 25%" "2024-01-01 00:00:00")
  = String.substring 0 10 "2024-01-01 00:00:00".
Proof.
  apply (scroll_label_splits "Page Scroll 25%" "2024-01-01 00:00:00").
  - vm_compute. repeat split; reflexivity.
  - vm_compute. discriminate.
  - reflexivity.
Defined.

(** X19: The last-touch labels keep the spaces of the first header cell, so the
    metric of a column is the first word of that cell only: what follows
    the word does not reach the metric, and two cells that start with the
    same word give the same metric.  The month is the date of the time
    stamp. *)
Theorem lasttouch_label_splits w rest t :
  no_white w -> w <> EmptyString -> no_digit (w ++ " " ++ rest) ->
  timestamp t ->
  is_date_column (combined (w ++ " " ++ rest) t) = true /\
  metric_of (combined (w ++ " " ++ rest) t) = Return w /\
  activity_month (combined (w ++ " " ++ rest) t) = String.substring 0 10 t.
Proof.
  intros Hw Hne Hd Ht. unfold is_date_column, activity_month.
  change (combined (w ++ " " ++ rest) t)
    with ((w ++ " " ++ rest) ++ String " " t)%string.
  rewrite (search_after_no_digit _ t Hd Ht).
  split; [reflexivity | split].
  - rewrite append_assoc.
    change (" " ++ rest)%string with (String " " rest).
    change (String " " rest ++ String " " t)%string
      with (String " " (rest ++ String " " t)).
    apply metric_of_first_word; [exact Hw | exact Hne | reflexivity].
  - exact (convert_date_format_timestamp t Ht).
Qed.

Lemma lasttouch_label_splits_witness :
  is_date_column
    (combined ("Page" ++ " " ++ "Views / Visits") "2024-01-01 00:00:00")
  = true /\
  metric_of
    (combined ("Page" ++ " " ++ "Views / Visits") "2024-01-01 00:00:00")
  = Return "Page" /\
  activity_month
    (combined ("Page" ++ " " ++ "Views / Visits") "2024-01-01 00:00:00")
  = String.substring 0 10 "2024-01-01 00:00:00".
Proof.
  apply (lasttouch_label_splits "Page" "Views / Visits" "2024-01-01 00:00:00").
  - vm_compute. repeat split; reflexivity.
  - discriminate.
  - vm_compute. repeat split; reflexivity.
  - reflexivity.
Defined.

(** X20: An indication label splits back into the first header cell without
    its spaces and the second header cell, whatever the two cells hold:
    spaces of the channel stay in the channel. *)
Theorem indication_label_splits g channel :
  split_once (squeezed g channel)
  = [Str.replace " " EmptyString g; channel].
Proof.
  change (squeezed g channel)
    with (Str.replace " " EmptyString g ++ String " " channel)%string.
  unfold split_once.
  exact (split_once_first EmptyString _ channel (no_space_replace g)).
Qed.

(** X21: The date part taken in [transform_monthly_excel] is the one of
    [convert_date_format], on every text. *)
Theorem monthly_date_part_is_convert_date_format x :
  monthly_date_part x = convert_date_format x.
Proof.
  unfold monthly_date_part, convert_date_format.
  destruct (Str.contains " " x) eqn:E; [reflexivity|].
  unfold Str.split. rewrite (split_from_absent _ EmptyString x E).
  reflexivity.
Qed.

End HeadersSpec.
